(** * DeepDive research agent: the orchestration core

    A shallow embedding of the coordinator component [App] (its handlers
    [handleInitialRequest], [handlePlanApproval], [handleKeyDown]), of the three
    agents of [services/gemini.ts] ([createResearchPlan], [executeResearchStep],
    [generateFinalReportStream]) and of the plan editor [PlanReview]
    ([handleAdd], [handleRemove], [handleEdit]).

    React state is a record threaded through a state-and-rejection monad
    [Async]; the generative model, the clock and the report stream are oracles
    of a [World].  Every handler runs from its call to its settlement without
    another handler interleaved. *)

From Stdlib Require Import List String Ascii Bool Arith NArith Lia.
From Stdlib Require Import DecimalString DecimalN.
Import ListNotations.
Local Open Scope string_scope.

(** ** JavaScript strings *)

(** Strings are sequences of 8-bit code units.  [isWhiteSpace] lists the
    code units below 256 that [String.prototype.trim] strips: TAB, LF, VT, FF,
    CR, SPACE and NBSP. *)
Definition isWhiteSpace (c : ascii) : bool :=
  let n := nat_of_ascii c in
  ((n =? 9) || (n =? 10) || (n =? 11) || (n =? 12) || (n =? 13) || (n =? 32)
   || (n =? 160))%nat.

Fixpoint trimStart (s : string) : string :=
  match s with
  | EmptyString => EmptyString
  | String c s' => if isWhiteSpace c then trimStart s' else s
  end.

Fixpoint trimEnd (s : string) : string :=
  match s with
  | EmptyString => EmptyString
  | String c s' =>
      match trimEnd s' with
      | EmptyString => if isWhiteSpace c then EmptyString else String c EmptyString
      | t => String c t
      end
  end.

Definition trim (s : string) : string := trimEnd (trimStart s).

(** Truthiness of a string: only the empty string is falsy. *)
Definition truthy (s : string) : bool :=
  match s with
  | EmptyString => false
  | String _ _ => true
  end.

(** Truthiness of a possibly undefined string. *)
Definition truthy_opt (o : option string) : bool :=
  match o with
  | Some s => truthy s
  | None => false
  end.

(** [a || b] on a possibly undefined string. *)
Definition or_else (o : option string) (dflt : string) : string :=
  match o with
  | Some s => if truthy s then s else dflt
  | None => dflt
  end.

(** [Number.prototype.toString] on a non-negative integer. *)
Definition toString (n : N) : string := NilEmpty.string_of_uint (N.to_uint n).

Definition dquote : string := String (ascii_of_nat 34) EmptyString.

(** ** types.ts *)

Inductive Role := user | model | system.

Inductive StepStatus := pending | step_researching | step_completed | failed.

Inductive Phase := idle | planning | reviewing | researching | reporting | completed.

Definition Phase_eqb (p q : Phase) : bool :=
  match p, q with
  | idle, idle | planning, planning | reviewing, reviewing
  | researching, researching | reporting, reporting | completed, completed => true
  | _, _ => false
  end.

Module Source.
Record t := mk { title : string; uri : string }.
End Source.
Abbreviation Source := Source.t.

Module ResearchStep.
Record t := mk {
    id : string;
    query : string;
    status : StepStatus;
    finding : option string;
    sources : option (list Source)
}.
End ResearchStep.
Abbreviation ResearchStep := ResearchStep.t.

Module ResearchPlan.
Record t := mk { topic : string; steps : list ResearchStep }.
End ResearchPlan.
Abbreviation ResearchPlan := ResearchPlan.t.

Module Message.
Record t := mk {
    id : string;
    role : Role;
    content : string;
    timestamp : N;
    isThinking : option bool;
    searchQueries : option (list string);
    plan : option ResearchPlan
}.
End Message.
Abbreviation Message := Message.t.

Module ArtifactState.
Record t := mk {
    title : string;
    content : string;
    phase : Phase;
    sources : list Source;
    currentStepId : option string
}.

(** The object spreads of the coordinator, [{ ...prev, field: v }]. *)
Definition with_phase (p : Phase) (prev : t) : t :=
    mk (title prev) (content prev) p (sources prev) (currentStepId prev).
Definition with_currentStepId (i : option string) (prev : t) : t :=
    mk (title prev) (content prev) (phase prev) (sources prev) i.
Definition with_sources (l : list Source) (prev : t) : t :=
    mk (title prev) (content prev) (phase prev) l (currentStepId prev).
Definition with_content (c : string) (prev : t) : t :=
    mk (title prev) c (phase prev) (sources prev) (currentStepId prev).
End ArtifactState.
Abbreviation ArtifactState := ArtifactState.t.

(** What [executeResearchStep] resolves to. *)
Module ResearchResult.
Record t := mk { finding : string; sources : list Source }.
End ResearchResult.

(** ** The outside world *)

(** What [JSON.parse] made of the planner's text, as far as
    [createResearchPlan] looks at it: the [query] of each item of [json.steps]. *)
Inductive ParsedPlan :=
| ParseError
| NoStepsArray
| StepsArray (queries : list string).

Inductive PlannerReply :=
| PlannerRejects
| PlannerResponds (text : option string) (json : ParsedPlan).

Module Web.
Record t := mk { uri : option string; title : option string }.
End Web.

Module GroundingChunk.
Record t := mk { web : option Web.t }.
End GroundingChunk.

(** [groundingChunks] is the result of the optional chain
    [response.candidates?.[0]?.groundingMetadata?.groundingChunks]; an element
    of the array that is null or undefined is [None]. *)
Module GenerateContentResponse.
Record t := mk {
    text : option string;
    groundingChunks : option (list (option GroundingChunk.t))
}.
End GenerateContentResponse.

Inductive ResearcherReply :=
| ResearcherRejects
| ResearcherResponds (response : GenerateContentResponse.t).

(** The report stream: [generateContentStream] rejects, or yields chunks (each
    with a possibly undefined text) and then ends or throws. *)
Inductive ReporterReply :=
| StreamRejects
| StreamOpens (chunks : list (option string)) (ends : bool).

(** The oracles.  The first argument counts the earlier calls of the same
    operation, so that two calls with equal arguments may differ. *)
Record World := {
  clock : nat -> N;
  planner_api : nat -> string -> PlannerReply;
  researcher_api : nat -> ResearchStep -> ResearcherReply;
  reporter_api : nat -> string -> list ResearchStep -> ReporterReply
}.

(** ** The coordinator's state and its effects *)

(** The four [useState] cells of [App], followed by what the run has done to
    its surroundings: how often the clock was read, the arguments of every
    call of an agent, and every value [setArtifact] has stored, oldest first. *)
Record Sys := {
  input : string;
  messages : list Message;
  artifact : ArtifactState;
  currentPlan : option ResearchPlan;
  clock_reads : nat;
  planner_calls : list string;
  researcher_calls : list ResearchStep;
  reporter_calls : list (string * list ResearchStep);
  artifact_log : list ArtifactState
}.

(** How a promise settles. *)
Inductive Settled (A : Type) :=
| Fulfilled (a : A)
| Rejected.
Arguments Fulfilled {A} a.
Arguments Rejected {A}.

Definition Async (A : Type) : Type := Sys -> Settled A * Sys.

Definition ret {A} (a : A) : Async A := fun s => (Fulfilled a, s).

Definition throw {A} : Async A := fun s => (Rejected, s).

Definition bind {A B} (c : Async A) (k : A -> Async B) : Async B :=
  fun s =>
    match c s with
    | (Fulfilled a, s') => k a s'
    | (Rejected, s') => (Rejected, s')
    end.

(** [try { body } catch (e) { handler }] *)
Definition try_catch {A} (body handler : Async A) : Async A :=
  fun s =>
    match body s with
    | (Fulfilled a, s') => (Fulfilled a, s')
    | (Rejected, s') => handler s'
    end.

Declare Scope async_scope.
Delimit Scope async_scope with async.
Notation "x <- c ;; k" := (bind c (fun x => k))
  (at level 61, c at next level, right associativity) : async_scope.
Notation "c ;; k" := (bind c (fun _ => k))
  (at level 61, right associativity) : async_scope.
Local Open Scope async_scope.

Definition getInput : Async string := fun s => (Fulfilled (input s), s).

Definition getPhase : Async Phase :=
  fun s => (Fulfilled (ArtifactState.phase (artifact s)), s).

Definition setInput (v : string) : Async unit :=
  fun s =>
    (Fulfilled tt,
     {| input := v; messages := messages s; artifact := artifact s;
        currentPlan := currentPlan s; clock_reads := clock_reads s;
        planner_calls := planner_calls s; researcher_calls := researcher_calls s;
        reporter_calls := reporter_calls s; artifact_log := artifact_log s |}).

Definition setMessages (f : list Message -> list Message) : Async unit :=
  fun s =>
    (Fulfilled tt,
     {| input := input s; messages := f (messages s); artifact := artifact s;
        currentPlan := currentPlan s; clock_reads := clock_reads s;
        planner_calls := planner_calls s; researcher_calls := researcher_calls s;
        reporter_calls := reporter_calls s; artifact_log := artifact_log s |}).

Definition setArtifact (f : ArtifactState -> ArtifactState) : Async unit :=
  fun s =>
    (Fulfilled tt,
     {| input := input s; messages := messages s; artifact := f (artifact s);
        currentPlan := currentPlan s; clock_reads := clock_reads s;
        planner_calls := planner_calls s; researcher_calls := researcher_calls s;
        reporter_calls := reporter_calls s;
        artifact_log := artifact_log s ++ [f (artifact s)] |}).

Definition setCurrentPlan (p : option ResearchPlan) : Async unit :=
  fun s =>
    (Fulfilled tt,
     {| input := input s; messages := messages s; artifact := artifact s;
        currentPlan := p; clock_reads := clock_reads s;
        planner_calls := planner_calls s; researcher_calls := researcher_calls s;
        reporter_calls := reporter_calls s; artifact_log := artifact_log s |}).

Section Agents.

Variable W : World.

(** [Date.now()] *)
Definition Date_now : Async N :=
  fun s =>
    (Fulfilled (clock W (clock_reads s)),
     {| input := input s; messages := messages s; artifact := artifact s;
        currentPlan := currentPlan s; clock_reads := S (clock_reads s);
        planner_calls := planner_calls s; researcher_calls := researcher_calls s;
        reporter_calls := reporter_calls s; artifact_log := artifact_log s |}).

(** The planner's [ai.models.generateContent] followed by [JSON.parse]. *)
Definition call_planner (topic : string) : Async PlannerReply :=
  fun s =>
    (Fulfilled (planner_api W (List.length (planner_calls s)) topic),
     {| input := input s; messages := messages s; artifact := artifact s;
        currentPlan := currentPlan s; clock_reads := clock_reads s;
        planner_calls := planner_calls s ++ [topic];
        researcher_calls := researcher_calls s;
        reporter_calls := reporter_calls s; artifact_log := artifact_log s |}).

(** The researcher's [ai.models.generateContent]. *)
Definition call_researcher (step : ResearchStep) : Async ResearcherReply :=
  fun s =>
    (Fulfilled (researcher_api W (List.length (researcher_calls s)) step),
     {| input := input s; messages := messages s; artifact := artifact s;
        currentPlan := currentPlan s; clock_reads := clock_reads s;
        planner_calls := planner_calls s;
        researcher_calls := researcher_calls s ++ [step];
        reporter_calls := reporter_calls s; artifact_log := artifact_log s |}).

(** The reporter's [ai.models.generateContentStream]. *)
Definition call_reporter (topic : string) (completedSteps : list ResearchStep)
  : Async ReporterReply :=
  fun s =>
    (Fulfilled (reporter_api W (List.length (reporter_calls s)) topic completedSteps),
     {| input := input s; messages := messages s; artifact := artifact s;
        currentPlan := currentPlan s; clock_reads := clock_reads s;
        planner_calls := planner_calls s; researcher_calls := researcher_calls s;
        reporter_calls := reporter_calls s ++ [(topic, completedSteps)];
        artifact_log := artifact_log s |}).

(** ** services/gemini.ts *)

(** [json.steps.map((s, i) => ({ id: `step-${i}`, query: s.query, status: 'pending' }))],
    from index [i] on. *)
Fixpoint number_steps (i : nat) (queries : list string) : list ResearchStep :=
  match queries with
  | [] => []
  | q :: rest =>
      ResearchStep.mk ("step-" ++ toString (N.of_nat i)) q pending None None
      :: number_steps (S i) rest
  end.

(** AGENT 1: PLANNER.  A text that is undefined or empty is replaced by
    [{"steps": []}] before parsing; a text that does not parse, or parses to
    an object without a [steps] array, makes the function reject. *)
Definition createResearchPlan (topic : string) : Async ResearchPlan :=
  reply <- call_planner topic ;;
  match reply with
  | PlannerRejects => throw
  | PlannerResponds text json =>
      match (if truthy_opt text then json else StepsArray []) with
      | ParseError => throw
      | NoStepsArray => throw
      | StepsArray queries =>
          ret (ResearchPlan.mk topic (number_steps 0 queries))
      end
  end.

(** The [forEach] over the grounding chunks, pushing onto [sources].  Reading
    [chunk.web] of a null chunk throws: the result is then [None]. *)
Fixpoint extract_sources (chunks : list (option GroundingChunk.t))
    (sources : list Source) : option (list Source) :=
  match chunks with
  | [] => Some sources
  | None :: _ => None
  | Some chunk :: rest =>
      match GroundingChunk.web chunk with
      | Some web =>
          match Web.uri web, Web.title web with
          | Some u, Some t =>
              if truthy u && truthy t
              then extract_sources rest (sources ++ [Source.mk t u])
              else extract_sources rest sources
          | _, _ => extract_sources rest sources
          end
      | None => extract_sources rest sources
      end
  end.

Definition degraded : ResearchResult.t :=
  ResearchResult.mk "Failed to fetch info for this step." [].

(** The body of the [try] block of [executeResearchStep]. *)
Definition research_attempt (step : ResearchStep) : Async ResearchResult.t :=
  reply <- call_researcher step ;;
  match reply with
  | ResearcherRejects => throw
  | ResearcherResponds response =>
      let finding :=
        or_else (GenerateContentResponse.text response) "No information found." in
      match GenerateContentResponse.groundingChunks response with
      | Some groundingChunks =>
          match extract_sources groundingChunks [] with
          | Some sources => ret (ResearchResult.mk finding sources)
          | None => throw
          end
      | None => ret (ResearchResult.mk finding [])
      end
  end.

(** AGENT 2: RESEARCHER. *)
Definition executeResearchStep (step : ResearchStep) : Async ResearchResult.t :=
  try_catch (research_attempt step) (ret degraded).

(** [for await (const chunk of responseStream) { if (chunk.text) onChunk(chunk.text) }] *)
Fixpoint for_await (chunks : list (option string))
    (onChunk : string -> Async unit) : Async unit :=
  match chunks with
  | [] => ret tt
  | text :: rest =>
      match text with
      | Some t => if truthy t then onChunk t else ret tt
      | None => ret tt
      end ;;
      for_await rest onChunk
  end.

(** AGENT 3: REPORTER.  The prompt is a function of [topic] and
    [completedSteps], which the oracle receives as they are. *)
Definition generateFinalReportStream (topic : string)
    (completedSteps : list ResearchStep) (onChunk : string -> Async unit)
  : Async unit :=
  reply <- call_reporter topic completedSteps ;;
  match reply with
  | StreamRejects => throw
  | StreamOpens chunks ends =>
      for_await chunks onChunk ;;
      if ends then ret tt else throw
  end.

(** ** App.tsx *)

(** The state of [App] at its first render. *)
Definition App_initial : Sys :=
  {| input := "";
     messages :=
       [Message.mk "welcome" system
          "Welcome to DeepDive. I am your AI Research Agent. I will coordinate a Planner, Researcher, and Reporter to investigate any topic for you."
          (clock W 0) None None None];
     artifact := ArtifactState.mk "Research Hub" "" idle [] None;
     currentPlan := None;
     clock_reads := 1;
     planner_calls := [];
     researcher_calls := [];
     reporter_calls := [];
     artifact_log := [] |}.

(** The update of the placeholder message once the plan has arrived. *)
Definition show_plan (thinkingId : string) (plan : ResearchPlan) (m : Message)
  : Message :=
  if (Message.id m =? thinkingId)%string
  then Message.mk (Message.id m) (Message.role m)
         "Planner: I've outlined a strategy. Please review it below."
         (Message.timestamp m) (Some false) (Message.searchQueries m) (Some plan)
  else m.

(** PHASE 1: PLAN *)
Definition handleInitialRequest : Async unit :=
  input <- getInput ;;
  if negb (truthy (trim input)) then ret tt else
  let topic := input in
  setInput "" ;;
  id0 <- Date_now ;;
  ts0 <- Date_now ;;
  let userMsg := Message.mk (toString id0) user topic ts0 None None None in
  setMessages (fun prev => (prev ++ [userMsg])%list) ;;
  setArtifact (fun _ => ArtifactState.mk topic "" planning [] None) ;;
  now1 <- Date_now ;;
  let thinkingId := toString (now1 + 1) in
  ts1 <- Date_now ;;
  setMessages (fun prev => (prev ++
    [Message.mk thinkingId model
       ("Coordinator: Activating Planner agent for " ++ dquote ++ topic ++ dquote ++ "...")
       ts1 (Some true) None None])%list) ;;
  try_catch
    (plan <- createResearchPlan topic ;;
     setCurrentPlan (Some plan) ;;
     setMessages (fun prev => map (show_plan thinkingId plan) prev) ;;
     setArtifact (ArtifactState.with_phase reviewing))
    (id2 <- Date_now ;;
     ts2 <- Date_now ;;
     setMessages (fun prev => (prev ++
       [Message.mk (toString id2) model
          "Planner failed to generate a plan. Please try again."
          ts2 None None None])%list) ;;
     setArtifact (ArtifactState.with_phase idle)).

(** [new Set(prev.sources.map(s => s.uri)).has(u)] *)
Definition has_uri (sources : list Source) (u : string) : bool :=
  existsb (fun s => (Source.uri s =? u)%string) sources.

(** The artifact update after a step: the sources of the result whose uri
    is not among the accumulated ones are appended. *)
Definition accumulate_sources (result : ResearchResult.t) (prev : ArtifactState)
  : ArtifactState :=
  let uniqueNew :=
    filter (fun s => negb (has_uri (ArtifactState.sources prev) (Source.uri s)))
      (ResearchResult.sources result) in
  ArtifactState.with_sources (ArtifactState.sources prev ++ uniqueNew) prev.

(** [{ ...step, status: 'completed', ...result }] *)
Definition complete (step : ResearchStep) (result : ResearchResult.t) : ResearchStep :=
  ResearchStep.mk (ResearchStep.id step) (ResearchStep.query step) step_completed
    (Some (ResearchResult.finding result)) (Some (ResearchResult.sources result)).

(** [for (const step of approvedPlan.steps) { ... }], with [completedSteps]
    as it stands when the loop reaches [steps]; the pacing delay changes no
    state.  The result is [completedSteps] after the loop. *)
Fixpoint research_loop (steps : list ResearchStep)
    (completedSteps : list ResearchStep) : Async (list ResearchStep) :=
  match steps with
  | [] => ret completedSteps
  | step :: rest =>
      setArtifact (ArtifactState.with_currentStepId (Some (ResearchStep.id step))) ;;
      result <- executeResearchStep step ;;
      let completedStep := complete step result in
      setArtifact (accumulate_sources result) ;;
      research_loop rest (completedSteps ++ [completedStep])
  end.

(** The chunk callback [handlePlanApproval] hands to the reporter. *)
Definition append_chunk (chunk : string) : Async unit :=
  setArtifact (fun prev =>
    ArtifactState.with_content (ArtifactState.content prev ++ chunk) prev).

(** PHASE 2: EXECUTE RESEARCH (Loop), then PHASE 3: REPORT *)
Definition handlePlanApproval (approvedPlan : ResearchPlan) : Async unit :=
  setCurrentPlan (Some approvedPlan) ;;
  id0 <- Date_now ;;
  ts0 <- Date_now ;;
  setMessages (fun prev => (prev ++
    [Message.mk (toString id0) model
       "Plan approved. Deploying Researcher agent now. Check the sidebar for live progress."
       ts0 None None None])%list) ;;
  setArtifact (ArtifactState.with_phase researching) ;;
  completedSteps <- research_loop (ResearchPlan.steps approvedPlan) [] ;;
  setArtifact (fun prev =>
    ArtifactState.with_currentStepId None (ArtifactState.with_phase reporting prev)) ;;
  id1 <- Date_now ;;
  ts1 <- Date_now ;;
  setMessages (fun prev => (prev ++
    [Message.mk (toString id1) model
       "Research complete. Reporter agent is compiling the final artifact..."
       ts1 None None None])%list) ;;
  generateFinalReportStream (ResearchPlan.topic approvedPlan) completedSteps
    append_chunk ;;
  setArtifact (ArtifactState.with_phase completed).

Record KeyboardEvent := { key : string; shiftKey : bool }.

Definition accepts_submission (p : Phase) : bool :=
  Phase_eqb p idle || Phase_eqb p completed.

(** The [onKeyDown] handler of the input field.  The promise of
    [handleInitialRequest] is not awaited. *)
Definition handleKeyDown (e : KeyboardEvent) : Async unit :=
  if (key e =? "Enter")%string && negb (shiftKey e) then
    phase <- getPhase ;;
    if accepts_submission phase then handleInitialRequest else ret tt
  else ret tt.

(** The [disabled] attribute of the send button. *)
Definition send_disabled (s : Sys) : bool :=
  negb (truthy (trim (input s)))
  || negb (accepts_submission (ArtifactState.phase (artifact s))).

(** A click on the send button: a disabled button delivers no click,
    otherwise [onClick] is [handleInitialRequest]. *)
Definition send_click : Async unit :=
  fun s => if send_disabled s then (Fulfilled tt, s) else handleInitialRequest s.

End Agents.

(** ** App.tsx: the research log *)

(** How the research log shows a step. *)
Inductive StepBadge := badge_active | badge_done | badge_pending.

(** [artifact.currentStepId === step.id] *)
Definition is_current (artifact : ArtifactState) (step : ResearchStep) : bool :=
  match ArtifactState.currentStepId artifact with
  | Some current => (current =? ResearchStep.id step)%string
  | None => false
  end.

(** The [status] computed for the step at index [idx] of [currentPlan.steps]. *)
Definition step_badge (artifact : ArtifactState) (idx : nat) (step : ResearchStep)
  : StepBadge :=
  if is_current artifact step then badge_active
  else if (idx * 2 <? List.length (ArtifactState.sources artifact))%nat
       then badge_done
       else badge_pending.

(** ** components/PlanReview.tsx *)

Module PlanReview.

(** The [plan] prop and the two [useState] cells of the component. *)
Record State := {
  plan : ResearchPlan;
  steps : list ResearchStep;
  newStepText : string
}.

(** The first render: [useState(plan.steps)] and [useState('')]. *)
Definition mount (plan : ResearchPlan) : State :=
  {| plan := plan; steps := ResearchPlan.steps plan; newStepText := "" |}.

Definition setNewStepText (text : string) (st : State) : State :=
  {| plan := plan st; steps := steps st; newStepText := text |}.

(** [now] is the value [Date.now()] returns when the handler runs. *)
Definition handleAdd (now : N) (st : State) : State :=
  if negb (truthy (trim (newStepText st))) then st else
  let newStep :=
    ResearchStep.mk ("new-" ++ toString now) (newStepText st) pending None None in
  {| plan := plan st; steps := steps st ++ [newStep]; newStepText := "" |}.

Definition handleRemove (id : string) (st : State) : State :=
  {| plan := plan st;
     steps := filter (fun s => negb (ResearchStep.id s =? id)%string) (steps st);
     newStepText := newStepText st |}.

Definition handleEdit (id text : string) (st : State) : State :=
  {| plan := plan st;
     steps :=
       map (fun s =>
              if (ResearchStep.id s =? id)%string
              then ResearchStep.mk (ResearchStep.id s) text (ResearchStep.status s)
                     (ResearchStep.finding s) (ResearchStep.sources s)
              else s)
           (steps st);
     newStepText := newStepText st |}.

(** The argument of [onApprove]: [{ ...plan, steps }]. *)
Definition approved (st : State) : ResearchPlan :=
  ResearchPlan.mk (ResearchPlan.topic (plan st)) (steps st).

End PlanReview.

(** ** components/MarkdownRenderer.tsx *)

Module SimpleMarkdown.

Definition newline : ascii := ascii_of_nat 10.

(** The code units below 256 that [.] does not match in a regular
    expression: LF and CR. *)
Definition isLineTerminator (c : ascii) : bool :=
  let n := nat_of_ascii c in ((n =? 10) || (n =? 13))%nat.

(** [content.split('\n')] *)
Fixpoint split_lines (content : string) : list string :=
  match content with
  | EmptyString => [EmptyString]
  | String c rest =>
      if Ascii.eqb c newline then EmptyString :: split_lines rest
      else match split_lines rest with
           | line :: lines => String c line :: lines
           | [] => [String c EmptyString]
           end
  end.

(** [s.startsWith(p)] *)
Definition startsWith (s p : string) : bool := String.prefix p s.

(** [s.endsWith(p)] *)
Definition endsWith (s p : string) : bool :=
  (String.length p <=? String.length s)%nat
  && (substring (String.length s - String.length p) (String.length p) s =? p)%string.

(** [s.slice(2, -2)] *)
Definition slice_2_m2 (s : string) : string :=
  substring 2 (String.length s - 4) s.

(** [s.replace(pat, '')] for a string pattern that is not empty: the first
    occurrence of [pat] is removed. *)
Fixpoint replace_first (pat s : string) : string :=
  if String.prefix pat s
  then substring (String.length pat) (String.length s - String.length pat) s
  else match s with
       | EmptyString => EmptyString
       | String c rest => String c (replace_first pat rest)
       end.

(** The bullet prefix is removed from [line]: leading white space, one
    hyphen or asterisk and the white space after it; a line that does not
    begin that way is returned as it is. *)
Definition strip_bullet (line : string) : string :=
  match trimStart line with
  | String marker after =>
      if Ascii.eqb marker "-" || Ascii.eqb marker "*" then
        match after with
        | String w _ => if isWhiteSpace w then trimStart after else line
        | EmptyString => line
        end
      else line
  | EmptyString => line
  end.

(** With [s] the text after an opening pair of asterisks: the number of
    characters [.*?] consumes before the closing pair, if there is one on
    the same line. *)
Fixpoint closes (s : string) : option nat :=
  match s with
  | EmptyString => None
  | String c rest =>
      if String.prefix "**" s then Some 0
      else if isLineTerminator c then None
      else option_map S (closes rest)
  end.

(** The length of the match of the bold pattern (two asterisks, as few
    characters as possible, two asterisks) at the start of [s], if it matches
    there. *)
Definition bold_length (s : string) : option nat :=
  match s with
  | String a (String b rest) =>
      if Ascii.eqb a "*" && Ascii.eqb b "*"
      then option_map (fun k => k + 4) (closes rest)
      else None
  | _ => None
  end.

(** [s.split] on the bold pattern with its capturing group, scanning [s]
    with [take] characters of a match still to copy into [part], the piece
    under construction.  The result alternates text between matches and
    matches. *)
Fixpoint split_bold_go (s : string) (take : nat) (part : string) : list string :=
  match s with
  | EmptyString => [part]
  | String c rest =>
      match take with
      | S O => (part ++ String c EmptyString)%string :: split_bold_go rest 0 EmptyString
      | S n => split_bold_go rest n (part ++ String c EmptyString)
      | O =>
          match bold_length s with
          | Some len => part :: split_bold_go rest (len - 1) (String c EmptyString)
          | None => split_bold_go rest 0 (part ++ String c EmptyString)
          end
      end
  end.

Definition split_bold (s : string) : list string := split_bold_go s 0 EmptyString.

(** What a line is made of. *)
Inductive Inline :=
| Text (text : string)
| Strong (text : string).

(** A part that starts and ends with two asterisks is shown in bold without
    its first two and last two characters, any other part as it is. *)
Definition render_part (part : string) : Inline :=
  if startsWith part "**" && endsWith part "**"
  then Strong (slice_2_m2 part)
  else Text part.

(** What a line is rendered as. *)
Inductive Block :=
| H1 (text : string)
| H2 (text : string)
| H3 (text : string)
| Li (parts : list Inline)
| Spacer
| P (parts : list Inline).

Definition render_line (line : string) : Block :=
  if startsWith line "# " then H1 (replace_first "# " line)
  else if startsWith line "## " then H2 (replace_first "## " line)
  else if startsWith line "### " then H3 (replace_first "### " line)
  else if startsWith (trim line) "- " || startsWith (trim line) "* "
  then Li (map render_part (split_bold (strip_bullet line)))
  else if negb (truthy (trim line)) then Spacer
  else P (map render_part (split_bold line)).

(** The blocks of the component and whether the streaming cursor follows. *)
Definition render (content : string) (isStreaming : bool) : list Block * bool :=
  (map render_line (split_lines content), isStreaming).

End SimpleMarkdown.

(** [<SimpleMarkdown content={artifact.content}
    isStreaming={artifact.phase === 'reporting'} />] *)
Definition report_view (artifact : ArtifactState) : list SimpleMarkdown.Block * bool :=
  SimpleMarkdown.render (ArtifactState.content artifact)
    (Phase_eqb (ArtifactState.phase artifact) reporting).

(** * Vocabulary of the properties *)

(** ** Phase sequences *)

(** A run of equal phases counts once. *)
Fixpoint collapse (l : list Phase) : list Phase :=
  match l with
  | [] => []
  | p :: rest =>
      match rest with
      | [] => [p]
      | q :: _ => if Phase_eqb p q then collapse rest else p :: collapse rest
      end
  end.

(** The phases of the values [setArtifact] stored, in order. *)
Definition phase_sequence (log : list ArtifactState) : list Phase :=
  collapse (map ArtifactState.phase log).

(** ** Stages of the handlers *)

(** [{ ...step, status: 'completed', ...result }] for each step and its result. *)
Definition completions (steps : list ResearchStep) (results : list ResearchResult.t)
  : list ResearchStep :=
  map (fun sr => complete (fst sr) (snd sr)) (combine steps results).

(** What the loop over [steps] leaves of the state [s] it starts from. *)
Record LoopPost (steps : list ResearchStep) (s s' : Sys)
    (results : list ResearchResult.t) : Prop := {
  lp_results : List.length results = List.length steps;
  lp_input : input s' = input s;
  lp_messages : messages s' = messages s;
  lp_currentPlan : currentPlan s' = currentPlan s;
  lp_clock : clock_reads s' = clock_reads s;
  lp_planner : planner_calls s' = planner_calls s;
  lp_reporter : reporter_calls s' = reporter_calls s;
  lp_researcher : researcher_calls s' = (researcher_calls s ++ steps)%list;
  lp_title :
    ArtifactState.title (artifact s') = ArtifactState.title (artifact s);
  lp_content :
    ArtifactState.content (artifact s') = ArtifactState.content (artifact s);
  lp_phase :
    ArtifactState.phase (artifact s') = ArtifactState.phase (artifact s);
  lp_log :
    exists l,
      artifact_log s' = (artifact_log s ++ l)%list
      /\ List.length l = 2 * List.length steps
      /\ Forall (fun a => ArtifactState.phase a = ArtifactState.phase (artifact s)) l
}.

(** The text of a chunk, empty when undefined. *)
Definition chunk_text (chunk : option string) : string :=
  match chunk with
  | Some t => t
  | None => ""
  end.

(** The texts of a list of chunks, one after the other. *)
Definition join (texts : list string) : string :=
  fold_right String.append "" texts.

(** What the consumption of [chunks] leaves of the state [s] it starts from. *)
Record StreamPost (chunks : list (option string)) (s s' : Sys) : Prop := {
  sp_input : input s' = input s;
  sp_messages : messages s' = messages s;
  sp_currentPlan : currentPlan s' = currentPlan s;
  sp_clock : clock_reads s' = clock_reads s;
  sp_planner : planner_calls s' = planner_calls s;
  sp_researcher : researcher_calls s' = researcher_calls s;
  sp_reporter : reporter_calls s' = reporter_calls s;
  sp_title :
    ArtifactState.title (artifact s') = ArtifactState.title (artifact s);
  sp_phase :
    ArtifactState.phase (artifact s') = ArtifactState.phase (artifact s);
  sp_sources :
    ArtifactState.sources (artifact s') = ArtifactState.sources (artifact s);
  sp_currentStepId :
    ArtifactState.currentStepId (artifact s')
    = ArtifactState.currentStepId (artifact s);
  sp_content :
    ArtifactState.content (artifact s')
    = (ArtifactState.content (artifact s) ++ join (map chunk_text chunks))%string;
  sp_log :
    exists l,
      artifact_log s' = (artifact_log s ++ l)%list
      /\ List.length l = List.length (filter truthy_opt chunks)
      /\ Forall (fun a => ArtifactState.phase a = ArtifactState.phase (artifact s)) l
}.

(** The transcript entries [handlePlanApproval] appends, [s] being the state
    in which the clock is read for them. *)
Definition approval_message (W : World) (s : Sys) : Message :=
  Message.mk (toString (clock W (clock_reads s))) model
    "Plan approved. Deploying Researcher agent now. Check the sidebar for live progress."
    (clock W (S (clock_reads s))) None None None.

Definition report_message (W : World) (s : Sys) : Message :=
  Message.mk (toString (clock W (clock_reads s))) model
    "Research complete. Reporter agent is compiling the final artifact..."
    (clock W (S (clock_reads s))) None None None.

(** The state in which [handlePlanApproval] enters its loop. *)
Definition approval_start (W : World) (plan : ResearchPlan) (s : Sys) : Sys :=
  {| input := input s;
     messages := messages s ++ [approval_message W s];
     artifact := ArtifactState.with_phase researching (artifact s);
     currentPlan := Some plan;
     clock_reads := S (S (clock_reads s));
     planner_calls := planner_calls s;
     researcher_calls := researcher_calls s;
     reporter_calls := reporter_calls s;
     artifact_log :=
       artifact_log s ++ [ArtifactState.with_phase researching (artifact s)] |}.

(** [{ ...prev, phase: 'reporting', currentStepId: undefined }] *)
Definition reporting_artifact (a : ArtifactState) : ArtifactState :=
  ArtifactState.with_currentStepId None (ArtifactState.with_phase reporting a).

(** The state in which the report stream is consumed, [s] being the state
    the loop ended in. *)
Definition report_start (W : World) (plan : ResearchPlan)
    (completedSteps : list ResearchStep) (s : Sys) : Sys :=
  {| input := input s;
     messages := messages s ++ [report_message W s];
     artifact := reporting_artifact (artifact s);
     currentPlan := currentPlan s;
     clock_reads := S (S (clock_reads s));
     planner_calls := planner_calls s;
     researcher_calls := researcher_calls s;
     reporter_calls :=
       reporter_calls s ++ [(ResearchPlan.topic plan, completedSteps)];
     artifact_log := artifact_log s ++ [reporting_artifact (artifact s)] |}.

(** PHASE 3 of [handlePlanApproval], from the state the loop ended in. *)
Definition report_phase (W : World) (plan : ResearchPlan)
    (completedSteps : list ResearchStep) (s : Sys) : Settled unit * Sys :=
  match reporter_api W (List.length (reporter_calls s)) (ResearchPlan.topic plan)
          completedSteps with
  | StreamRejects => (Rejected, report_start W plan completedSteps s)
  | StreamOpens chunks ends =>
      match for_await chunks append_chunk (report_start W plan completedSteps s) with
      | (Fulfilled _, s4) =>
          if ends then setArtifact (ArtifactState.with_phase completed) s4
          else (Rejected, s4)
      | (Rejected, s4) => (Rejected, s4)
      end
  end.

(** What a settled [handlePlanApproval] leaves of the state [s] it was called
    in, whatever the reporter does; [results] are the results of the steps. *)
Record ApprovalPost (W : World) (plan : ResearchPlan) (s s' : Sys)
    (results : list ResearchResult.t) : Prop := {
  ap_results : List.length results = List.length (ResearchPlan.steps plan);
  ap_input : input s' = input s;
  ap_currentPlan : currentPlan s' = Some plan;
  ap_messages :
    messages s' =
    (messages s ++ [approval_message W s;
                    report_message W (approval_start W plan s)])%list;
  ap_clock : clock_reads s' = 4 + clock_reads s;
  ap_planner : planner_calls s' = planner_calls s;
  ap_researcher :
    researcher_calls s' = (researcher_calls s ++ ResearchPlan.steps plan)%list;
  ap_reporter :
    reporter_calls s' =
    (reporter_calls s ++
       [(ResearchPlan.topic plan, completions (ResearchPlan.steps plan) results)])%list;
  ap_title :
    ArtifactState.title (artifact s') = ArtifactState.title (artifact s);
  ap_log :
    exists rest,
      artifact_log s' =
      (artifact_log s
         ++ ArtifactState.with_phase researching (artifact s) :: rest)%list
}.

(** What it leaves when the report stream delivers [chunks] and ends. *)
Record ReportPost (plan : ResearchPlan) (chunks : list (option string))
    (s s' : Sys) : Prop := {
  rp_phase : ArtifactState.phase (artifact s') = completed;
  rp_content :
    ArtifactState.content (artifact s')
    = (ArtifactState.content (artifact s) ++ join (map chunk_text chunks))%string;
  rp_log :
    exists l1 a l2,
      artifact_log s' =
      (artifact_log s
         ++ (ArtifactState.with_phase researching (artifact s) :: l1)
         ++ (a :: l2) ++ [artifact s'])%list
      /\ List.length l1 = 2 * List.length (ResearchPlan.steps plan)
      /\ Forall (fun x => ArtifactState.phase x = researching) l1
      /\ ArtifactState.phase a = reporting
      /\ ArtifactState.content a = ArtifactState.content (artifact s)
      /\ ArtifactState.currentStepId a = None
      /\ List.length l2 = List.length (filter truthy_opt chunks)
      /\ Forall (fun x => ArtifactState.phase x = reporting) l2
}.

(** The transcript entries of [handleInitialRequest] called in state [s]. *)
Definition user_message (W : World) (s : Sys) : Message :=
  Message.mk (toString (clock W (clock_reads s))) user (input s)
    (clock W (S (clock_reads s))) None None None.

Definition thinkingId (W : World) (s : Sys) : string :=
  toString (clock W (S (S (clock_reads s))) + 1).

Definition thinking_message (W : World) (s : Sys) : Message :=
  Message.mk (thinkingId W s) model
    ("Coordinator: Activating Planner agent for " ++ dquote ++ input s ++ dquote ++ "...")
    (clock W (S (S (S (clock_reads s))))) (Some true) None None.

Definition failure_message (W : World) (s : Sys) : Message :=
  Message.mk (toString (clock W (4 + clock_reads s))) model
    "Planner failed to generate a plan. Please try again."
    (clock W (5 + clock_reads s)) None None None.

(** The artifact a submission starts from. *)
Definition planning_artifact (s : Sys) : ArtifactState :=
  ArtifactState.mk (input s) "" planning [] None.

(** The state [handleInitialRequest] ends in when the plan arrives. *)
Definition review_state (W : World) (s : Sys) (plan : ResearchPlan) : Sys :=
  {| input := "";
     messages :=
       map (show_plan (thinkingId W s) plan)
         (messages s ++ [user_message W s; thinking_message W s]);
     artifact := ArtifactState.with_phase reviewing (planning_artifact s);
     currentPlan := Some plan;
     clock_reads := 4 + clock_reads s;
     planner_calls := planner_calls s ++ [input s];
     researcher_calls := researcher_calls s;
     reporter_calls := reporter_calls s;
     artifact_log :=
       artifact_log s
       ++ [planning_artifact s;
           ArtifactState.with_phase reviewing (planning_artifact s)] |}.

(** The state it ends in when [createResearchPlan] rejects. *)
Definition failure_state (W : World) (s : Sys) : Sys :=
  {| input := "";
     messages :=
       messages s ++ [user_message W s; thinking_message W s; failure_message W s];
     artifact := ArtifactState.with_phase idle (planning_artifact s);
     currentPlan := currentPlan s;
     clock_reads := 6 + clock_reads s;
     planner_calls := planner_calls s ++ [input s];
     researcher_calls := researcher_calls s;
     reporter_calls := reporter_calls s;
     artifact_log :=
       artifact_log s
       ++ [planning_artifact s;
           ArtifactState.with_phase idle (planning_artifact s)] |}.

(** ** Concrete worlds and states *)

(** A grounding chunk for a web page. *)
Definition grounding (title uri : string) : option GroundingChunk.t :=
  Some (GroundingChunk.mk (Some (Web.mk (Some uri) (Some title)))).

(** The clock advances by one millisecond per reading; the planner proposes
    three steps; the researcher fails on its second call and otherwise finds
    two pages; the report arrives in four chunks, one empty and one without
    text. *)
Definition solar_world : World :=
  {| clock := fun k => (1700000000000 + N.of_nat k)%N;
     planner_api := fun _ _ =>
       PlannerResponds (Some "{...}")
         (StepsArray ["history"; "efficiency"; "market"]);
     researcher_api := fun k _ =>
       if (k =? 1)%nat then ResearcherRejects
       else ResearcherResponds
              (GenerateContentResponse.mk (Some "Findings.")
                 (Some [grounding "Panels" "https://a.example/panels";
                        grounding "Cells" "https://b.example/cells"]));
     reporter_api := fun _ _ _ =>
       StreamOpens [Some "# Solar"; Some ""; None; Some " panels"] true |}.

(** The input field after the user typed [text]. *)
Definition typed (text : string) (s : Sys) : Sys := snd (setInput text s).

(** The Enter key without Shift. *)
Definition enter : KeyboardEvent := {| key := "Enter"; shiftKey := false |}.

(** The same state with the artifact in phase [p]. *)
Definition at_phase (p : Phase) (s : Sys) : Sys :=
  {| input := input s; messages := messages s;
     artifact := ArtifactState.with_phase p (artifact s);
     currentPlan := currentPlan s; clock_reads := clock_reads s;
     planner_calls := planner_calls s; researcher_calls := researcher_calls s;
     reporter_calls := reporter_calls s; artifact_log := artifact_log s |}.

(** The topic of the scenario, typed into the input field of a fresh [App]. *)
Definition solar_start : Sys := typed "solar panels" (App_initial solar_world).

(** The plan the planner of [solar_world] returns for it. *)
Definition solar_plan : ResearchPlan :=
  ResearchPlan.mk "solar panels"
    [ResearchStep.mk "step-0" "history" pending None None;
     ResearchStep.mk "step-1" "efficiency" pending None None;
     ResearchStep.mk "step-2" "market" pending None None].

(** The plan after the user removed the second step and added one. *)
Definition solar_approved : ResearchPlan :=
  PlanReview.approved
    (PlanReview.handleAdd 1700000000009
       (PlanReview.setNewStepText "cost trends 2024"
          (PlanReview.handleRemove "step-1" (PlanReview.mount solar_plan)))).

(** A state in which a run is under way while the input field holds a topic. *)
Definition busy_state : Sys :=
  typed "tides" (at_phase researching (App_initial solar_world)).

(** A world whose researcher names the same page twice in one response. *)
Definition twin_world : World :=
  {| clock := fun k => N.of_nat k;
     planner_api := fun _ _ => PlannerResponds None ParseError;
     researcher_api := fun _ _ =>
       ResearcherResponds
         (GenerateContentResponse.mk (Some "Findings.")
            (Some [grounding "Overview" "https://a.example/page";
                   grounding "Details" "https://a.example/page"]));
     reporter_api := fun _ _ _ => StreamOpens [] true |}.

(** A plan of one step. *)
Definition one_step_plan : ResearchPlan :=
  ResearchPlan.mk "tides" [ResearchStep.mk "step-0" "tides" pending None None].

(** A response whose second grounding chunk is null. *)
Definition null_chunk_response : GenerateContentResponse.t :=
  GenerateContentResponse.mk (Some "Findings.")
    (Some [grounding "Panels" "https://a.example/panels"; None]).

(** A world whose researcher always answers with it. *)
Definition null_chunk_world : World :=
  {| clock := fun k => N.of_nat k;
     planner_api := fun _ _ => PlannerRejects;
     researcher_api := fun _ _ => ResearcherResponds null_chunk_response;
     reporter_api := fun _ _ _ => StreamRejects |}.

(** A world whose planner rejects its first call and answers the later ones
    with text that does not parse. *)
Definition outage_world : World :=
  {| clock := fun k => (1700000000000 + N.of_nat k)%N;
     planner_api := fun k _ =>
       if (k =? 0)%nat then PlannerRejects
       else PlannerResponds (Some "I cannot help with that.") ParseError;
     researcher_api := fun _ _ => ResearcherRejects;
     reporter_api := fun _ _ _ => StreamRejects |}.

(** A plan from which every step was removed. *)
Definition empty_plan : ResearchPlan := ResearchPlan.mk "solar panels" [].

(** ** Editor sessions *)

(** What the user can do in the plan editor: type into the new-step field,
    trigger [handleAdd] (with the clock reading of that moment), remove a
    step, edit a step's query. *)
Inductive EditorAction :=
| TypeText (text : string)
| Add (now : N)
| Remove (id : string)
| Edit (id text : string).

Definition editor_step (st : PlanReview.State) (a : EditorAction)
  : PlanReview.State :=
  match a with
  | TypeText text => PlanReview.setNewStepText text st
  | Add now => PlanReview.handleAdd now st
  | Remove id => PlanReview.handleRemove id st
  | Edit id text => PlanReview.handleEdit id text st
  end.

(** The editor after a sequence of actions, first action first.  Every
    action runs on the state the previous one left, as the handlers of the
    latest render do.  The rows of the component are keyed by the step's id,
    so this describes the component as long as the ids of the working copy
    are pairwise different. *)
Definition editor_run (actions : list EditorAction) (st : PlanReview.State)
  : PlanReview.State :=
  fold_left editor_step actions st.

(** The clock readings of the [Add] actions, in order. *)
Fixpoint add_readings (actions : list EditorAction) : list N :=
  match actions with
  | [] => []
  | Add now :: rest => now :: add_readings rest
  | _ :: rest => add_readings rest
  end.

(** The ids of the working copy. *)
Definition editor_ids (st : PlanReview.State) : list string :=
  map ResearchStep.id (PlanReview.steps st).

(** ** Vocabulary of the further properties *)

(** Where a step of the working copy comes from, [plan] being the plan under
    review and [readings] the clock readings of the adds so far. *)
Definition step_origin (plan : ResearchPlan) (readings : list N) (s : ResearchStep)
  : Prop :=
  (ResearchStep.status s = pending
   /\ ResearchStep.finding s = None
   /\ ResearchStep.sources s = None
   /\ exists t, In t readings /\ ResearchStep.id s = ("new-" ++ toString t)%string)
  \/ (exists s0,
        In s0 (ResearchPlan.steps plan)
        /\ ResearchStep.id s = ResearchStep.id s0
        /\ ResearchStep.status s = ResearchStep.status s0
        /\ ResearchStep.finding s = ResearchStep.finding s0
        /\ ResearchStep.sources s = ResearchStep.sources s0).

(** The session of the scenario followed by a second add a millisecond later. *)
Definition solar_session : list EditorAction :=
  [Remove "step-1"; TypeText "cost trends 2024"; Add 1700000000009;
   Edit "step-0" "history of photovoltaics"; TypeText "recycling";
   Add 1700000000010].

(** A world whose planner answers without text. *)
Definition silent_world : World :=
  {| clock := fun k => (1700000000000 + N.of_nat k)%N;
     planner_api := fun _ _ => PlannerResponds None NoStepsArray;
     researcher_api := fun _ _ => ResearcherRejects;
     reporter_api := fun _ _ _ => StreamOpens [] true |}.

(** The state after the run of the scenario. *)
Definition solar_done : Sys :=
  snd (handlePlanApproval solar_world solar_approved
         (snd (handleInitialRequest solar_world solar_start))).

(** What identifies a transcript entry: its id, role and timestamp. *)
Definition entry_key (m : Message) : string * Role * N :=
  (Message.id m, Message.role m, Message.timestamp m).

(** A source with a title and a uri that are not empty. *)
Definition source_named (src : Source) : Prop :=
  truthy (Source.title src) = true /\ truthy (Source.uri src) = true.

(** What every result of the researcher satisfies. *)
Definition result_named (r : ResearchResult.t) : Prop :=
  truthy (ResearchResult.finding r) = true
  /\ Forall source_named (ResearchResult.sources r).

(** The sources after the update for one result: those [srcs] before it,
    followed by the sources of the result whose uri is not among them. *)
Definition merge_sources (srcs : list Source) (r : ResearchResult.t) : list Source :=
  (srcs ++ filter (fun src => negb (has_uri srcs (Source.uri src)))
             (ResearchResult.sources r))%list.

(** The sources after the updates for [results], first result first. *)
Definition accumulate_all (results : list ResearchResult.t) (srcs : list Source)
  : list Source :=
  fold_left merge_sources results srcs.

(** Each stored artifact extends the sources of the one before, [srcs] being
    the sources before the first. *)
Fixpoint grows (srcs : list Source) (l : list ArtifactState) : Prop :=
  match l with
  | [] => True
  | a :: rest =>
      (exists added, ArtifactState.sources a = (srcs ++ added)%list)
      /\ grows (ArtifactState.sources a) rest
  end.

(** The sources of the last artifact of [l], or [srcs] when there is none. *)
Definition last_sources (srcs : list Source) (l : list ArtifactState) : list Source :=
  fold_left (fun _ a => ArtifactState.sources a) l srcs.

(** Two artifacts that differ in content at most. *)
Definition same_but_content (a b : ArtifactState) : Prop :=
  ArtifactState.title a = ArtifactState.title b
  /\ ArtifactState.phase a = ArtifactState.phase b
  /\ ArtifactState.sources a = ArtifactState.sources b
  /\ ArtifactState.currentStepId a = ArtifactState.currentStepId b.

(** The marks the loop sets: each step is current for two updates. *)
Definition current_marks (steps : list ResearchStep) : list (option string) :=
  flat_map (fun st => [Some (ResearchStep.id st); Some (ResearchStep.id st)]) steps.

(** What the loop does to sources and marks, [results] being the results of
    the steps. *)
Record LoopTrace (steps : list ResearchStep) (s s' : Sys)
    (results : list ResearchResult.t) : Prop := {
  lt_results : List.length results = List.length steps;
  lt_named : Forall result_named results;
  lt_reporter : reporter_calls s' = reporter_calls s;
  lt_sources :
    ArtifactState.sources (artifact s')
    = accumulate_all results (ArtifactState.sources (artifact s));
  lt_log :
    exists l,
      artifact_log s' = (artifact_log s ++ l)%list
      /\ map ArtifactState.currentStepId l = current_marks steps
      /\ grows (ArtifactState.sources (artifact s)) l
      /\ last_sources (ArtifactState.sources (artifact s)) l
         = ArtifactState.sources (artifact s')
}.

(** What [handlePlanApproval] does to sources and marks, whatever its
    outcome. *)
Record ApprovalTrace (plan : ResearchPlan) (s s' : Sys)
    (results : list ResearchResult.t) : Prop := {
  at_results : List.length results = List.length (ResearchPlan.steps plan);
  at_named : Forall result_named results;
  at_reporter :
    reporter_calls s' =
    (reporter_calls s ++
       [(ResearchPlan.topic plan, completions (ResearchPlan.steps plan) results)])%list;
  at_sources :
    ArtifactState.sources (artifact s')
    = accumulate_all results (ArtifactState.sources (artifact s));
  at_current : ArtifactState.currentStepId (artifact s') = None;
  at_log :
    exists l1 l2,
      artifact_log s' =
      (artifact_log s
         ++ ArtifactState.with_phase researching (artifact s) :: l1 ++ l2)%list
      /\ map ArtifactState.currentStepId l1 = current_marks (ResearchPlan.steps plan)
      /\ l2 <> []
      /\ Forall (fun a => ArtifactState.currentStepId a = None) l2
      /\ grows (ArtifactState.sources (artifact s))
           (ArtifactState.with_phase researching (artifact s) :: l1 ++ l2)
}.

(** A world whose report stream throws after two chunks. *)
Definition broken_stream_world : World :=
  {| clock := fun k => (1700000000000 + N.of_nat k)%N;
     planner_api := fun _ _ => PlannerResponds (Some "{...}") (StepsArray ["tides"]);
     researcher_api := fun _ _ => ResearcherRejects;
     reporter_api := fun _ _ _ => StreamOpens [Some "# Tides"; Some " rise"] false |}.

(** [lines.join('\n')] *)
Definition join_lines (lines : list string) : string :=
  String.concat (String SimpleMarkdown.newline EmptyString) lines.

(** The number of line feeds in a string. *)
Fixpoint count_newlines (s : string) : nat :=
  match s with
  | EmptyString => 0
  | String c rest =>
      (if Ascii.eqb c SimpleMarkdown.newline then 1 else 0) + count_newlines rest
  end.

(** Whether a character occurs in a string. *)
Fixpoint occurs (c : ascii) (s : string) : bool :=
  match s with
  | EmptyString => false
  | String x rest => Ascii.eqb x c || occurs c rest
  end.

(** Whether a string contains a character that [.] does not match. *)
Fixpoint has_line_break (s : string) : bool :=
  match s with
  | EmptyString => false
  | String c rest => SimpleMarkdown.isLineTerminator c || has_line_break rest
  end.

(** Whether a string consists of white space only. *)
Fixpoint all_white (s : string) : bool :=
  match s with
  | EmptyString => true
  | String c rest => isWhiteSpace c && all_white rest
  end.

(** * Properties *)

(** ** Strings *)

Lemma toString_inj (a b : N) : toString a = toString b -> a = b.
Proof.
  unfold toString. intros H.
  apply DecimalN.Unsigned.to_uint_inj.
  assert (E : Some (N.to_uint a) = Some (N.to_uint b)).
  { rewrite <- (NilEmpty.usu (N.to_uint a)), <- (NilEmpty.usu (N.to_uint b)).
    now rewrite H. }
  now injection E.
Qed.

(** ** The phases an artifact passes through *)

Lemma Phase_eqb_refl p : Phase_eqb p p = true.
Proof. now destruct p. Qed.

Lemma collapse_same p rest : collapse (p :: p :: rest) = collapse (p :: rest).
Proof. cbn [collapse]. now rewrite Phase_eqb_refl. Qed.

Lemma collapse_step p q rest :
  Phase_eqb p q = false -> collapse (p :: q :: rest) = p :: collapse (q :: rest).
Proof. intros H. cbn [collapse]. now rewrite H. Qed.

(** ** The researcher *)

Lemma research_attempt_state W step s :
  snd (research_attempt W step s) = snd (call_researcher W step s).
Proof.
  unfold research_attempt, bind. cbn [call_researcher fst snd].
  destruct (researcher_api W _ step) as [|response]; [reflexivity|].
  destruct (GenerateContentResponse.groundingChunks response) as [chunks|];
    [|reflexivity].
  now destruct (extract_sources chunks []).
Qed.

Lemma executeResearchStep_settles W step s :
  exists result,
    executeResearchStep W step s = (Fulfilled result, snd (call_researcher W step s)).
Proof.
  unfold executeResearchStep, try_catch.
  pose proof (research_attempt_state W step s) as H.
  destruct (research_attempt W step s) as [[result|] s']; cbn [snd] in H; subst s'.
  - now exists result.
  - now exists degraded.
Qed.

(** ** The execution loop *)

Lemma research_loop_cons W step rest acc s :
  research_loop W (step :: rest) acc s =
  let s1 :=
    snd (setArtifact
           (ArtifactState.with_currentStepId (Some (ResearchStep.id step))) s) in
  match executeResearchStep W step s1 with
  | (Fulfilled result, s2) =>
      research_loop W rest (acc ++ [complete step result])
        (snd (setArtifact (accumulate_sources result) s2))
  | (Rejected, s2) => (Rejected, s2)
  end.
Proof. reflexivity. Qed.

Lemma research_loop_spec W steps : forall acc s,
  exists results s',
    research_loop W steps acc s = (Fulfilled (acc ++ completions steps results)%list, s')
    /\ LoopPost steps s s' results.
Proof.
  induction steps as [|step rest IH]; intros acc s.
  - exists [], s. split.
    + cbn. now rewrite app_nil_r.
    + constructor; try reflexivity.
      * cbn. now rewrite app_nil_r.
      * exists []. cbn. rewrite app_nil_r. auto.
  - rewrite research_loop_cons. cbv zeta.
    destruct (executeResearchStep_settles W step
                (snd (setArtifact
                        (ArtifactState.with_currentStepId
                           (Some (ResearchStep.id step))) s))) as [r Hr].
    rewrite Hr.
    match goal with
    | |- context [research_loop W rest ?a ?s3] =>
        destruct (IH a s3) as (results & s' & Hrun & Hpost)
    end.
    exists (r :: results), s'. split.
    + rewrite Hrun. cbn. now rewrite <- app_assoc.
    + destruct Hpost as [Hres Hin Hms Hcp Hck Hpl Hrp Hrs Hti Hco Hph [l [Hl [Hlen Hall]]]].
      cbn in *.
      constructor; cbn; try congruence.
      * rewrite Hrs. now rewrite <- app_assoc.
      * exists (ArtifactState.with_currentStepId (Some (ResearchStep.id step)) (artifact s)
                :: accumulate_sources r
                     (ArtifactState.with_currentStepId (Some (ResearchStep.id step))
                        (artifact s))
                :: l).
        split; [|split].
        -- rewrite Hl. now rewrite <- !app_assoc.
        -- cbn. lia.
        -- repeat constructor. exact Hall.
Qed.

(** ** The report stream *)

Lemma append_empty_r (a : string) : (a ++ "")%string = a.
Proof. induction a as [|c a IH]; cbn; [reflexivity | now rewrite IH]. Qed.

Lemma append_assoc (a b c : string) : ((a ++ b) ++ c = a ++ (b ++ c))%string.
Proof. induction a as [|x a IH]; cbn; [reflexivity | now rewrite IH]. Qed.

Lemma for_await_spec chunks : forall s,
  exists s', for_await chunks append_chunk s = (Fulfilled tt, s')
             /\ StreamPost chunks s s'.
Proof.
  induction chunks as [|chunk rest IH]; intros s.
  - exists s. split; [reflexivity|].
    constructor; try reflexivity.
    + cbn. now rewrite append_empty_r.
    + exists []. cbn. rewrite app_nil_r. auto.
  - assert (Hskip : truthy_opt chunk = false ->
                    for_await (chunk :: rest) append_chunk s
                    = for_await rest append_chunk s).
    { destruct chunk as [[|c t]|]; cbn; intros; try discriminate; reflexivity. }
    destruct (truthy_opt chunk) eqn:Ht.
    + destruct chunk as [[|c t]|]; try discriminate.
      change (for_await (Some (String c t) :: rest) append_chunk s)
        with (for_await rest append_chunk (snd (append_chunk (String c t) s))).
      destruct (IH (snd (append_chunk (String c t) s))) as (s' & Hrun & Hpost).
      exists s'. split; [exact Hrun|].
      destruct Hpost as [Hin Hms Hcp Hck Hpl Hrs Hrp Hti Hph Hso Hcs Hco [l [Hl [Hlen Hall]]]].
      cbn in *.
      constructor; cbn; try congruence.
      * rewrite Hco. now rewrite append_assoc.
      * exists (ArtifactState.with_content
                  (ArtifactState.content (artifact s) ++ String c t) (artifact s) :: l).
        split; [|split].
        -- rewrite Hl. now rewrite <- app_assoc.
        -- cbn. now rewrite Hlen.
        -- constructor; [reflexivity | exact Hall].
    + rewrite (Hskip eq_refl).
      destruct (IH s) as (s' & Hrun & Hpost).
      exists s'. split; [exact Hrun|].
      destruct Hpost as [Hin Hms Hcp Hck Hpl Hrs Hrp Hti Hph Hso Hcs Hco [l [Hl [Hlen Hall]]]].
      constructor; try assumption.
      * rewrite Hco. destruct chunk as [[|c t]|]; try discriminate; reflexivity.
      * exists l. cbn [filter]. rewrite Ht. auto.
Qed.

(** ** Plan approval, stage by stage *)

Lemma handlePlanApproval_stages W plan s :
  handlePlanApproval W plan s =
  match research_loop W (ResearchPlan.steps plan) [] (approval_start W plan s) with
  | (Fulfilled completedSteps, s2) => report_phase W plan completedSteps s2
  | (Rejected, s2) => (Rejected, s2)
  end.
Proof.
  unfold handlePlanApproval, bind at 1 2 3 4 5 6. cbn [setCurrentPlan Date_now setMessages setArtifact].
  cbn [input messages artifact currentPlan clock_reads planner_calls researcher_calls
       reporter_calls artifact_log].
  fold (approval_message W s). fold (approval_start W plan s).
  destruct (research_loop W (ResearchPlan.steps plan) [] (approval_start W plan s))
    as [[completedSteps|] s2]; [|reflexivity].
  unfold report_phase, generateFinalReportStream, bind.
  cbn [setArtifact Date_now setMessages call_reporter].
  cbn [input messages artifact currentPlan clock_reads planner_calls researcher_calls
       reporter_calls artifact_log].
  destruct (reporter_api W (List.length (reporter_calls s2)) (ResearchPlan.topic plan)
              completedSteps) as [|chunks ends]; [reflexivity|].
  fold (report_message W s2). 
  change (ArtifactState.with_currentStepId None
            (ArtifactState.with_phase reporting (artifact s2)))
    with (reporting_artifact (artifact s2)).
  fold (report_start W plan completedSteps s2).
  destruct (for_await chunks append_chunk (report_start W plan completedSteps s2))
    as [[u|] s4]; [|reflexivity].
  destruct ends; reflexivity.
Qed.

Lemma handlePlanApproval_spec W plan s :
  exists results outcome s',
    handlePlanApproval W plan s = (outcome, s')
    /\ ApprovalPost W plan s s' results
    /\ forall chunks,
         reporter_api W (List.length (reporter_calls s)) (ResearchPlan.topic plan)
           (completions (ResearchPlan.steps plan) results)
         = StreamOpens chunks true ->
         outcome = Fulfilled tt /\ ReportPost plan chunks s s'.
Proof.
  rewrite handlePlanApproval_stages.
  destruct (research_loop_spec W (ResearchPlan.steps plan) [] (approval_start W plan s))
    as (results & s2 & Hloop & Hpost).
  cbn [app] in Hloop. rewrite Hloop. exists results.
  destruct Hpost as [Hres Hin Hms Hcp Hck Hpl Hrp Hrs Hti Hco Hph [l1 [Hl1 [Hlen1 Hall1]]]].
  cbn [approval_start input messages artifact currentPlan clock_reads planner_calls
       researcher_calls reporter_calls artifact_log ArtifactState.with_phase
       ArtifactState.title ArtifactState.content ArtifactState.phase] in *.
  assert (Hmsg : report_message W s2 = report_message W (approval_start W plan s)).
  { unfold report_message. cbn [approval_start clock_reads]. now rewrite Hck. }
  unfold report_phase. rewrite Hrp.
  destruct (reporter_api W (List.length (reporter_calls s)) (ResearchPlan.topic plan)
              (completions (ResearchPlan.steps plan) results))
    as [|chunks ends] eqn:Hreply.
  - eexists _, _. split; [reflexivity|]. split; [|discriminate].
    constructor; cbn [report_start input messages artifact currentPlan clock_reads
                        planner_calls researcher_calls reporter_calls artifact_log];
      try congruence.
    + rewrite Hms, Hmsg. now rewrite <- app_assoc.
    + rewrite Hck. reflexivity.
    + cbn. exact Hti.
    + exists (l1 ++ [reporting_artifact (artifact s2)])%list.
      rewrite Hl1. now rewrite <- !app_assoc.
  - destruct (for_await_spec chunks
                (report_start W plan (completions (ResearchPlan.steps plan) results) s2))
      as (s4 & Hrun & Hsp).
    rewrite Hrun.
    destruct Hsp as [Sin Sms Scp Sck Spl Srs Srp Sti Sph Sso Scs Sco [l2 [Hl2 [Hlen2 Hall2]]]].
    cbn [report_start input messages artifact currentPlan clock_reads planner_calls
         researcher_calls reporter_calls artifact_log reporting_artifact
         ArtifactState.with_phase ArtifactState.with_currentStepId
         ArtifactState.title ArtifactState.content ArtifactState.phase] in *.
    assert (Hp4 : ApprovalPost W plan s s4 results).
    { constructor; try congruence.
      - rewrite Sms, Hms, Hmsg. now rewrite <- app_assoc.
      - rewrite Sck, Hck. reflexivity.
      - exists (l1 ++ ArtifactState.with_currentStepId None
                        (ArtifactState.with_phase reporting (artifact s2)) :: l2)%list.
        rewrite Hl2, Hl1. now rewrite <- !app_assoc. }
    destruct ends.
    + eexists _, _. split; [reflexivity|]. split.
      * destruct Hp4 as [P1 P2 P3 P4 P5 P6 P7 P8 P9 [rest Hrest]].
        constructor;
          cbn [setArtifact snd input messages artifact currentPlan clock_reads
               planner_calls researcher_calls reporter_calls artifact_log
               ArtifactState.with_phase ArtifactState.title];
          try assumption.
        exists (rest ++ [ArtifactState.with_phase completed (artifact s4)])%list.
        rewrite Hrest. now rewrite <- app_assoc.
      * intros chunks' E. injection E as <-. split; [reflexivity|].
        constructor; cbn [setArtifact snd artifact artifact_log ArtifactState.with_phase
                            ArtifactState.phase ArtifactState.content].
        -- reflexivity.
        -- rewrite Sco. now rewrite Hco.
        -- exists l1, (ArtifactState.with_currentStepId None
                         (ArtifactState.with_phase reporting (artifact s2))), l2.
           split; [|repeat split].
           ++ rewrite Hl2, Hl1. cbn. now rewrite <- !app_assoc.
           ++ exact Hlen1.
           ++ exact Hall1.
           ++ cbn. exact Hco.
           ++ exact Hlen2.
           ++ exact Hall2.
    + eexists _, _. split; [reflexivity|]. split; [exact Hp4|].
      intros chunks' E. discriminate E.
Qed.

(** ** Topic submission, stage by stage *)

Lemma createResearchPlan_state W topic s :
  snd (createResearchPlan W topic s) = snd (call_planner W topic s).
Proof.
  unfold createResearchPlan, bind. cbn [call_planner snd].
  destruct (planner_api W _ topic) as [|text json]; [reflexivity|].
  destruct (truthy_opt text); [destruct json|]; reflexivity.
Qed.

Lemma createResearchPlan_outcome W topic s1 s2 :
  planner_calls s1 = planner_calls s2 ->
  fst (createResearchPlan W topic s1) = fst (createResearchPlan W topic s2).
Proof.
  intros H. unfold createResearchPlan, bind. cbn [call_planner]. rewrite H.
  destruct (planner_api W _ topic) as [|text json]; [reflexivity|].
  destruct (truthy_opt text); [destruct json|]; reflexivity.
Qed.

Lemma handleInitialRequest_blank W s :
  truthy (trim (input s)) = false -> handleInitialRequest W s = (Fulfilled tt, s).
Proof.
  intros H. unfold handleInitialRequest, bind. cbn [getInput]. now rewrite H.
Qed.

Lemma handleInitialRequest_stages W s :
  truthy (trim (input s)) = true ->
  handleInitialRequest W s =
  match fst (createResearchPlan W (input s) s) with
  | Fulfilled plan => (Fulfilled tt, review_state W s plan)
  | Rejected => (Fulfilled tt, failure_state W s)
  end.
Proof.
  intros H. unfold handleInitialRequest. unfold bind at 1. cbn [getInput].
  rewrite H. cbn [negb].
  remember (fst (createResearchPlan W (input s) s)) as out eqn:Eout.
  unfold review_state, failure_state, user_message, thinking_message,
    failure_message, thinkingId, planning_artifact.
  destruct s as [i m a cp ck pl rs rp lg].
  cbv beta iota zeta delta
    [bind try_catch setInput Date_now setMessages setArtifact setCurrentPlan
     input messages artifact currentPlan clock_reads planner_calls
     researcher_calls reporter_calls artifact_log] in *.
  match goal with
  | |- context [createResearchPlan W i ?s1] =>
      pose proof (createResearchPlan_state W i s1) as Hst;
      pose proof (createResearchPlan_outcome W i s1
                    (Build_Sys i m a cp ck pl rs rp lg) eq_refl) as Hout;
      set (s1' := s1) in *
  end.
  rewrite <- Eout in Hout. clear Eout.
  destruct (createResearchPlan W i s1') as [[plan|] s2];
    cbn [fst snd] in Hst, Hout; subst out s2 s1';
    cbv beta iota delta
      [call_planner snd input messages artifact currentPlan clock_reads planner_calls
       researcher_calls reporter_calls artifact_log];
    rewrite <- ?app_assoc; reflexivity.
Qed.

(** ** Phase order of a run *)

Lemma collapse_block p q l rest :
  Forall (fun x => x = p) l -> Phase_eqb p q = false ->
  collapse (p :: l ++ q :: rest) = p :: collapse (q :: rest).
Proof.
  intros Hall Hpq. induction Hall as [|x l Hx _ IH]; cbn [app].
  - now apply collapse_step.
  - subst x. now rewrite collapse_same.
Qed.

Lemma Forall_phase_map p (l : list ArtifactState) :
  Forall (fun a => ArtifactState.phase a = p) l ->
  Forall (fun x => x = p) (map ArtifactState.phase l).
Proof. induction 1; cbn; constructor; auto. Qed.

Lemma phase_sequence_approval a1 l1 a2 l2 a3 :
  ArtifactState.phase a1 = researching ->
  Forall (fun a => ArtifactState.phase a = researching) l1 ->
  ArtifactState.phase a2 = reporting ->
  Forall (fun a => ArtifactState.phase a = reporting) l2 ->
  ArtifactState.phase a3 = completed ->
  collapse (map ArtifactState.phase ((a1 :: l1) ++ (a2 :: l2) ++ [a3]))
  = [researching; reporting; completed].
Proof.
  intros H1 Hl1 H2 Hl2 H3.
  rewrite !map_app. cbn [map app]. rewrite H1, H2, H3.
  rewrite (collapse_block researching reporting); [|now apply Forall_phase_map|reflexivity].
  rewrite (collapse_block reporting completed); [|now apply Forall_phase_map|reflexivity].
  reflexivity.
Qed.

Lemma handleKeyDown_accepted W s :
  accepts_submission (ArtifactState.phase (artifact s)) = true ->
  handleKeyDown W enter s = handleInitialRequest W s.
Proof.
  intros H. unfold handleKeyDown.
  change ((key enter =? "Enter")%string && negb (shiftKey enter)) with true.
  cbv iota. unfold bind. cbn [getPhase]. now rewrite H.
Qed.

Lemma send_click_accepted W s :
  accepts_submission (ArtifactState.phase (artifact s)) = true ->
  truthy (trim (input s)) = true ->
  send_click W s = handleInitialRequest W s.
Proof.
  intros Hp Hi. unfold send_click, send_disabled. now rewrite Hp, Hi.
Qed.

(** C1 (as amended).  For every topic that is not blank, submitted with the
    Enter key or the send button while the phase is idle or completed: when
    the planner delivers a plan and the report stream ends, whatever the
    researcher does and whichever plan the user approves, the phases of the
    values the artifact takes from the submission to the end of the approval
    are planning, reviewing, researching, reporting, completed, each once and
    in that order. *)
Theorem run_phase_sequence W s plan approvedPlan :
  accepts_submission (ArtifactState.phase (artifact s)) = true ->
  truthy (trim (input s)) = true ->
  fst (createResearchPlan W (input s) s) = Fulfilled plan ->
  (forall completedSteps, exists chunks,
      reporter_api W (List.length (reporter_calls s))
        (ResearchPlan.topic approvedPlan) completedSteps
      = StreamOpens chunks true) ->
  handleKeyDown W enter s = send_click W s
  /\ exists s1 s2 l,
       handleKeyDown W enter s = (Fulfilled tt, s1)
       /\ handlePlanApproval W approvedPlan s1 = (Fulfilled tt, s2)
       /\ artifact_log s2 = (artifact_log s ++ l)%list
       /\ phase_sequence l = [planning; reviewing; researching; reporting; completed].
Proof.
  intros Hphase Hinput Hplan Hreport.
  rewrite (handleKeyDown_accepted W s Hphase), (send_click_accepted W s Hphase Hinput).
  split; [reflexivity|].
  rewrite (handleInitialRequest_stages W s Hinput), Hplan.
  destruct (handlePlanApproval_spec W approvedPlan (review_state W s plan))
    as (results & outcome & s2 & Hrun & _ & Hdone).
  destruct (Hreport (completions (ResearchPlan.steps approvedPlan) results))
    as [chunks Hchunks].
  destruct (Hdone chunks Hchunks) as [-> [Hph _ (l1 & a & l2 & Hlog & _ & Hl1 & Ha & _ & _ & _ & Hl2)]].
  exists (review_state W s plan), s2.
  eexists. split; [reflexivity|]. split; [exact Hrun|]. split.
  - rewrite Hlog. cbn [review_state artifact_log]. rewrite <- app_assoc. reflexivity.
  - unfold phase_sequence. cbn [app map]. 
    change (ArtifactState.phase (planning_artifact s)) with planning.
    change (ArtifactState.phase
              (ArtifactState.with_phase reviewing (planning_artifact s)))
      with reviewing.
    rewrite (collapse_step planning reviewing) by reflexivity.
    rewrite (collapse_step reviewing) by reflexivity.
    f_equal. f_equal.
    apply (phase_sequence_approval
             (ArtifactState.with_phase researching (artifact (review_state W s plan)))
             l1 a l2 (artifact s2)); auto.
Qed.

Lemma run_phase_sequence_witness :
  handleKeyDown solar_world enter solar_start = send_click solar_world solar_start
  /\ exists s1 s2 l,
       handleKeyDown solar_world enter solar_start = (Fulfilled tt, s1)
       /\ handlePlanApproval solar_world solar_approved s1 = (Fulfilled tt, s2)
       /\ artifact_log s2 = (artifact_log solar_start ++ l)%list
       /\ phase_sequence l = [planning; reviewing; researching; reporting; completed].
Proof.
  apply (run_phase_sequence solar_world solar_start solar_plan solar_approved).
  - reflexivity.
  - reflexivity.
  - reflexivity.
  - intros completedSteps. eexists. reflexivity.
Defined.

(** C1 (as stated) fails on a topic that is not empty but blank: a single
    space, submitted in phase idle to a world in which every agent succeeds,
    leaves the state as it is, and the artifact takes no phase at all. *)
Lemma blank_topic_starts_no_run :
  let s := typed " " (App_initial solar_world) in
  input s = " "
  /\ truthy (input s) = true
  /\ ArtifactState.phase (artifact s) = idle
  /\ handleKeyDown solar_world enter s = (Fulfilled tt, s)
  /\ handleInitialRequest solar_world s = (Fulfilled tt, s)
  /\ phase_sequence (artifact_log (snd (handleKeyDown solar_world enter s))) = [].
Proof. repeat split. Qed.

(** ** Submissions outside idle and completed *)

(** C2.  While the phase is neither idle nor completed, a submission is
    ignored: a key press in the input field and a click on the send button,
    the two places from which [handleInitialRequest] is called, leave the
    whole state as it is.  No message is appended, phase and artifact are
    untouched and no agent is called. *)
Theorem busy_submission_ignored W (e : KeyboardEvent) s :
  accepts_submission (ArtifactState.phase (artifact s)) = false ->
  handleKeyDown W e s = (Fulfilled tt, s)
  /\ send_click W s = (Fulfilled tt, s).
Proof.
  intros H. split.
  - unfold handleKeyDown.
    destruct ((key e =? "Enter")%string && negb (shiftKey e)); [|reflexivity].
    unfold bind. cbn [getPhase]. now rewrite H.
  - unfold send_click, send_disabled. rewrite H. cbn [negb].
    now rewrite orb_true_r.
Qed.

Lemma busy_submission_ignored_witness :
  handleKeyDown solar_world enter busy_state = (Fulfilled tt, busy_state)
  /\ send_click solar_world busy_state = (Fulfilled tt, busy_state).
Proof.
  apply (busy_submission_ignored solar_world enter busy_state). reflexivity.
Defined.

(** ** Source accumulation *)

(** C3 at its failing input: one step whose result names the same uri twice.
    Both entries pass the filter, which only consults the sources of the
    state before the update, and the artifact ends with two entries of equal
    uri. *)
Lemma duplicate_uri_within_one_result :
  let s := at_phase reviewing (App_initial twin_world) in
  let s' := snd (handlePlanApproval twin_world one_step_plan s) in
  ArtifactState.sources (artifact s) = []
  /\ fst (handlePlanApproval twin_world one_step_plan s) = Fulfilled tt
  /\ ArtifactState.sources (artifact s')
     = [Source.mk "Overview" "https://a.example/page";
        Source.mk "Details" "https://a.example/page"]
  /\ ~ NoDup (map Source.uri (ArtifactState.sources (artifact s'))).
Proof.
  cbv zeta. split; [reflexivity|]. split; [reflexivity|]. split; [reflexivity|].
  intros H. vm_compute in H. inversion H as [|x l Hnotin _]; subst.
  apply Hnotin. now left.
Qed.

(** Sources of one result with pairwise different uris keep the accumulated
    list free of duplicates. *)
Lemma has_uri_In sources u :
  has_uri sources u = true <-> In u (map Source.uri sources).
Proof.
  unfold has_uri. rewrite existsb_exists. split.
  - intros (x & Hx & E). apply String.eqb_eq in E. subst u. now apply in_map.
  - intros H. apply in_map_iff in H as (x & E & Hx). exists x. split; [exact Hx|].
    now apply String.eqb_eq.
Qed.

Lemma accumulate_sources_NoDup result prev :
  NoDup (map Source.uri (ArtifactState.sources prev)) ->
  NoDup (map Source.uri (ResearchResult.sources result)) ->
  NoDup (map Source.uri (ArtifactState.sources (accumulate_sources result prev))).
Proof.
  intros Hprev Hres. unfold accumulate_sources. cbn [ArtifactState.with_sources ArtifactState.sources].
  generalize dependent (ResearchResult.sources result). intros new Hnew.
  rewrite map_app.
  assert (Hsub : forall l, NoDup (map Source.uri l) ->
            NoDup (map Source.uri
                     (filter (fun s => negb (has_uri (ArtifactState.sources prev)
                                               (Source.uri s))) l))
            /\ forall u, In u (map Source.uri
                     (filter (fun s => negb (has_uri (ArtifactState.sources prev)
                                               (Source.uri s))) l)) ->
                 In u (map Source.uri l)
                 /\ ~ In u (map Source.uri (ArtifactState.sources prev))).
  { induction l as [|x l IH]; intros Hl; cbn.
    - split; [constructor | intros u []].
    - inversion Hl as [|? ? Hx Hl']; subst. destruct (IH Hl') as [IH1 IH2].
      destruct (has_uri (ArtifactState.sources prev) (Source.uri x)) eqn:E; cbn.
      + split; [exact IH1|]. intros u Hu. destruct (IH2 u Hu). auto.
      + split.
        * constructor; [|exact IH1]. intros Hin. now destruct (IH2 _ Hin).
        * intros u [<-|Hu].
          -- split; [now left|]. intros Hin. apply has_uri_In in Hin. congruence.
          -- destruct (IH2 u Hu). auto. }
  destruct (Hsub new Hnew) as [H1 H2].
  clear Hsub. revert Hprev H1 H2.
  generalize (map Source.uri (ArtifactState.sources prev)).
  generalize (map Source.uri
                (filter (fun s => negb (has_uri (ArtifactState.sources prev)
                                          (Source.uri s))) new)).
  intros added old Hold Hadded Hdisj.
  induction old as [|o old IH]; cbn; [exact Hadded|].
  inversion Hold as [|? ? Ho Hold']; subst.
  constructor.
  - rewrite in_app_iff. intros [Hin|Hin]; [contradiction|].
    destruct (Hdisj o Hin) as [_ Hno]. apply Hno. now left.
  - apply IH; [exact Hold'|]. intros u Hu. destruct (Hdisj u Hu) as [Hu1 Hu2].
    split; [exact Hu1|]. intros Hin. apply Hu2. now right.
Qed.

(** Across steps the filter does its work: when no single result repeats a
    uri, the loop keeps the sources of the artifact free of duplicates. *)
Lemma research_loop_sources_NoDup W steps :
  (forall step s result,
      fst (executeResearchStep W step s) = Fulfilled result ->
      NoDup (map Source.uri (ResearchResult.sources result))) ->
  forall completedSteps s,
    NoDup (map Source.uri (ArtifactState.sources (artifact s))) ->
    NoDup (map Source.uri
             (ArtifactState.sources
                (artifact (snd (research_loop W steps completedSteps s))))).
Proof.
  intros Hdistinct. induction steps as [|step rest IH]; intros acc s Hs.
  - exact Hs.
  - rewrite research_loop_cons. cbv zeta.
    pose proof (Hdistinct step
                  (snd (setArtifact
                          (ArtifactState.with_currentStepId
                             (Some (ResearchStep.id step))) s))) as Hstep.
    destruct (executeResearchStep_settles W step
                (snd (setArtifact
                        (ArtifactState.with_currentStepId
                           (Some (ResearchStep.id step))) s))) as [r Hr].
    rewrite Hr in *. apply IH.
    cbn [setArtifact snd artifact call_researcher].
    apply accumulate_sources_NoDup; [exact Hs|].
    apply Hstep. reflexivity.
Qed.

(** ** The researcher never rejects *)

(** C4.  [executeResearchStep] settles fulfilled in every world, for every
    step and in every state.  When the body of its [try] block throws (the
    call rejects, or reading the response throws) it resolves to the finding
    Failed to fetch info for this step. with no sources; otherwise to what
    the body returned.  The loop therefore runs to its end and calls the
    researcher once for each step, in order. *)
Theorem executeResearchStep_never_rejects W step s :
  (exists result,
      executeResearchStep W step s
      = (Fulfilled result, snd (call_researcher W step s)))
  /\ (fst (research_attempt W step s) = Rejected ->
      fst (executeResearchStep W step s)
      = Fulfilled (ResearchResult.mk "Failed to fetch info for this step." []))
  /\ (forall result,
        fst (research_attempt W step s) = Fulfilled result ->
        fst (executeResearchStep W step s) = Fulfilled result)
  /\ forall steps completedSteps,
       exists completedSteps' s',
         research_loop W steps completedSteps s = (Fulfilled completedSteps', s')
         /\ researcher_calls s' = (researcher_calls s ++ steps)%list.
Proof.
  split; [apply executeResearchStep_settles|].
  split; [|split].
  - unfold executeResearchStep, try_catch.
    destruct (research_attempt W step s) as [[result|] s']; cbn; [discriminate|reflexivity].
  - intros result. unfold executeResearchStep, try_catch.
    destruct (research_attempt W step s) as [[r|] s']; cbn; [auto|discriminate].
  - intros steps acc.
    destruct (research_loop_spec W steps acc s) as (results & s' & Hrun & Hpost).
    eexists _, s'. split; [exact Hrun|]. apply (lp_researcher _ _ _ _ Hpost).
Qed.

Lemma executeResearchStep_never_rejects_witness :
  let step := ResearchStep.mk "step-0" "history" pending None None in
  fst (research_attempt null_chunk_world step (App_initial null_chunk_world))
  = Rejected
  /\ fst (executeResearchStep null_chunk_world step (App_initial null_chunk_world))
     = Fulfilled (ResearchResult.mk "Failed to fetch info for this step." []).
Proof.
  cbv zeta. split; [reflexivity|].
  apply (proj1 (proj2 (executeResearchStep_never_rejects null_chunk_world
                         (ResearchStep.mk "step-0" "history" pending None None)
                         (App_initial null_chunk_world)))).
  reflexivity.
Defined.

(** ** The completed steps *)

Lemma completions_length steps : forall results,
  List.length results = List.length steps ->
  List.length (completions steps results) = List.length steps.
Proof.
  intros results H. unfold completions.
  rewrite length_map, length_combine, H. apply Nat.min_id.
Qed.

Lemma completions_id steps : forall results,
  List.length results = List.length steps ->
  map ResearchStep.id (completions steps results) = map ResearchStep.id steps
  /\ map ResearchStep.query (completions steps results)
     = map ResearchStep.query steps.
Proof.
  unfold completions.
  induction steps as [|step rest IH]; intros [|r results] H; try discriminate.
  - split; reflexivity.
  - cbn in H. injection H as H. destruct (IH results H) as [H1 H2].
    cbn. now rewrite H1, H2.
Qed.

Lemma completions_status steps results :
  Forall (fun c => ResearchStep.status c = step_completed)
    (completions steps results).
Proof.
  unfold completions. apply Forall_forall. intros c Hc.
  apply in_map_iff in Hc as ([step r] & <- & _). reflexivity.
Qed.

(** C5.  Whatever plan is approved and whatever the researcher does, the
    reporter is called once, with the plan's topic and a list of completed
    steps that has one entry per step of the plan, with the ids and queries
    of the plan in the plan's order, every entry with status completed. *)
Theorem completed_steps_follow_plan W plan s :
  exists completedSteps,
    reporter_calls (snd (handlePlanApproval W plan s))
    = (reporter_calls s ++ [(ResearchPlan.topic plan, completedSteps)])%list
    /\ List.length completedSteps = List.length (ResearchPlan.steps plan)
    /\ map ResearchStep.id completedSteps
       = map ResearchStep.id (ResearchPlan.steps plan)
    /\ map ResearchStep.query completedSteps
       = map ResearchStep.query (ResearchPlan.steps plan)
    /\ Forall (fun c => ResearchStep.status c = step_completed) completedSteps.
Proof.
  destruct (handlePlanApproval_spec W plan s)
    as (results & outcome & s' & Hrun & Hpost & _).
  rewrite Hrun. cbn [snd].
  exists (completions (ResearchPlan.steps plan) results).
  pose proof (ap_results _ _ _ _ _ Hpost) as Hlen.
  split; [apply (ap_reporter _ _ _ _ _ Hpost)|].
  split; [now apply completions_length|].
  split; [now apply completions_id|].
  split; [now apply completions_id|].
  apply completions_status.
Qed.

(** ** The report *)

(** A submission that is not blank leaves the content empty, whether the
    planner delivers a plan or not. *)
Lemma handleInitialRequest_resets_content W s :
  truthy (trim (input s)) = true ->
  ArtifactState.content (artifact (snd (handleInitialRequest W s))) = "".
Proof.
  intros H. rewrite (handleInitialRequest_stages W s H).
  now destruct (fst (createResearchPlan W (input s) s)).
Qed.

(** C6 (as amended).  When the report stream delivers [chunks] and ends, the
    content of the artifact is the content it had when [handlePlanApproval]
    was called,
    which is also its content on entering reporting, followed by the texts of
    the chunks in arrival order, and the phase is completed.  A chunk whose
    text is empty or undefined causes no update; with no chunk at all the
    content is unchanged.  In a state reached by a submission the content on
    entering reporting is the empty string, so the content at the end is the
    texts of the chunks alone. *)
Theorem report_content_is_concatenation W plan s :
  (forall s0,
      truthy (trim (input s0)) = true ->
      s = snd (handleInitialRequest W s0) ->
      ArtifactState.content (artifact s) = "")
  /\ exists completedSteps,
       reporter_calls (snd (handlePlanApproval W plan s))
       = (reporter_calls s ++ [(ResearchPlan.topic plan, completedSteps)])%list
       /\ forall chunks,
            reporter_api W (List.length (reporter_calls s)) (ResearchPlan.topic plan)
              completedSteps
            = StreamOpens chunks true ->
            let s' := snd (handlePlanApproval W plan s) in
            fst (handlePlanApproval W plan s) = Fulfilled tt
            /\ ArtifactState.phase (artifact s') = completed
            /\ ArtifactState.content (artifact s')
               = (ArtifactState.content (artifact s)
                  ++ join (map chunk_text chunks))%string
            /\ (exists before a updates,
                  artifact_log s' = (before ++ (a :: updates) ++ [artifact s'])%list
                  /\ ArtifactState.phase a = reporting
                  /\ ArtifactState.content a = ArtifactState.content (artifact s)
                  /\ List.length updates = List.length (filter truthy_opt chunks))
            /\ (ArtifactState.content (artifact s) = "" ->
                ArtifactState.content (artifact s') = join (map chunk_text chunks))
            /\ (chunks = [] ->
                ArtifactState.content (artifact s')
                = ArtifactState.content (artifact s)).
Proof.
  split.
  { intros s0 H0 ->. now apply handleInitialRequest_resets_content. }
  destruct (handlePlanApproval_spec W plan s)
    as (results & outcome & s' & Hrun & Hpost & Hdone).
  rewrite Hrun. cbn [fst snd].
  exists (completions (ResearchPlan.steps plan) results).
  split; [apply (ap_reporter _ _ _ _ _ Hpost)|].
  intros chunks Hchunks.
  destruct (Hdone chunks Hchunks)
    as [-> [Hph Hco (l1 & a & l2 & Hlog & _ & _ & Ha & Hac & _ & Hl2 & _)]].
  cbv zeta. split; [reflexivity|]. split; [exact Hph|]. split; [exact Hco|].
  split; [|split].
  - exists (artifact_log s
            ++ ArtifactState.with_phase researching (artifact s) :: l1)%list, a, l2.
    split; [|auto]. rewrite Hlog. now rewrite <- !app_assoc.
  - intros E. rewrite Hco, E. reflexivity.
  - intros ->. rewrite Hco. cbn. apply append_empty_r.
Qed.

Lemma report_content_is_concatenation_witness :
  let s1 := snd (handleInitialRequest solar_world solar_start) in
  let s2 := snd (handlePlanApproval solar_world solar_approved s1) in
  ArtifactState.content (artifact s1) = ""
  /\ ArtifactState.phase (artifact s2) = completed
  /\ ArtifactState.content (artifact s2) = "# Solar panels".
Proof.
  cbv zeta.
  destruct (report_content_is_concatenation solar_world solar_approved
              (snd (handleInitialRequest solar_world solar_start)))
    as (Hempty & completedSteps & Hcall & Hchunks).
  destruct (Hchunks [Some "# Solar"; Some ""; None; Some " panels"] eq_refl)
    as (_ & Hphase & _ & _ & Hcontent & _).
  pose proof (Hempty solar_start eq_refl eq_refl) as H0.
  split; [exact H0|]. split; [exact Hphase|].
  exact (Hcontent H0).
Defined.

(** C6 (as stated) fails when a plan is approved a second time: the plan card
    stays in the transcript with its button, [handlePlanApproval] does not
    reset the content, and the second run enters reporting with the first
    report as content and ends with the first report followed by the chunks
    of the second stream. *)
Lemma second_approval_keeps_old_report :
  let s1 := snd (handleInitialRequest solar_world solar_start) in
  let s2 := snd (handlePlanApproval solar_world solar_approved s1) in
  let s3 := snd (handlePlanApproval solar_world solar_approved s2) in
  fst (handlePlanApproval solar_world solar_approved s2) = Fulfilled tt
  /\ ArtifactState.phase (artifact s2) = completed
  /\ ArtifactState.content (artifact s2) = "# Solar panels"
  /\ map (fun a => (ArtifactState.phase a, ArtifactState.content a))
       (skipn (List.length (artifact_log s2)) (artifact_log s3))
     = [(researching, "# Solar panels");
        (researching, "# Solar panels"); (researching, "# Solar panels");
        (researching, "# Solar panels"); (researching, "# Solar panels");
        (researching, "# Solar panels"); (researching, "# Solar panels");
        (reporting, "# Solar panels");
        (reporting, "# Solar panels# Solar");
        (reporting, "# Solar panels# Solar panels");
        (completed, "# Solar panels# Solar panels")]
  /\ ArtifactState.phase (artifact s3) = completed
  /\ ArtifactState.content (artifact s3) = "# Solar panels# Solar panels"
  /\ ArtifactState.content (artifact s3)
     <> join (map chunk_text [Some "# Solar"; Some ""; None; Some " panels"]).
Proof. vm_compute. repeat split. discriminate. Qed.

(** ** Planning failure *)

Lemma createResearchPlan_rejects W topic s :
  planner_api W (List.length (planner_calls s)) topic = PlannerRejects
  \/ (exists text,
        truthy_opt text = true
        /\ (planner_api W (List.length (planner_calls s)) topic
            = PlannerResponds text ParseError
            \/ planner_api W (List.length (planner_calls s)) topic
               = PlannerResponds text NoStepsArray)) ->
  fst (createResearchPlan W topic s) = Rejected.
Proof.
  unfold createResearchPlan, bind. cbn [call_planner].
  intros [->|(text & Ht & [->| ->])]; [reflexivity| |]; now rewrite Ht.
Qed.

(** C7 (as amended).  When the planner call rejects, or its text is not
    empty and does not parse or parses to a value without a [steps] array,
    the handler itself settles fulfilled; the transcript is the one before the
    submission followed by the user's message, the placeholder and the
    failure message; the phase is idle; the planner was called once and
    neither the researcher nor the reporter was called. *)
Theorem planning_failure_recovered W s :
  truthy (trim (input s)) = true ->
  planner_api W (List.length (planner_calls s)) (input s) = PlannerRejects
  \/ (exists text,
        truthy_opt text = true
        /\ (planner_api W (List.length (planner_calls s)) (input s)
            = PlannerResponds text ParseError
            \/ planner_api W (List.length (planner_calls s)) (input s)
               = PlannerResponds text NoStepsArray)) ->
  let s' := snd (handleInitialRequest W s) in
  fst (handleInitialRequest W s) = Fulfilled tt
  /\ messages s' =
     (messages s ++
        [user_message W s; thinking_message W s;
         Message.mk (toString (clock W (4 + clock_reads s))) model
           "Planner failed to generate a plan. Please try again."
           (clock W (5 + clock_reads s)) None None None])%list
  /\ ArtifactState.phase (artifact s') = idle
  /\ planner_calls s' = (planner_calls s ++ [input s])%list
  /\ researcher_calls s' = researcher_calls s
  /\ reporter_calls s' = reporter_calls s
  /\ currentPlan s' = currentPlan s
  /\ map ArtifactState.phase (artifact_log s')
     = (map ArtifactState.phase (artifact_log s) ++ [planning; idle])%list.
Proof.
  intros Hinput Hfail.
  assert (Hrej : fst (createResearchPlan W (input s) s) = Rejected).
  { now apply createResearchPlan_rejects. }
  rewrite (handleInitialRequest_stages W s Hinput), Hrej. cbv zeta.
  cbn [fst snd failure_state messages artifact planner_calls researcher_calls
       reporter_calls currentPlan artifact_log].
  repeat split. rewrite map_app. reflexivity.
Qed.

Lemma planning_failure_recovered_witness :
  let s := typed "solar panels" (App_initial outage_world) in
  let s' := snd (handleInitialRequest outage_world s) in
  fst (handleInitialRequest outage_world s) = Fulfilled tt
  /\ messages s' =
     (messages s ++
        [user_message outage_world s; thinking_message outage_world s;
         Message.mk (toString (clock outage_world (4 + clock_reads s))) model
           "Planner failed to generate a plan. Please try again."
           (clock outage_world (5 + clock_reads s)) None None None])%list
  /\ ArtifactState.phase (artifact s') = idle
  /\ planner_calls s' = (planner_calls s ++ [input s])%list
  /\ researcher_calls s' = researcher_calls s
  /\ reporter_calls s' = reporter_calls s
  /\ currentPlan s' = currentPlan s
  /\ map ArtifactState.phase (artifact_log s')
     = (map ArtifactState.phase (artifact_log s) ++ [planning; idle])%list.
Proof.
  apply (planning_failure_recovered outage_world
           (typed "solar panels" (App_initial outage_world))).
  - reflexivity.
  - left. reflexivity.
Defined.

(** C7 (as stated) fails for a planner output that is empty or undefined.
    Such an output does not parse either, but [createResearchPlan] replaces
    it by an empty list of steps before parsing: the submission ends in phase
    reviewing with a plan of no steps, and the transcript grows by the
    user's entry and the planner's entry, not by a failure message. *)
Lemma empty_planner_output_is_no_failure :
  let s := typed "solar panels" (App_initial silent_world) in
  let s' := snd (handleInitialRequest silent_world s) in
  planner_api silent_world 0 "solar panels" = PlannerResponds None NoStepsArray
  /\ fst (handleInitialRequest silent_world s) = Fulfilled tt
  /\ ArtifactState.phase (artifact s') = reviewing
  /\ currentPlan s' = Some (ResearchPlan.mk "solar panels" [])
  /\ map (fun m => (Message.role m, Message.content m))
       (skipn (List.length (messages s)) (messages s'))
     = [(user, "solar panels");
        (model, "Planner: I've outlined a strategy. Please review it below.")]
  /\ map ArtifactState.phase (artifact_log s') = [planning; reviewing].
Proof. vm_compute. repeat split. Qed.

(** ** The plan editor *)

Lemma new_id_inj (a b : N) :
  ("new-" ++ toString a = "new-" ++ toString b)%string -> a = b.
Proof. cbn. intros H. injection H as H. now apply toString_inj. Qed.

Lemma step_id_not_new (i a : N) :
  ("step-" ++ toString i)%string <> ("new-" ++ toString a)%string.
Proof. cbn. discriminate. Qed.

Lemma filter_removes_id (removed : string) (steps : list ResearchStep) :
  Forall (fun s => ResearchStep.id s <> removed)
    (filter (fun s => negb (ResearchStep.id s =? removed)%string) steps).
Proof.
  apply Forall_forall. intros x Hx. apply filter_In in Hx as [_ Hx].
  intros E. apply String.eqb_eq in E. now rewrite E in Hx.
Qed.

(** C8 (as amended).  Removing a step and then adding a step with a query
    that is not blank leaves the remaining steps, in order, followed by one
    pending step with that query whose id is new- followed by the clock
    reading of the add.  No step of the result carries the removed id when
    that id was assigned by the planner (step- and an index) or by an add at
    a different clock reading. *)
Theorem readded_step_id (st : PlanReview.State) (removed query : string) (now : N) :
  truthy (trim query) = true ->
  let st' :=
    PlanReview.handleAdd now
      (PlanReview.setNewStepText query (PlanReview.handleRemove removed st)) in
  PlanReview.steps st' =
    (filter (fun s => negb (ResearchStep.id s =? removed)%string) (PlanReview.steps st)
     ++ [ResearchStep.mk ("new-" ++ toString now) query pending None None])%list
  /\ ((exists i, removed = ("step-" ++ toString i)%string)
      \/ (exists t, t <> now /\ removed = ("new-" ++ toString t)%string) ->
      Forall (fun s => ResearchStep.id s <> removed) (PlanReview.steps st')).
Proof.
  intros Hq. cbv zeta.
  unfold PlanReview.handleAdd.
  cbn [PlanReview.setNewStepText PlanReview.handleRemove PlanReview.newStepText
       PlanReview.steps PlanReview.plan].
  rewrite Hq. cbn [negb PlanReview.steps].
  split; [reflexivity|].
  intros Hremoved. apply Forall_app. split; [apply filter_removes_id|].
  constructor; [|constructor]. cbn [ResearchStep.id].
  destruct Hremoved as [[i ->]|(t & Ht & ->)].
  - intros E. symmetry in E. revert E. apply step_id_not_new.
  - intros E. apply new_id_inj in E. congruence.
Qed.

Lemma readded_step_id_witness :
  let st' :=
    PlanReview.handleAdd 1700000000009
      (PlanReview.setNewStepText "efficiency"
         (PlanReview.handleRemove "step-1" (PlanReview.mount solar_plan))) in
  map ResearchStep.id (PlanReview.steps st')
  = ["step-0"; "step-2"; "new-1700000000009"]
  /\ Forall (fun s => ResearchStep.id s <> "step-1") (PlanReview.steps st').
Proof.
  cbv zeta.
  destruct (readded_step_id (PlanReview.mount solar_plan) "step-1" "efficiency"
              1700000000009 eq_refl) as [Hsteps Hfresh].
  split.
  - rewrite Hsteps. reflexivity.
  - apply Hfresh. left. exists 1%N. reflexivity.
Defined.

(** C8 (as stated) fails when the clock reads the same at both adds: the
    step added at 1700000000009 and then removed comes back under the id it
    had, the new id being computed from the clock alone. *)
Lemma removed_id_reissued :
  let st0 :=
    PlanReview.handleAdd 1700000000009
      (PlanReview.setNewStepText "cost trends 2024" (PlanReview.mount solar_plan)) in
  let st1 := PlanReview.handleRemove "new-1700000000009" st0 in
  let st2 :=
    PlanReview.handleAdd 1700000000009
      (PlanReview.setNewStepText "cost trends 2024" st1) in
  map ResearchStep.id (PlanReview.steps st0)
  = ["step-0"; "step-1"; "step-2"; "new-1700000000009"]
  /\ map ResearchStep.id (PlanReview.steps st1) = ["step-0"; "step-1"; "step-2"]
  /\ map ResearchStep.id (PlanReview.steps st2)
     = ["step-0"; "step-1"; "step-2"; "new-1700000000009"]
  /\ In "new-1700000000009" (map ResearchStep.id (PlanReview.steps st0))
  /\ In "new-1700000000009" (map ResearchStep.id (PlanReview.steps st2)).
Proof.
  cbv zeta. split; [reflexivity|]. split; [reflexivity|]. split; [reflexivity|].
  split; vm_compute; auto.
Qed.

(** ** Approval of an empty plan *)

(** C9.  Approving a plan without steps calls the researcher not at all,
    hands the reporter an empty list of completed steps and leaves the
    sources as they were; the artifact is set to researching and then to
    reporting, and when the report stream ends the handler settles fulfilled
    with the artifact completed, having passed through researching,
    reporting and completed in that order. *)
Theorem empty_plan_completes W plan s :
  ResearchPlan.steps plan = [] ->
  let s' := snd (handlePlanApproval W plan s) in
  researcher_calls s' = researcher_calls s
  /\ reporter_calls s' = (reporter_calls s ++ [(ResearchPlan.topic plan, [])])%list
  /\ ArtifactState.sources (artifact s') = ArtifactState.sources (artifact s)
  /\ (exists rest,
        map ArtifactState.phase (artifact_log s')
        = (map ArtifactState.phase (artifact_log s)
           ++ researching :: reporting :: rest)%list)
  /\ forall chunks,
       reporter_api W (List.length (reporter_calls s)) (ResearchPlan.topic plan) []
       = StreamOpens chunks true ->
       fst (handlePlanApproval W plan s) = Fulfilled tt
       /\ ArtifactState.phase (artifact s') = completed
       /\ exists l,
            artifact_log s' = (artifact_log s ++ l)%list
            /\ phase_sequence l = [researching; reporting; completed].
Proof.
  intros Hsteps. cbv zeta. rewrite handlePlanApproval_stages, Hsteps.
  cbn [research_loop ret]. unfold report_phase.
  cbn [approval_start reporter_calls].
  destruct (reporter_api W (List.length (reporter_calls s)) (ResearchPlan.topic plan) [])
    as [|chunks ends] eqn:Hreply.
  - cbn [fst snd report_start approval_start researcher_calls reporter_calls artifact
         artifact_log].
    repeat split.
    + exists []. rewrite !map_app. cbn. now rewrite <- app_assoc.
    + discriminate.
    + discriminate.
    + discriminate.
  - destruct (for_await_spec chunks
                (report_start W plan [] (approval_start W plan s)))
      as (s4 & Hrun & Hsp).
    rewrite Hrun.
    destruct Hsp as [Sin Sms Scp Sck Spl Srs Srp Sti Sph Sso Scs Sco [l2 [Hl2 [Hlen2 Hall2]]]].
    cbn [report_start approval_start input messages artifact currentPlan clock_reads
         planner_calls researcher_calls reporter_calls artifact_log reporting_artifact
         ArtifactState.with_phase ArtifactState.with_currentStepId
         ArtifactState.title ArtifactState.content ArtifactState.phase
         ArtifactState.sources] in *.
    assert (Hphases : forall tail,
              map ArtifactState.phase (artifact_log s4 ++ tail)
              = (map ArtifactState.phase (artifact_log s)
                 ++ researching :: reporting
                    :: map ArtifactState.phase (l2 ++ tail))%list).
    { intros tail. rewrite Hl2. rewrite <- !app_assoc, !map_app. reflexivity. }
    destruct ends;
      cbn [setArtifact fst snd researcher_calls reporter_calls artifact artifact_log
           ArtifactState.with_phase ArtifactState.sources ArtifactState.phase].
    + split; [exact Srs|]. split; [exact Srp|]. split; [exact Sso|]. split.
      * eexists. apply Hphases.
      * intros chunks' E. injection E as <-.
        split; [reflexivity|]. split; [reflexivity|].
        eexists. split.
        -- rewrite Hl2. rewrite <- !app_assoc. reflexivity.
        -- apply (phase_sequence_approval
                    (ArtifactState.with_phase researching (artifact s)) []
                    (ArtifactState.with_currentStepId None
                       (ArtifactState.with_phase reporting
                          (ArtifactState.with_phase researching (artifact s))))
                    l2 (ArtifactState.with_phase completed (artifact s4)));
             auto.
    + split; [exact Srs|]. split; [exact Srp|]. split; [exact Sso|]. split.
      * exists (map ArtifactState.phase l2).
        specialize (Hphases []). rewrite !app_nil_r in Hphases. exact Hphases.
      * intros chunks' E. discriminate E.
Qed.

Lemma empty_plan_completes_witness :
  let s := at_phase reviewing (App_initial solar_world) in
  let s' := snd (handlePlanApproval solar_world empty_plan s) in
  researcher_calls s' = []
  /\ reporter_calls s' = [("solar panels", [])]
  /\ ArtifactState.sources (artifact s') = []
  /\ fst (handlePlanApproval solar_world empty_plan s) = Fulfilled tt
  /\ ArtifactState.phase (artifact s') = completed
  /\ exists l,
       artifact_log s' = (artifact_log s ++ l)%list
       /\ phase_sequence l = [researching; reporting; completed].
Proof.
  cbv zeta.
  destruct (empty_plan_completes solar_world empty_plan
              (at_phase reviewing (App_initial solar_world)) eq_refl)
    as (Hres & Hrep & Hsrc & _ & Hdone).
  destruct (Hdone [Some "# Solar"; Some ""; None; Some " panels"] eq_refl)
    as (Hout & Hphase & Hlog).
  split; [exact Hres|]. split; [exact Hrep|]. split; [exact Hsrc|].
  split; [exact Hout|]. split; [exact Hphase|]. exact Hlog.
Defined.

(** ** Approval in any phase *)



(** * Further properties *)

(** ** The plan editor: single operations *)

Lemma editor_state_eq (st : PlanReview.State) steps :
  steps = PlanReview.steps st ->
  {| PlanReview.plan := PlanReview.plan st; PlanReview.steps := steps;
     PlanReview.newStepText := PlanReview.newStepText st |} = st.
Proof. intros ->. now destruct st. Qed.

Lemma filter_all_true {A} (f : A -> bool) (l : list A) :
  Forall (fun x => f x = true) l -> filter f l = l.
Proof.
  induction 1 as [|x l Hx _ IH]; cbn; [reflexivity|]. now rewrite Hx, IH.
Qed.

Lemma map_all_id {A} (f : A -> A) (l : list A) :
  Forall (fun x => f x = x) l -> map f l = l.
Proof.
  induction 1 as [|x l Hx _ IH]; cbn; [reflexivity|]. now rewrite Hx, IH.
Qed.

Lemma id_absent_eqb (id : string) (steps : list ResearchStep) :
  ~ In id (map ResearchStep.id steps) ->
  Forall (fun s => (ResearchStep.id s =? id)%string = false) steps.
Proof.
  intros H. apply Forall_forall. intros x Hx. apply String.eqb_neq.
  intros E. apply H. rewrite <- E. now apply in_map.
Qed.

(** X1.  Editing or removing an id that no step of the working copy carries
    leaves the editor exactly as it was: steps, their order and contents, and
    the text of the new-step field. *)
Theorem absent_id_is_noop (st : PlanReview.State) (id text : string) :
  ~ In id (editor_ids st) ->
  PlanReview.handleEdit id text st = st
  /\ PlanReview.handleRemove id st = st.
Proof.
  intros H. apply id_absent_eqb in H. split.
  - unfold PlanReview.handleEdit. apply editor_state_eq. apply map_all_id.
    eapply Forall_impl; [|exact H]. cbn. intros s ->. reflexivity.
  - unfold PlanReview.handleRemove. apply editor_state_eq. apply filter_all_true.
    eapply Forall_impl; [|exact H]. cbn. intros s ->. reflexivity.
Qed.

Lemma absent_id_is_noop_witness :
  PlanReview.handleEdit "step-7" "tariffs" (PlanReview.mount solar_plan)
  = PlanReview.mount solar_plan
  /\ PlanReview.handleRemove "step-7" (PlanReview.mount solar_plan)
     = PlanReview.mount solar_plan.
Proof.
  apply (absent_id_is_noop (PlanReview.mount solar_plan) "step-7" "tariffs").
  vm_compute. intros [H|[H|[H|[]]]]; discriminate H.
Defined.

(** X2.  [handleEdit] touches queries only: the working copy keeps its
    length, and position by position the ids, statuses, findings and sources
    of its steps; a step gets the new text as its query exactly when its id is
    the edited one (every such step, should several share the id), and keeps
    its query otherwise.  The plan prop and the new-step field are kept. *)
Theorem handleEdit_changes_queries_only (st : PlanReview.State) (id text : string) :
  let st' := PlanReview.handleEdit id text st in
  PlanReview.plan st' = PlanReview.plan st
  /\ PlanReview.newStepText st' = PlanReview.newStepText st
  /\ List.length (PlanReview.steps st') = List.length (PlanReview.steps st)
  /\ forall i s,
       nth_error (PlanReview.steps st) i = Some s ->
       exists s',
         nth_error (PlanReview.steps st') i = Some s'
         /\ ResearchStep.id s' = ResearchStep.id s
         /\ ResearchStep.status s' = ResearchStep.status s
         /\ ResearchStep.finding s' = ResearchStep.finding s
         /\ ResearchStep.sources s' = ResearchStep.sources s
         /\ (ResearchStep.id s = id -> ResearchStep.query s' = text)
         /\ (ResearchStep.id s <> id -> ResearchStep.query s' = ResearchStep.query s).
Proof.
  cbv zeta. unfold PlanReview.handleEdit. cbn [PlanReview.plan PlanReview.steps PlanReview.newStepText].
  split; [reflexivity|]. split; [reflexivity|]. split; [apply length_map|].
  intros i s Hi. eexists. split.
  - rewrite nth_error_map, Hi. reflexivity.
  - destruct (ResearchStep.id s =? id)%string eqn:E; cbn.
    + apply String.eqb_eq in E. repeat split; congruence.
    + apply String.eqb_neq in E. repeat split; congruence.
Qed.

Lemma filter_length_count {A} (f : A -> bool) (l : list A) :
  List.length (filter f l) + List.length (filter (fun x => negb (f x)) l)
  = List.length l.
Proof.
  induction l as [|x l IH]; cbn; [reflexivity|].
  destruct (f x); cbn; lia.
Qed.

(** X3.  [handleRemove] drops every step with the given id and nothing else:
    no step of the result carries the id, the steps with another id stay in
    their order, and the working copy shrinks by the number of steps that
    carried it.  Removing the same id again changes nothing. *)
Theorem handleRemove_drops_exactly (st : PlanReview.State) (id : string) :
  let st' := PlanReview.handleRemove id st in
  ~ In id (editor_ids st')
  /\ (forall s, In s (PlanReview.steps st') <->
                In s (PlanReview.steps st) /\ ResearchStep.id s <> id)
  /\ filter (fun s => negb (ResearchStep.id s =? id)%string) (PlanReview.steps st)
     = PlanReview.steps st'
  /\ List.length (PlanReview.steps st')
     + List.length (filter (fun s => (ResearchStep.id s =? id)%string)
                      (PlanReview.steps st))
     = List.length (PlanReview.steps st)
  /\ PlanReview.handleRemove id st' = st'.
Proof.
  cbv zeta.
  assert (Hno : ~ In id (editor_ids (PlanReview.handleRemove id st))).
  { unfold editor_ids, PlanReview.handleRemove. cbn [PlanReview.steps].
    intros H. apply in_map_iff in H as (s & E & Hs).
    pose proof (filter_removes_id id (PlanReview.steps st)) as Hall.
    rewrite Forall_forall in Hall. now apply (Hall s Hs). }
  split; [exact Hno|]. split; [|split; [reflexivity|split]].
  - intros s. unfold PlanReview.handleRemove. cbn [PlanReview.steps].
    rewrite filter_In. split; intros [H1 H2]; split; try exact H1.
    + intros E. apply String.eqb_eq in E. now rewrite E in H2.
    + apply String.eqb_neq in H2. now rewrite H2.
  - unfold PlanReview.handleRemove. cbn [PlanReview.steps].
    pose proof (filter_length_count (fun s => (ResearchStep.id s =? id)%string)
                  (PlanReview.steps st)). lia.
  - unfold PlanReview.handleRemove at 1. apply editor_state_eq.
    apply filter_all_true. apply id_absent_eqb in Hno.
    eapply Forall_impl; [|exact Hno]. cbn. intros s ->. reflexivity.
Qed.

(** X4.  [handleAdd] with a blank new-step field changes nothing.  With a
    text that is not blank it appends one pending step carrying that text and
    the id new- followed by the clock reading, and empties the field; so a
    second [handleAdd] without typing again adds nothing, whatever the clock
    reads. *)
Theorem handleAdd_adds_once (st : PlanReview.State) (now : N) :
  (truthy (trim (PlanReview.newStepText st)) = false ->
   PlanReview.handleAdd now st = st)
  /\ (truthy (trim (PlanReview.newStepText st)) = true ->
      PlanReview.steps (PlanReview.handleAdd now st)
      = (PlanReview.steps st
         ++ [ResearchStep.mk ("new-" ++ toString now) (PlanReview.newStepText st)
               pending None None])%list
      /\ PlanReview.newStepText (PlanReview.handleAdd now st) = "")
  /\ forall later,
       PlanReview.handleAdd later (PlanReview.handleAdd now st)
       = PlanReview.handleAdd now st.
Proof.
  unfold PlanReview.handleAdd.
  destruct (truthy (trim (PlanReview.newStepText st))) eqn:E; cbn [negb].
  - split; [discriminate|]. split; [intros _; split; reflexivity|].
    intros later. reflexivity.
  - split; [reflexivity|]. split; [discriminate|].
    intros later. now rewrite E.
Qed.

(** ** The plan editor: sessions *)

Lemma editor_run_app actions1 actions2 st :
  editor_run (actions1 ++ actions2) st = editor_run actions2 (editor_run actions1 st).
Proof. apply fold_left_app. Qed.

Lemma editor_step_plan st a :
  PlanReview.plan (editor_step st a) = PlanReview.plan st.
Proof.
  destruct a; cbn; try reflexivity.
  unfold PlanReview.handleAdd. now destruct (negb _).
Qed.

Lemma step_origin_more plan readings readings' s :
  (forall t, In t readings -> In t readings') ->
  step_origin plan readings s -> step_origin plan readings' s.
Proof.
  intros Hsub [(H1 & H2 & H3 & t & Ht & E)|H]; [left|right; exact H].
  repeat split; try assumption. exists t. auto.
Qed.

Lemma editor_run_origin plan actions : forall st readings,
  Forall (step_origin plan readings) (PlanReview.steps st) ->
  Forall (step_origin plan (readings ++ add_readings actions))
    (PlanReview.steps (editor_run actions st)).
Proof.
  induction actions as [|a actions IH]; intros st readings H.
  - cbn. now rewrite app_nil_r.
  - cbn [editor_run fold_left]. fold (editor_run actions (editor_step st a)).
    destruct a as [text|now|id|id text]; cbn [add_readings editor_step].
    + apply IH. exact H.
    + replace (readings ++ now :: add_readings actions)%list
        with ((readings ++ [now]) ++ add_readings actions)%list
        by now rewrite <- app_assoc.
      apply IH. unfold PlanReview.handleAdd.
      assert (H' : Forall (step_origin plan (readings ++ [now])) (PlanReview.steps st)).
      { eapply Forall_impl; [|exact H]. intros s. apply step_origin_more.
        intros t Ht. apply in_or_app. now left. }
      destruct (negb _); [exact H'|]. cbn [PlanReview.steps].
      apply Forall_app. split; [exact H'|]. constructor; [|constructor].
      left. cbn. repeat split. exists now. split; [|reflexivity].
      apply in_or_app. right. now left.
    + apply IH. cbn [PlanReview.handleRemove PlanReview.steps].
      rewrite Forall_forall in *. intros s Hs. apply filter_In in Hs. now apply H.
    + apply IH. cbn [PlanReview.handleEdit PlanReview.steps].
      rewrite Forall_forall in *. intros s Hs.
      apply in_map_iff in Hs as (s1 & <- & Hs1). specialize (H s1 Hs1).
      destruct (ResearchStep.id s1 =? id)%string; [|exact H].
      destruct H as [(H1 & H2 & H3 & t & Ht & E)|(s0 & H0 & E1 & E2 & E3 & E4)].
      * left. cbn. repeat split; try assumption. exists t. auto.
      * right. exists s0. cbn. auto.
Qed.

Lemma editor_run_plan actions : forall st,
  PlanReview.plan (editor_run actions st) = PlanReview.plan st.
Proof.
  induction actions as [|a actions IH]; intros st; [reflexivity|].
  cbn [editor_run fold_left]. fold (editor_run actions (editor_step st a)).
  now rewrite IH, editor_step_plan.
Qed.

(** X5.  Whatever the user does in the editor, the approved plan carries the
    topic of the plan that was handed in, and each of its steps is either a
    step of that plan with its id, status, finding and sources (only the
    query may differ) or a pending step without finding and sources whose id
    is new- followed by the clock reading of one of the adds. *)
Theorem approved_plan_origin (plan : ResearchPlan) (actions : list EditorAction) :
  let approvedPlan :=
    PlanReview.approved (editor_run actions (PlanReview.mount plan)) in
  ResearchPlan.topic approvedPlan = ResearchPlan.topic plan
  /\ Forall (step_origin plan (add_readings actions))
       (ResearchPlan.steps approvedPlan).
Proof.
  cbv zeta. split.
  - unfold PlanReview.approved. cbn [ResearchPlan.topic].
    now rewrite editor_run_plan.
  - unfold PlanReview.approved. cbn [ResearchPlan.steps].
    apply (editor_run_origin plan actions (PlanReview.mount plan) []).
    cbn [PlanReview.mount PlanReview.steps]. apply Forall_forall.
    intros s Hs. right. exists s. auto.
Qed.

Lemma editor_step_ids_subset st a x :
  In x (editor_ids (editor_step st a)) ->
  In x (editor_ids st)
  \/ exists now, a = Add now /\ x = ("new-" ++ toString now)%string.
Proof.
  unfold editor_ids. destruct a as [text|now|id|id text]; cbn [editor_step].
  - auto.
  - unfold PlanReview.handleAdd. destruct (negb _); [auto|].
    cbn [PlanReview.steps]. rewrite map_app, in_app_iff. intros [H|[<-|[]]]; [auto|].
    right. exists now. auto.
  - cbn [PlanReview.handleRemove PlanReview.steps]. intros H.
    apply in_map_iff in H as (s & <- & Hs). apply filter_In in Hs as [Hs _].
    left. now apply in_map.
  - cbn [PlanReview.handleEdit PlanReview.steps]. rewrite map_map. intros H.
    apply in_map_iff in H as (s & <- & Hs). left.
    destruct (ResearchStep.id s =? id)%string; cbn; now apply in_map.
Qed.

Lemma NoDup_map_filter {A B} (f : A -> B) (g : A -> bool) (l : list A) :
  NoDup (map f l) -> NoDup (map f (filter g l)).
Proof.
  induction l as [|x l IH]; cbn; [auto|]. intros H.
  inversion H as [|? ? Hx Hl]; subst. destruct (g x); cbn; [|auto].
  constructor; [|auto]. intros Hin. apply Hx.
  apply in_map_iff in Hin as (y & E & Hy). apply filter_In in Hy as [Hy _].
  rewrite <- E. now apply in_map.
Qed.

Lemma editor_step_ids_NoDup st a :
  NoDup (editor_ids st) ->
  (forall now, a = Add now -> ~ In ("new-" ++ toString now)%string (editor_ids st)) ->
  NoDup (editor_ids (editor_step st a)).
Proof.
  unfold editor_ids. intros Hnd Hfresh.
  destruct a as [text|now|id|id text]; cbn [editor_step].
  - exact Hnd.
  - unfold PlanReview.handleAdd. destruct (negb _); [exact Hnd|].
    cbn [PlanReview.steps]. rewrite map_app. cbn [map ResearchStep.id].
    apply NoDup_app; [exact Hnd|repeat constructor; intros []|].
    intros x Hx [<-|[]]. exact (Hfresh now eq_refl Hx).
  - cbn [PlanReview.handleRemove PlanReview.steps]. now apply NoDup_map_filter.
  - cbn [PlanReview.handleEdit PlanReview.steps]. rewrite map_map.
    erewrite map_ext; [exact Hnd|]. intros s.
    now destruct (ResearchStep.id s =? id)%string.
Qed.

Lemma editor_run_ids_NoDup actions : forall st,
  NoDup (editor_ids st) ->
  NoDup (add_readings actions) ->
  (forall t, In t (add_readings actions) ->
             ~ In ("new-" ++ toString t)%string (editor_ids st)) ->
  NoDup (editor_ids (editor_run actions st)).
Proof.
  induction actions as [|a actions IH]; intros st Hnd Hreadings Hfresh; [exact Hnd|].
  cbn [editor_run fold_left]. fold (editor_run actions (editor_step st a)).
  apply IH.
  - apply editor_step_ids_NoDup; [exact Hnd|].
    intros now ->. apply Hfresh. now left.
  - destruct a; cbn [add_readings] in Hreadings; try exact Hreadings.
    now inversion Hreadings.
  - intros t Ht Hin. apply editor_step_ids_subset in Hin as [Hin|(now & -> & E)].
    + apply (Hfresh t); [|exact Hin].
      destruct a; cbn [add_readings]; try exact Ht. now right.
    + apply new_id_inj in E. subst now. cbn [add_readings] in Hreadings.
      inversion Hreadings as [|? ? Hnot _]. contradiction.
Qed.

(** X6.  When the ids of the plan under review are pairwise different, none
    of them is new- followed by the clock reading of an add, and no two adds
    read the same clock value, the ids of the working copy are pairwise
    different after every sequence of actions. *)
Theorem editor_keeps_ids_distinct (plan : ResearchPlan) (actions : list EditorAction) :
  NoDup (map ResearchStep.id (ResearchPlan.steps plan)) ->
  NoDup (add_readings actions) ->
  (forall t, In t (add_readings actions) ->
             ~ In ("new-" ++ toString t)%string
                 (map ResearchStep.id (ResearchPlan.steps plan))) ->
  NoDup (map ResearchStep.id
           (ResearchPlan.steps
              (PlanReview.approved (editor_run actions (PlanReview.mount plan))))).
Proof.
  intros Hplan Hreadings Hfresh.
  now apply (editor_run_ids_NoDup actions (PlanReview.mount plan)).
Qed.

Lemma editor_keeps_ids_distinct_witness :
  NoDup (map ResearchStep.id
           (ResearchPlan.steps
              (PlanReview.approved
                 (editor_run solar_session (PlanReview.mount solar_plan))))).
Proof.
  apply (editor_keeps_ids_distinct solar_plan solar_session).
  - vm_compute. repeat constructor; cbn; intuition discriminate.
  - vm_compute. repeat constructor; cbn; intuition discriminate.
  - intros t Ht. vm_compute in Ht. destruct Ht as [<-|[<-|[]]];
      vm_compute; intuition discriminate.
Defined.

Lemma add_readings_removes ids : add_readings (map Remove ids) = [].
Proof. induction ids as [|id ids IH]; [reflexivity|exact IH]. Qed.

(** X7.  The editor enforces no minimum: when the ids of the working copy are
    pairwise different, removing, one after the other, the id of every step
    leaves no step, with pairwise different ids after every removal, and the
    plan that is then approved has the topic and an empty list of steps. *)
Theorem editor_can_remove_every_step (st : PlanReview.State) :
  NoDup (editor_ids st) ->
  let st' := editor_run (map Remove (editor_ids st)) st in
  (forall k, NoDup (editor_ids (editor_run (map Remove (firstn k (editor_ids st))) st)))
  /\ PlanReview.steps st' = []
  /\ PlanReview.approved st'
     = ResearchPlan.mk (ResearchPlan.topic (PlanReview.plan st)) [].
Proof.
  intros Hnd. cbv zeta. split.
  { intros k. apply editor_run_ids_NoDup; [exact Hnd| |];
      rewrite add_readings_removes; [constructor|intros t []]. }
  clear Hnd.
  assert (H : forall ids st0,
             (forall s, In s (PlanReview.steps st0) -> In (ResearchStep.id s) ids) ->
             PlanReview.steps (editor_run (map Remove ids) st0) = []).
  { induction ids as [|id ids IH]; intros st0 Hin.
    - cbn. destruct (PlanReview.steps st0) as [|s l]; [reflexivity|].
      destruct (Hin s (or_introl eq_refl)).
    - cbn [map editor_run fold_left editor_step].
      fold (editor_run (map Remove ids) (PlanReview.handleRemove id st0)).
      apply IH. intros s Hs. cbn [PlanReview.handleRemove PlanReview.steps] in Hs.
      apply filter_In in Hs as [Hs Hne].
      destruct (Hin s Hs) as [E|Hi]; [|exact Hi].
      subst id. now rewrite String.eqb_refl in Hne. }
  split.
  - apply H. intros s Hs. now apply in_map.
  - unfold PlanReview.approved. rewrite editor_run_plan. f_equal.
    apply H. intros s Hs. now apply in_map.
Qed.

Lemma editor_can_remove_every_step_witness :
  PlanReview.approved
    (editor_run [Remove "step-0"; Remove "step-1"; Remove "step-2"]
       (PlanReview.mount solar_plan))
  = ResearchPlan.mk "solar panels" [].
Proof.
  refine (proj2 (proj2 (editor_can_remove_every_step (PlanReview.mount solar_plan) _))).
  vm_compute. repeat constructor; cbn; intuition discriminate.
Defined.

(** ** The planner *)

Lemma number_steps_query queries : forall i,
  map ResearchStep.query (number_steps i queries) = queries.
Proof.
  induction queries as [|q rest IH]; intros i; cbn; [reflexivity|]. now rewrite IH.
Qed.

Lemma number_steps_nth queries : forall i k st,
  nth_error (number_steps i queries) k = Some st ->
  ResearchStep.id st = ("step-" ++ toString (N.of_nat (i + k)))%string
  /\ ResearchStep.status st = pending
  /\ ResearchStep.finding st = None
  /\ ResearchStep.sources st = None.
Proof.
  induction queries as [|q rest IH]; intros i k st H.
  - destruct k; discriminate H.
  - destruct k as [|k]; cbn in H.
    + injection H as <-. cbn. rewrite Nat.add_0_r. auto.
    + replace (i + S k) with (S i + k) by lia. now apply IH.
Qed.

Lemma step_id_inj (a b : N) :
  ("step-" ++ toString a = "step-" ++ toString b)%string -> a = b.
Proof. cbn. intros H. injection H as H. now apply toString_inj. Qed.

Lemma number_steps_ids_NoDup queries i :
  NoDup (map ResearchStep.id (number_steps i queries)).
Proof.
  apply (proj2 (NoDup_nth_error _)). intros a b Ha E.
  rewrite length_map in Ha. rewrite !nth_error_map in E.
  destruct (nth_error (number_steps i queries) a) as [sa|] eqn:Ea.
  - destruct (nth_error (number_steps i queries) b) as [sb|] eqn:Eb;
      [|discriminate E].
    cbn in E. injection E as E.
    apply number_steps_nth in Ea as [Ia _]. apply number_steps_nth in Eb as [Ib _].
    rewrite Ia, Ib in E. apply step_id_inj in E. lia.
  - apply nth_error_None in Ea. lia.
Qed.

(** X8.  A plan [createResearchPlan] resolves to carries the topic it was
    called with; its steps are numbered step-0, step-1, ... in order, so their
    ids are pairwise different; every step is pending with no finding and no
    sources.  Its queries are those of the parsed response, in order; when the
    response text is undefined or empty the plan has no steps at all. *)
Theorem createResearchPlan_plan_shape W topic s plan :
  fst (createResearchPlan W topic s) = Fulfilled plan ->
  ResearchPlan.topic plan = topic
  /\ NoDup (map ResearchStep.id (ResearchPlan.steps plan))
  /\ (forall k st,
        nth_error (ResearchPlan.steps plan) k = Some st ->
        ResearchStep.id st = ("step-" ++ toString (N.of_nat k))%string
        /\ ResearchStep.status st = pending
        /\ ResearchStep.finding st = None
        /\ ResearchStep.sources st = None)
  /\ forall text json,
       planner_api W (List.length (planner_calls s)) topic
       = PlannerResponds text json ->
       (truthy_opt text = true ->
        json = StepsArray (map ResearchStep.query (ResearchPlan.steps plan)))
       /\ (truthy_opt text = false -> ResearchPlan.steps plan = []).
Proof.
  unfold createResearchPlan, bind. cbn [call_planner].
  destruct (planner_api W (List.length (planner_calls s)) topic) as [|text json];
    [discriminate|].
  assert (Hshape : forall queries,
            Fulfilled (ResearchPlan.mk topic (number_steps 0 queries)) = Fulfilled plan ->
            ResearchPlan.topic plan = topic
            /\ NoDup (map ResearchStep.id (ResearchPlan.steps plan))
            /\ (forall k st,
                  nth_error (ResearchPlan.steps plan) k = Some st ->
                  ResearchStep.id st = ("step-" ++ toString (N.of_nat k))%string
                  /\ ResearchStep.status st = pending
                  /\ ResearchStep.finding st = None
                  /\ ResearchStep.sources st = None)
            /\ map ResearchStep.query (ResearchPlan.steps plan) = queries).
  { intros queries E. injection E as <-. cbn [ResearchPlan.topic ResearchPlan.steps].
    split; [reflexivity|]. split; [apply number_steps_ids_NoDup|].
    split; [|apply number_steps_query].
    intros k st Hk. now apply (number_steps_nth queries 0 k st). }
  destruct (truthy_opt text) eqn:Et.
  - destruct json as [| |queries]; cbn; try discriminate.
    intros E. destruct (Hshape queries E) as (H1 & H2 & H3 & H4).
    split; [exact H1|]. split; [exact H2|]. split; [exact H3|].
    intros text' json' E'. injection E' as <- <-. split; [|congruence].
    intros _. now rewrite H4.
  - cbn. intros E. destruct (Hshape [] E) as (H1 & H2 & H3 & H4).
    split; [exact H1|]. split; [exact H2|]. split; [exact H3|].
    intros text' json' E'. injection E' as <- <-. split; [congruence|].
    intros _. now apply map_eq_nil in H4.
Qed.

Lemma createResearchPlan_plan_shape_witness :
  ResearchPlan.topic solar_plan = "solar panels"
  /\ NoDup (map ResearchStep.id (ResearchPlan.steps solar_plan))
  /\ map ResearchStep.query (ResearchPlan.steps solar_plan)
     = ["history"; "efficiency"; "market"].
Proof.
  destruct (createResearchPlan_plan_shape solar_world "solar panels" solar_start
              solar_plan eq_refl) as (H1 & H2 & _ & H4).
  split; [exact H1|]. split; [exact H2|].
  reflexivity.
Defined.

(** ** Topic submission *)

(** X9.  A planner response whose text is undefined or empty is no failure:
    whatever the rest of the response, the submission ends in phase reviewing
    with a plan for the topic that has no steps; the transcript grows by the
    user's entry and the planner's entry, which carries that empty plan. *)
Theorem textless_plan_is_empty W s text json :
  truthy (trim (input s)) = true ->
  planner_api W (List.length (planner_calls s)) (input s) = PlannerResponds text json ->
  truthy_opt text = false ->
  let s' := snd (handleInitialRequest W s) in
  ArtifactState.phase (artifact s') = reviewing
  /\ currentPlan s' = Some (ResearchPlan.mk (input s) [])
  /\ exists m_user m_plan,
       skipn (List.length (messages s)) (messages s') = [m_user; m_plan]
       /\ Message.role m_user = user
       /\ Message.role m_plan = model
       /\ Message.content m_plan
          = "Planner: I've outlined a strategy. Please review it below."
       /\ Message.isThinking m_plan = Some false
       /\ Message.plan m_plan = Some (ResearchPlan.mk (input s) []).
Proof.
  intros Hinput Hreply Htext.
  assert (Hplan : fst (createResearchPlan W (input s) s)
                  = Fulfilled (ResearchPlan.mk (input s) [])).
  { unfold createResearchPlan, bind. cbn [call_planner]. now rewrite Hreply, Htext. }
  rewrite (handleInitialRequest_stages W s Hinput), Hplan. cbv zeta.
  cbn [snd review_state artifact currentPlan messages ArtifactState.with_phase
       ArtifactState.phase].
  split; [reflexivity|]. split; [reflexivity|].
  rewrite map_app.
  rewrite skipn_app, length_map, Nat.sub_diag.
  rewrite skipn_all2 by (rewrite length_map; lia).
  cbn [app skipn map]. eexists _, _. split; [reflexivity|].
  split.
  - unfold show_plan. now destruct (_ =? _)%string.
  - assert (E : show_plan (thinkingId W s) (ResearchPlan.mk (input s) [])
                  (thinking_message W s)
                = Message.mk (thinkingId W s) model
                    "Planner: I've outlined a strategy. Please review it below."
                    (Message.timestamp (thinking_message W s)) (Some false) None
                    (Some (ResearchPlan.mk (input s) []))).
    { unfold show_plan.
      change (Message.id (thinking_message W s)) with (thinkingId W s).
      now rewrite String.eqb_refl. }
    rewrite E. repeat split.
Qed.

Lemma textless_plan_is_empty_witness :
  let s := typed "solar panels" (App_initial silent_world) in
  let s' := snd (handleInitialRequest silent_world s) in
  ArtifactState.phase (artifact s') = reviewing
  /\ currentPlan s' = Some (ResearchPlan.mk "solar panels" []).
Proof.
  cbv zeta.
  destruct (textless_plan_is_empty silent_world
              (typed "solar panels" (App_initial silent_world)) None NoStepsArray
              eq_refl eq_refl eq_refl) as (H1 & H2 & _).
  split; [exact H1|exact H2].
Defined.

(** X10.  A submission that is not blank starts from scratch and cannot
    reject: the handler settles fulfilled, the input field is emptied, the
    artifact gets the topic exactly as typed (untrimmed) as title, empty
    content, no sources and no current step, whatever it held before; the
    planner is called once with the topic as typed, no other agent is called,
    and the phase ends as reviewing or idle. *)
Theorem submission_starts_from_scratch W s :
  truthy (trim (input s)) = true ->
  let s' := snd (handleInitialRequest W s) in
  fst (handleInitialRequest W s) = Fulfilled tt
  /\ input s' = ""
  /\ ArtifactState.title (artifact s') = input s
  /\ ArtifactState.content (artifact s') = ""
  /\ ArtifactState.sources (artifact s') = []
  /\ ArtifactState.currentStepId (artifact s') = None
  /\ (ArtifactState.phase (artifact s') = reviewing
      \/ ArtifactState.phase (artifact s') = idle)
  /\ planner_calls s' = (planner_calls s ++ [input s])%list
  /\ researcher_calls s' = researcher_calls s
  /\ reporter_calls s' = reporter_calls s.
Proof.
  intros H. rewrite (handleInitialRequest_stages W s H). cbv zeta.
  destruct (fst (createResearchPlan W (input s) s)); cbn; repeat split; auto.
Qed.

Lemma submission_starts_from_scratch_witness :
  let s := typed " tides " solar_done in
  let s' := snd (handleInitialRequest solar_world s) in
  ArtifactState.content (artifact s) = "# Solar panels"
  /\ List.length (ArtifactState.sources (artifact s)) = 2
  /\ ArtifactState.title (artifact s') = " tides "
  /\ ArtifactState.content (artifact s') = ""
  /\ ArtifactState.sources (artifact s') = [].
Proof.
  cbv zeta.
  destruct (submission_starts_from_scratch solar_world (typed " tides " solar_done)
              eq_refl) as (_ & _ & Ht & Hc & Hs & _).
  split; [reflexivity|]. split; [reflexivity|].
  split; [exact Ht|]. split; [exact Hc|exact Hs].
Defined.

(** ** The transcript *)

Lemma show_plan_key tid plan m : entry_key (show_plan tid plan m) = entry_key m.
Proof. unfold show_plan. now destruct (_ =? _)%string. Qed.

Lemma show_plan_other tid plan m : Message.id m <> tid -> show_plan tid plan m = m.
Proof.
  intros H. unfold show_plan. apply String.eqb_neq in H. now rewrite H.
Qed.

(** X11.  The handlers only ever append to the transcript.
    [handlePlanApproval] leaves every earlier entry as it is.
    [handleInitialRequest] keeps the id, role and timestamp of every earlier
    entry, in order; it keeps the earlier entries entirely when none of them
    carries the id of its placeholder. *)
Theorem transcript_append_only W s plan :
  (exists appended,
      map entry_key (messages (snd (handleInitialRequest W s)))
      = (map entry_key (messages s) ++ appended)%list)
  /\ (Forall (fun m => Message.id m <> thinkingId W s) (messages s) ->
      exists appended,
        messages (snd (handleInitialRequest W s)) = (messages s ++ appended)%list)
  /\ (exists appended,
        messages (snd (handlePlanApproval W plan s)) = (messages s ++ appended)%list).
Proof.
  split; [|split].
  - destruct (truthy (trim (input s))) eqn:H.
    + rewrite (handleInitialRequest_stages W s H).
      destruct (fst (createResearchPlan W (input s) s)) as [p|];
        cbn [snd review_state failure_state messages].
      * eexists. rewrite map_map. erewrite map_ext by apply show_plan_key.
        rewrite map_app. reflexivity.
      * eexists. rewrite map_app. reflexivity.
    + rewrite (handleInitialRequest_blank W s H). exists []. cbn.
      now rewrite app_nil_r.
  - intros Hids. destruct (truthy (trim (input s))) eqn:H.
    + rewrite (handleInitialRequest_stages W s H).
      destruct (fst (createResearchPlan W (input s) s)) as [p|];
        cbn [snd review_state failure_state messages].
      * eexists. rewrite map_app. f_equal. apply map_all_id.
        eapply Forall_impl; [|exact Hids]. intros m. apply show_plan_other.
      * eexists. reflexivity.
    + rewrite (handleInitialRequest_blank W s H). exists []. cbn.
      now rewrite app_nil_r.
  - destruct (handlePlanApproval_spec W plan s)
      as (results & outcome & s' & Hrun & Hpost & _).
    rewrite Hrun. cbn [snd]. eexists. apply (ap_messages _ _ _ _ _ Hpost).
Qed.

(** ** Research results *)

Lemma extract_sources_named chunks : forall acc sources,
  extract_sources chunks acc = Some sources ->
  Forall source_named acc ->
  Forall source_named sources
  /\ List.length sources <= List.length acc + List.length chunks.
Proof.
  induction chunks as [|chunk rest IH]; intros acc sources H Hacc.
  - cbn in H. injection H as <-. split; [exact Hacc|lia].
  - cbn [extract_sources] in H. cbn [List.length].
    destruct chunk as [chunk|]; [|discriminate H].
    assert (Hskip : extract_sources rest acc = Some sources ->
                    Forall source_named sources
                    /\ List.length sources <= List.length acc + S (List.length rest)).
    { intros E. destruct (IH acc sources E Hacc). split; [assumption|lia]. }
    destruct (GroundingChunk.web chunk) as [web|]; [|auto].
    destruct (Web.uri web) as [u|]; [|auto].
    destruct (Web.title web) as [t|]; [|auto].
    destruct (truthy u && truthy t) eqn:E; [|auto].
    apply andb_true_iff in E as [Eu Et].
    destruct (IH (acc ++ [Source.mk t u])%list sources H) as [H1 H2].
    + apply Forall_app. split; [exact Hacc|]. constructor; [|constructor].
      split; assumption.
    + split; [exact H1|]. rewrite length_app in H2. cbn in H2. lia.
Qed.

Lemma or_else_truthy o dflt : truthy dflt = true -> truthy (or_else o dflt) = true.
Proof.
  intros H. destruct o as [t|]; cbn; [|exact H]. now destruct (truthy t) eqn:E.
Qed.

Lemma executeResearchStep_result W step s :
  exists result,
    executeResearchStep W step s = (Fulfilled result, snd (call_researcher W step s))
    /\ result_named result
    /\ forall response chunks,
         researcher_api W (List.length (researcher_calls s)) step
         = ResearcherResponds response ->
         GenerateContentResponse.groundingChunks response = Some chunks ->
         List.length (ResearchResult.sources result) <= List.length chunks.
Proof.
  unfold executeResearchStep, try_catch, research_attempt, bind.
  cbn [call_researcher].
  destruct (researcher_api W (List.length (researcher_calls s)) step) as [|response].
  - exists degraded. split; [reflexivity|]. split; [|discriminate].
    split; [reflexivity|constructor].
  - destruct (GenerateContentResponse.groundingChunks response) as [chunks|] eqn:Ec.
    + destruct (extract_sources chunks []) as [sources|] eqn:Es.
      * destruct (extract_sources_named chunks [] sources Es (Forall_nil _)) as [H1 H2].
        eexists. split; [reflexivity|]. split.
        -- split; [now apply or_else_truthy|exact H1].
        -- intros response' chunks' E E'. injection E as <-.
           rewrite Ec in E'. injection E' as <-. exact H2.
      * exists degraded. split; [reflexivity|]. split.
        -- split; [reflexivity|constructor].
        -- intros; cbn; lia.
    + eexists. split; [reflexivity|]. split.
      * split; [now apply or_else_truthy|constructor].
      * intros response' chunks' E E'. injection E as <-. congruence.
Qed.

(** X12.  Every result of [executeResearchStep] is presentable: its finding
    is not empty, each of its sources has a title and a uri that are not
    empty, and it has at most as many sources as the response had grounding
    chunks (none when the response had no grounding metadata). *)
Theorem research_result_presentable W step s :
  exists result,
    fst (executeResearchStep W step s) = Fulfilled result
    /\ ResearchResult.finding result <> ""
    /\ Forall (fun src => Source.title src <> "" /\ Source.uri src <> "")
         (ResearchResult.sources result)
    /\ forall response,
         researcher_api W (List.length (researcher_calls s)) step
         = ResearcherResponds response ->
         match GenerateContentResponse.groundingChunks response with
         | Some chunks =>
             List.length (ResearchResult.sources result) <= List.length chunks
         | None => ResearchResult.sources result = []
         end.
Proof.
  destruct (executeResearchStep_result W step s) as (r & Hrun & [Hf Hs] & Hlen).
  exists r. rewrite Hrun. split; [reflexivity|]. split; [|split].
  - intros E. rewrite E in Hf. discriminate Hf.
  - eapply Forall_impl; [|exact Hs]. intros src [Ht Hu].
    split; intros E; [rewrite E in Ht|rewrite E in Hu]; discriminate.
  - intros response Hreply.
    destruct (GenerateContentResponse.groundingChunks response) as [chunks|] eqn:Ec.
    + now apply (Hlen response chunks).
    + revert Hrun. unfold executeResearchStep, try_catch, research_attempt, bind.
      cbn [call_researcher]. rewrite Hreply, Ec. intros E. now injection E as <-.
Qed.

(** ** Sources and current step during approval *)

Lemma grows_app srcs l1 l2 :
  grows srcs l1 -> grows (last_sources srcs l1) l2 -> grows srcs (l1 ++ l2).
Proof.
  revert srcs. induction l1 as [|a l1 IH]; intros srcs H1 H2; [exact H2|].
  cbn in *. destruct H1 as [Ha H1]. split; [exact Ha|]. now apply IH.
Qed.

Lemma last_sources_app srcs l1 l2 :
  last_sources srcs (l1 ++ l2) = last_sources (last_sources srcs l1) l2.
Proof. apply fold_left_app. Qed.

Lemma grows_extends srcs l :
  grows srcs l -> exists added, last_sources srcs l = (srcs ++ added)%list.
Proof.
  revert srcs. induction l as [|a l IH]; intros srcs H.
  - exists []. cbn. now rewrite app_nil_r.
  - cbn in *. destruct H as [[added Ha] H]. destruct (IH _ H) as [added' E].
    exists (added ++ added')%list. unfold last_sources in E. rewrite E, Ha.
    now rewrite app_assoc.
Qed.

Lemma grows_same srcs l :
  Forall (fun a => ArtifactState.sources a = srcs) l -> grows srcs l.
Proof.
  induction 1 as [|a l Ha _ IH]; cbn; [exact I|].
  split; [exists []; now rewrite app_nil_r|]. now rewrite Ha.
Qed.

Lemma last_sources_same srcs l :
  Forall (fun a => ArtifactState.sources a = srcs) l -> last_sources srcs l = srcs.
Proof.
  induction 1 as [|a l Ha _ IH]; cbn; [reflexivity|].
  unfold last_sources in IH. now rewrite Ha.
Qed.

Lemma research_loop_trace W steps : forall acc s,
  exists results s',
    research_loop W steps acc s = (Fulfilled (acc ++ completions steps results)%list, s')
    /\ LoopTrace steps s s' results.
Proof.
  induction steps as [|step rest IH]; intros acc s.
  - exists [], s. split; [cbn; now rewrite app_nil_r|].
    constructor; try reflexivity; [constructor|].
    exists []. cbn. rewrite app_nil_r. auto.
  - rewrite research_loop_cons. cbv zeta.
    destruct (executeResearchStep_result W step
                (snd (setArtifact
                        (ArtifactState.with_currentStepId
                           (Some (ResearchStep.id step))) s)))
      as (r & Hr & Hnamed & _).
    rewrite Hr.
    match goal with
    | |- context [research_loop W rest ?a ?s3] =>
        destruct (IH a s3) as (results & s' & Hrun & Hpost)
    end.
    exists (r :: results), s'. split.
    + rewrite Hrun. cbn. now rewrite <- app_assoc.
    + destruct Hpost as [Hres Hnm Hrp Hsrc [l [Hl [Hmarks [Hgrows Hlast]]]]].
      cbn [setArtifact call_researcher snd artifact artifact_log reporter_calls
           accumulate_sources ArtifactState.with_sources
           ArtifactState.with_currentStepId ArtifactState.sources
           ArtifactState.currentStepId] in *.
      constructor.
      * cbn. now rewrite Hres.
      * now constructor.
      * exact Hrp.
      * rewrite Hsrc. reflexivity.
      * eexists (_ :: _ :: l). split; [|split; [|split]].
        -- rewrite Hl. rewrite <- !app_assoc. reflexivity.
        -- cbn [map current_marks flat_map app ArtifactState.currentStepId].
           unfold current_marks in Hmarks. now rewrite Hmarks.
        -- cbn [grows ArtifactState.sources]. split; [|split].
           ++ exists []. now rewrite app_nil_r.
           ++ eexists. reflexivity.
           ++ exact Hgrows.
        -- exact Hlast.
Qed.

Lemma for_await_frame chunks : forall s,
  exists l,
    artifact_log (snd (for_await chunks append_chunk s)) = (artifact_log s ++ l)%list
    /\ Forall (fun a => same_but_content a (artifact s)) l
    /\ same_but_content (artifact (snd (for_await chunks append_chunk s))) (artifact s)
    /\ reporter_calls (snd (for_await chunks append_chunk s)) = reporter_calls s.
Proof.
  induction chunks as [|chunk rest IH]; intros s.
  - exists []. cbn. rewrite app_nil_r. repeat split; auto.
  - assert (Hskip : truthy_opt chunk = false ->
                    for_await (chunk :: rest) append_chunk s
                    = for_await rest append_chunk s).
    { destruct chunk as [[|c t]|]; cbn; intros; try discriminate; reflexivity. }
    destruct (truthy_opt chunk) eqn:Ht.
    + destruct chunk as [[|c t]|]; try discriminate.
      change (for_await (Some (String c t) :: rest) append_chunk s)
        with (for_await rest append_chunk (snd (append_chunk (String c t) s))).
      destruct (IH (snd (append_chunk (String c t) s))) as (l & Hl & Hall & Hfin & Hrp).
      cbn [append_chunk setArtifact snd artifact artifact_log reporter_calls] in *.
      eexists (_ :: l). split; [|split; [|split]].
      * rewrite Hl. rewrite <- app_assoc. reflexivity.
      * constructor; [repeat split|].
        eapply Forall_impl; [|exact Hall]. intros a Ha. exact Ha.
      * exact Hfin.
      * exact Hrp.
    + rewrite (Hskip eq_refl). apply IH.
Qed.

Lemma report_phase_frame W plan completedSteps s :
  let s' := snd (report_phase W plan completedSteps s) in
  reporter_calls s'
  = (reporter_calls s ++ [(ResearchPlan.topic plan, completedSteps)])%list
  /\ ArtifactState.sources (artifact s') = ArtifactState.sources (artifact s)
  /\ ArtifactState.currentStepId (artifact s') = None
  /\ exists l,
       artifact_log s' = (artifact_log s ++ reporting_artifact (artifact s) :: l)%list
       /\ Forall (fun a => ArtifactState.sources a = ArtifactState.sources (artifact s)
                           /\ ArtifactState.currentStepId a = None) l.
Proof.
  cbv zeta. unfold report_phase.
  destruct (reporter_api W (List.length (reporter_calls s)) (ResearchPlan.topic plan)
              completedSteps) as [|chunks ends].
  - cbn. repeat split. exists []. auto.
  - destruct (for_await_frame chunks (report_start W plan completedSteps s))
      as (l & Hl & Hall & (_ & _ & Hsrc & Hcur) & Hrp).
    assert (Hall' : Forall (fun a => ArtifactState.sources a
                                     = ArtifactState.sources (artifact s)
                                     /\ ArtifactState.currentStepId a = None) l).
    { eapply Forall_impl; [|exact Hall]. intros a (_ & _ & H1 & H2). auto. }
    cbn [report_start artifact artifact_log reporter_calls reporting_artifact
         ArtifactState.with_phase ArtifactState.with_currentStepId
         ArtifactState.sources ArtifactState.currentStepId] in *.
    destruct (for_await chunks append_chunk (report_start W plan completedSteps s))
      as [[u|] s4]; cbn [snd] in *.
    + destruct ends; cbn [setArtifact snd artifact artifact_log reporter_calls
                            ArtifactState.with_phase ArtifactState.sources
                            ArtifactState.currentStepId].
      * split; [exact Hrp|]. split; [exact Hsrc|]. split; [exact Hcur|].
        exists (l ++ [ArtifactState.with_phase completed (artifact s4)])%list.
        split; [rewrite Hl; now rewrite <- !app_assoc|].
        apply Forall_app. split; [exact Hall'|]. constructor; [|constructor].
        cbn. auto.
      * split; [exact Hrp|]. split; [exact Hsrc|]. split; [exact Hcur|].
        exists l. split; [rewrite Hl; now rewrite <- !app_assoc|exact Hall'].
    + split; [exact Hrp|]. split; [exact Hsrc|]. split; [exact Hcur|].
      exists l. split; [rewrite Hl; now rewrite <- !app_assoc|exact Hall'].
Qed.

Lemma handlePlanApproval_trace W plan s :
  exists results,
    ApprovalTrace plan s (snd (handlePlanApproval W plan s)) results.
Proof.
  rewrite handlePlanApproval_stages.
  destruct (research_loop_trace W (ResearchPlan.steps plan) [] (approval_start W plan s))
    as (results & s2 & Hloop & Hpost).
  cbn [app] in Hloop. rewrite Hloop. exists results.
  destruct Hpost as [Hres Hnm Hrp Hsrc [l1 [Hl1 [Hmarks [Hgrows Hlast]]]]].
  destruct (report_phase_frame W plan
              (completions (ResearchPlan.steps plan) results) s2)
    as (Rrp & Rsrc & Rcur & l2 & Hl2 & Hall2).
  cbn [approval_start artifact artifact_log reporter_calls ArtifactState.with_phase
       ArtifactState.sources] in *.
  constructor.
  - exact Hres.
  - exact Hnm.
  - rewrite Rrp, Hrp. reflexivity.
  - rewrite Rsrc. exact Hsrc.
  - exact Rcur.
  - exists l1, (reporting_artifact (artifact s2) :: l2). split; [|split; [|split; [|split]]].
    + rewrite Hl2, Hl1. rewrite <- !app_assoc. reflexivity.
    + exact Hmarks.
    + discriminate.
    + constructor; [reflexivity|].
      eapply Forall_impl; [|exact Hall2]. intros a [_ H]. exact H.
    + cbn [grows ArtifactState.with_phase ArtifactState.sources].
      split; [exists []; now rewrite app_nil_r|].
      apply grows_app; [exact Hgrows|]. rewrite Hlast.
      apply grows_same. constructor; [reflexivity|].
      eapply Forall_impl; [|exact Hall2]. intros a [H _]. exact H.
Qed.

Lemma merge_sources_In srcs r src :
  In src (merge_sources srcs r) ->
  In src srcs \/ In src (ResearchResult.sources r).
Proof.
  unfold merge_sources. rewrite in_app_iff, filter_In. tauto.
Qed.

Lemma merge_sources_uris srcs r u :
  In u (map Source.uri (merge_sources srcs r)) <->
  In u (map Source.uri srcs) \/ In u (map Source.uri (ResearchResult.sources r)).
Proof.
  unfold merge_sources. rewrite map_app, in_app_iff. split.
  - intros [H|H]; [now left|right].
    apply in_map_iff in H as (src & E & Hsrc). apply filter_In in Hsrc as [Hsrc _].
    rewrite <- E. now apply in_map.
  - intros [H|H]; [now left|].
    destruct (has_uri srcs u) eqn:E.
    + left. now apply has_uri_In.
    + right. apply in_map_iff in H as (src & Eu & Hsrc). apply in_map_iff.
      exists src. split; [exact Eu|]. apply filter_In. split; [exact Hsrc|].
      now rewrite Eu, E.
Qed.

Lemma accumulate_all_In results : forall srcs src,
  In src (accumulate_all results srcs) ->
  In src srcs \/ exists r, In r results /\ In src (ResearchResult.sources r).
Proof.
  induction results as [|r results IH]; intros srcs src H; [now left|].
  cbn [accumulate_all fold_left] in H. apply IH in H as [H|(r' & Hr' & H)].
  - apply merge_sources_In in H as [H|H]; [now left|].
    right. exists r. split; [now left|exact H].
  - right. exists r'. split; [now right|exact H].
Qed.

Lemma accumulate_all_uris results : forall srcs u,
  In u (map Source.uri (accumulate_all results srcs)) <->
  In u (map Source.uri srcs)
  \/ exists r, In r results /\ In u (map Source.uri (ResearchResult.sources r)).
Proof.
  induction results as [|r results IH]; intros srcs u.
  - cbn. split; [now left|]. intros [H|(r & [] & _)]. exact H.
  - cbn [accumulate_all fold_left]. fold (accumulate_all results (merge_sources srcs r)).
    rewrite IH, merge_sources_uris. split.
    + intros [[H|H]|(r' & Hr' & H)]; [now left| |].
      * right. exists r. split; [now left|exact H].
      * right. exists r'. split; [now right|exact H].
    + intros [H|(r' & [<-|Hr'] & H)]; [now left; left|now left; right|].
      right. exists r'. auto.
Qed.

Lemma accumulate_all_extends results : forall srcs,
  exists added, accumulate_all results srcs = (srcs ++ added)%list.
Proof.
  induction results as [|r results IH]; intros srcs.
  - exists []. cbn. now rewrite app_nil_r.
  - cbn [accumulate_all fold_left]. fold (accumulate_all results (merge_sources srcs r)).
    destruct (IH (merge_sources srcs r)) as [added E]. rewrite E.
    unfold merge_sources. rewrite <- app_assoc. eexists. reflexivity.
Qed.

Lemma completions_sources steps : forall results,
  List.length results = List.length steps ->
  forall found,
    (exists c, In c (completions steps results)
               /\ ResearchStep.sources c = Some found)
    <-> exists r, In r results /\ ResearchResult.sources r = found.
Proof.
  unfold completions.
  induction steps as [|step rest IH]; intros [|r results] Hlen found;
    try discriminate Hlen.
  - cbn. split; intros (x & [] & _).
  - cbn in Hlen. injection Hlen as Hlen. cbn [combine map fst snd]. split.
    + intros (c & [<-|Hc] & E).
      * cbn in E. injection E as <-. exists r. split; [now left|reflexivity].
      * destruct (proj1 (IH results Hlen found)) as (r' & Hr' & E').
        { exists c. auto. }
        exists r'. split; [now right|exact E'].
    + intros (r' & [<-|Hr'] & E).
      * exists (complete step r). split; [now left|]. cbn. now rewrite E.
      * destruct (proj2 (IH results Hlen found)) as (c & Hc & E').
        { exists r'. auto. }
        exists c. split; [now right|exact E'].
Qed.

(** X13.  During [handlePlanApproval] the sources of the artifact only grow:
    every value stored extends the sources of the value before it at the end,
    so the sources held at the call are a prefix of the sources at every
    later moment and of the final ones; no source is removed or reordered. *)
Theorem sources_only_grow W plan s :
  let s' := snd (handlePlanApproval W plan s) in
  (exists l,
      artifact_log s' = (artifact_log s ++ l)%list
      /\ grows (ArtifactState.sources (artifact s)) l)
  /\ exists added,
       ArtifactState.sources (artifact s')
       = (ArtifactState.sources (artifact s) ++ added)%list.
Proof.
  cbv zeta. destruct (handlePlanApproval_trace W plan s) as [results H].
  destruct H as [_ _ _ Hsrc _ (l1 & l2 & Hlog & _ & _ & _ & Hgrows)].
  split.
  - eexists. split; [exact Hlog|exact Hgrows].
  - rewrite Hsrc. apply accumulate_all_extends.
Qed.

(** X14.  The deduplication loses no page and invents none: after
    [handlePlanApproval] a uri is among the sources of the artifact exactly
    when it was there at the call or some completed step handed to the
    reporter has a source with that uri. *)
Theorem sources_cover_results W plan s :
  let s' := snd (handlePlanApproval W plan s) in
  exists completedSteps,
    reporter_calls s'
    = (reporter_calls s ++ [(ResearchPlan.topic plan, completedSteps)])%list
    /\ forall u,
         In u (map Source.uri (ArtifactState.sources (artifact s'))) <->
         In u (map Source.uri (ArtifactState.sources (artifact s)))
         \/ exists c found,
              In c completedSteps
              /\ ResearchStep.sources c = Some found
              /\ In u (map Source.uri found).
Proof.
  cbv zeta. destruct (handlePlanApproval_trace W plan s) as [results H].
  destruct H as [Hlen _ Hrp Hsrc _ _].
  eexists. split; [exact Hrp|]. intros u. rewrite Hsrc, accumulate_all_uris.
  split; (intros [H|H]; [now left|right]).
  - destruct H as (r & Hr & Hu).
    destruct (proj2 (completions_sources _ _ Hlen (ResearchResult.sources r)))
      as (c & Hc & E).
    { exists r. auto. }
    exists c, (ResearchResult.sources r). auto.
  - destruct H as (c & found & Hc & E & Hu).
    destruct (proj1 (completions_sources _ _ Hlen found)) as (r & Hr & E').
    { exists c. auto. }
    exists r. split; [exact Hr|]. now rewrite E'.
Qed.

(** X15.  When the uris of the artifact's sources are pairwise different at
    the call and no single result of the researcher names a uri twice, the
    uris of the sources are pairwise different after [handlePlanApproval],
    however much the results of different steps overlap. *)
Theorem sources_stay_distinct W plan s :
  NoDup (map Source.uri (ArtifactState.sources (artifact s))) ->
  (forall step s0 result,
      fst (executeResearchStep W step s0) = Fulfilled result ->
      NoDup (map Source.uri (ResearchResult.sources result))) ->
  NoDup (map Source.uri
           (ArtifactState.sources (artifact (snd (handlePlanApproval W plan s))))).
Proof.
  intros Hs Hdistinct. rewrite handlePlanApproval_stages.
  pose proof (research_loop_sources_NoDup W (ResearchPlan.steps plan) Hdistinct []
                (approval_start W plan s) Hs) as Hloop.
  destruct (research_loop W (ResearchPlan.steps plan) [] (approval_start W plan s))
    as [[completedSteps|] s2]; cbn [snd] in *; [|exact Hloop].
  destruct (report_phase_frame W plan completedSteps s2) as (_ & Hsrc & _).
  now rewrite Hsrc.
Qed.

Lemma sources_stay_distinct_witness :
  map Source.uri (ArtifactState.sources (artifact solar_done))
  = ["https://a.example/panels"; "https://b.example/cells"]
  /\ NoDup (map Source.uri (ArtifactState.sources (artifact solar_done))).
Proof.
  split; [reflexivity|].
  apply (sources_stay_distinct solar_world solar_approved
           (snd (handleInitialRequest solar_world solar_start))).
  - constructor.
  - intros step s0 result.
    unfold executeResearchStep, try_catch, research_attempt, bind.
    cbn [call_researcher solar_world researcher_api].
    destruct (List.length (researcher_calls s0) =? 1)%nat; cbn;
      intros E; injection E as <-; cbn.
    + constructor.
    + repeat constructor; cbn; intuition discriminate.
Defined.

(** X16.  A failure of the reporter is neither caught nor repaired.  When
    [generateContentStream] rejects, [handlePlanApproval] rejects with the
    artifact left in phase reporting and its content untouched; when the
    stream throws after some chunks, it rejects in phase reporting with the
    texts of those chunks appended to the content; only a stream that ends
    makes it settle fulfilled, in phase completed. *)
Theorem reporter_failure_propagates W plan s :
  let outcome := fst (handlePlanApproval W plan s) in
  let s' := snd (handlePlanApproval W plan s) in
  exists completedSteps,
    reporter_calls s'
    = (reporter_calls s ++ [(ResearchPlan.topic plan, completedSteps)])%list
    /\ match reporter_api W (List.length (reporter_calls s))
               (ResearchPlan.topic plan) completedSteps with
       | StreamRejects =>
           outcome = Rejected
           /\ ArtifactState.phase (artifact s') = reporting
           /\ ArtifactState.content (artifact s') = ArtifactState.content (artifact s)
       | StreamOpens chunks ends =>
           ArtifactState.content (artifact s')
           = (ArtifactState.content (artifact s)
              ++ join (map chunk_text chunks))%string
           /\ if ends
              then outcome = Fulfilled tt
                   /\ ArtifactState.phase (artifact s') = completed
              else outcome = Rejected
                   /\ ArtifactState.phase (artifact s') = reporting
       end.
Proof.
  cbv zeta. rewrite handlePlanApproval_stages.
  destruct (research_loop_spec W (ResearchPlan.steps plan) [] (approval_start W plan s))
    as (results & s2 & Hloop & Hpost).
  cbn [app] in Hloop. rewrite Hloop.
  exists (completions (ResearchPlan.steps plan) results).
  destruct Hpost as [_ _ _ _ _ _ Hrp _ _ Hco _ _].
  cbn [approval_start reporter_calls artifact ArtifactState.with_phase
       ArtifactState.content] in *.
  unfold report_phase. rewrite Hrp.
  destruct (reporter_api W (List.length (reporter_calls s)) (ResearchPlan.topic plan)
              (completions (ResearchPlan.steps plan) results)) as [|chunks ends].
  - cbn [fst snd report_start reporter_calls artifact reporting_artifact
         ArtifactState.with_phase ArtifactState.with_currentStepId
         ArtifactState.phase ArtifactState.content].
    rewrite Hrp. auto.
  - destruct (for_await_spec chunks
                (report_start W plan (completions (ResearchPlan.steps plan) results) s2))
      as (s4 & Hrun & Hsp).
    rewrite Hrun.
    destruct Hsp as [_ _ _ _ _ _ Srp _ Sph _ _ Sco _].
    cbn [report_start reporter_calls artifact reporting_artifact
         ArtifactState.with_phase ArtifactState.with_currentStepId
         ArtifactState.phase ArtifactState.content] in *.
    destruct ends;
      cbn [setArtifact fst snd reporter_calls artifact ArtifactState.with_phase
           ArtifactState.phase ArtifactState.content];
      rewrite Srp, Hrp, Sco, Hco; auto.
Qed.

(** X17.  The loop marks one step at a time, in plan order: the marks of
    the values it stores are the ids of the plan's steps, each for the two
    updates of its iteration, so every mark is the id of a step of the
    approved plan; from the reporting transition on, every stored value and
    the final artifact have no current step, whatever the outcome. *)
Theorem one_current_step_at_a_time W plan s :
  let s' := snd (handlePlanApproval W plan s) in
  ArtifactState.currentStepId (artifact s') = None
  /\ exists l1 l2,
       artifact_log s' =
       (artifact_log s
          ++ ArtifactState.with_phase researching (artifact s) :: l1 ++ l2)%list
       /\ map ArtifactState.currentStepId l1
          = flat_map (fun st => [Some (ResearchStep.id st); Some (ResearchStep.id st)])
              (ResearchPlan.steps plan)
       /\ Forall (fun a => exists st,
                     In st (ResearchPlan.steps plan)
                     /\ ArtifactState.currentStepId a = Some (ResearchStep.id st)) l1
       /\ l2 <> []
       /\ Forall (fun a => ArtifactState.currentStepId a = None) l2.
Proof.
  cbv zeta. destruct (handlePlanApproval_trace W plan s) as [results H].
  destruct H as [_ _ _ _ Hcur (l1 & l2 & Hlog & Hmarks & Hne & Hnone & _)].
  split; [exact Hcur|]. exists l1, l2.
  split; [exact Hlog|]. split; [exact Hmarks|]. split; [|auto].
  apply Forall_forall. intros a Ha.
  assert (Hin : In (ArtifactState.currentStepId a) (map ArtifactState.currentStepId l1))
    by now apply in_map.
  rewrite Hmarks in Hin. unfold current_marks in Hin.
  apply in_flat_map in Hin as (st & Hst & [E|[E|[]]]); exists st; auto.
Qed.

Lemma accumulate_all_named results srcs :
  Forall source_named srcs ->
  Forall result_named results ->
  Forall source_named (accumulate_all results srcs).
Proof.
  intros Hs Hr. apply Forall_forall. intros src Hsrc.
  apply accumulate_all_In in Hsrc as [H|(r & Hr' & H)].
  - rewrite Forall_forall in Hs. now apply Hs.
  - rewrite Forall_forall in Hr. destruct (Hr r Hr') as [_ Hnamed].
    rewrite Forall_forall in Hnamed. now apply Hnamed.
Qed.

(** X18.  [handlePlanApproval] keeps the reference list presentable: when
    every source of the artifact has a title and a uri that are not empty at
    the call, so has every source afterwards. *)
Theorem sources_stay_presentable W plan s :
  Forall (fun src => Source.title src <> "" /\ Source.uri src <> "")
    (ArtifactState.sources (artifact s)) ->
  Forall (fun src => Source.title src <> "" /\ Source.uri src <> "")
    (ArtifactState.sources (artifact (snd (handlePlanApproval W plan s)))).
Proof.
  intros Hs. destruct (handlePlanApproval_trace W plan s) as [results H].
  destruct H as [_ Hnamed _ Hsrc _ _]. rewrite Hsrc.
  assert (Hn : forall src, source_named src <->
                           Source.title src <> "" /\ Source.uri src <> "").
  { intros [t u]. unfold source_named. cbn.
    destruct t, u; cbn; split; intros [H1 H2]; split; congruence. }
  eapply Forall_impl; [intros src; apply (proj1 (Hn src))|].
  apply accumulate_all_named; [|exact Hnamed].
  eapply Forall_impl; [intros src; apply (proj2 (Hn src))|exact Hs].
Qed.

Lemma sources_stay_presentable_witness :
  Forall (fun src => Source.title src <> "" /\ Source.uri src <> "")
    (ArtifactState.sources (artifact solar_done)).
Proof.
  apply (sources_stay_presentable solar_world solar_approved
           (snd (handleInitialRequest solar_world solar_start))).
  constructor.
Defined.

Lemma reporter_failure_propagates_witness :
  let s := snd (handleInitialRequest broken_stream_world
                  (typed "tides" (App_initial broken_stream_world))) in
  fst (handlePlanApproval broken_stream_world
         (ResearchPlan.mk "tides" [ResearchStep.mk "step-0" "tides" pending None None]) s)
  = Rejected
  /\ ArtifactState.phase
       (artifact (snd (handlePlanApproval broken_stream_world
                         (ResearchPlan.mk "tides"
                            [ResearchStep.mk "step-0" "tides" pending None None]) s)))
     = reporting
  /\ ArtifactState.content
       (artifact (snd (handlePlanApproval broken_stream_world
                         (ResearchPlan.mk "tides"
                            [ResearchStep.mk "step-0" "tides" pending None None]) s)))
     = "# Tides rise".
Proof.
  cbv zeta.
  destruct (reporter_failure_propagates broken_stream_world
              (ResearchPlan.mk "tides" [ResearchStep.mk "step-0" "tides" pending None None])
              (snd (handleInitialRequest broken_stream_world
                      (typed "tides" (App_initial broken_stream_world)))))
    as (completedSteps & _ & H).
  cbn [broken_stream_world reporter_api] in H.
  destruct H as (Hcontent & Hout & Hphase).
  split; [exact Hout|]. split; [exact Hphase|]. exact Hcontent.
Defined.

Lemma sources_grow_log W plan s :
  exists l,
    artifact_log (snd (handlePlanApproval W plan s)) = (artifact_log s ++ l)%list
    /\ grows (ArtifactState.sources (artifact s)) l.
Proof.
  destruct (handlePlanApproval_trace W plan s) as [results H].
  destruct H as [_ _ _ _ _ (l1 & l2 & Hlog & _ & _ & _ & Hgrows)].
  eexists. split; [exact Hlog|exact Hgrows].
Qed.

(** ** Progress marks *)

Lemma grows_all_extend l : forall srcs,
  grows srcs l ->
  Forall (fun b => exists added, ArtifactState.sources b = (srcs ++ added)%list) l.
Proof.
  induction l as [|a l IH]; intros srcs H; [constructor|].
  cbn in H. destruct H as [[added Ha] H]. constructor; [now exists added|].
  eapply Forall_impl; [|exact (IH _ H)]. intros b [added' Hb].
  exists (added ++ added')%list. rewrite Hb, Ha. now rewrite app_assoc.
Qed.

Lemma grows_suffix pre : forall srcs l,
  grows srcs (pre ++ l) -> exists srcs', grows srcs' l.
Proof.
  induction pre as [|a pre IH]; intros srcs l H; [now exists srcs|].
  cbn in H. destruct H as [_ H]. exact (IH _ l H).
Qed.

Lemma grows_later srcs pre a mid b post :
  grows srcs (pre ++ a :: mid ++ b :: post) ->
  List.length (ArtifactState.sources a) <= List.length (ArtifactState.sources b).
Proof.
  intros H. apply grows_suffix in H as [srcs' H]. cbn in H. destruct H as [_ H].
  apply grows_all_extend in H. rewrite Forall_forall in H.
  destruct (H b) as [added E]; [apply in_or_app; right; now left|].
  rewrite E, length_app. lia.
Qed.

(** X19.  The marks of the research log never fall back.  At any moment a
    step shown as done is preceded only by steps shown as done or active; and
    of two values the artifact takes during [handlePlanApproval], a step
    shown as done under the earlier one is not shown as pending under the
    later one. *)
Theorem progress_marks_never_fall_back W plan s :
  (forall artifact idx idx' step step',
      idx' <= idx ->
      step_badge artifact idx step = badge_done ->
      step_badge artifact idx' step' <> badge_pending)
  /\ forall pre a mid b post idx step,
       artifact_log (snd (handlePlanApproval W plan s))
       = (artifact_log s ++ pre ++ a :: mid ++ b :: post)%list ->
       step_badge a idx step = badge_done ->
       step_badge b idx step <> badge_pending.
Proof.
  assert (Hdone : forall artifact idx step,
             step_badge artifact idx step = badge_done ->
             idx * 2 < List.length (ArtifactState.sources artifact)).
  { intros artifact idx step. unfold step_badge.
    destruct (is_current artifact step); [discriminate|].
    destruct (idx * 2 <? _)%nat eqn:E; [|discriminate].
    intros _. now apply Nat.ltb_lt. }
  assert (Hnot : forall artifact idx step,
             idx * 2 < List.length (ArtifactState.sources artifact) ->
             step_badge artifact idx step <> badge_pending).
  { intros artifact idx step H. unfold step_badge.
    destruct (is_current artifact step); [discriminate|].
    apply Nat.ltb_lt in H. rewrite H. discriminate. }
  split.
  - intros artifact idx idx' step step' Hle H. apply Hnot.
    apply Hdone in H. lia.
  - intros pre a mid b post idx step Hlog H. apply Hnot. apply Hdone in H.
    destruct (sources_grow_log W plan s) as (l & Hl & Hgrows).
    rewrite Hl in Hlog. apply app_inv_head in Hlog. subst l.
    apply grows_later in Hgrows. lia.
Qed.

(** ** The report view: lines *)

Lemma split_lines_cons content :
  exists line lines, SimpleMarkdown.split_lines content = line :: lines.
Proof.
  destruct content as [|c rest]; cbn [SimpleMarkdown.split_lines]; [now eexists _, _|].
  destruct (Ascii.eqb c SimpleMarkdown.newline); [now eexists _, _|].
  destruct (SimpleMarkdown.split_lines rest); now eexists _, _.
Qed.

Lemma join_lines_cons line lines :
  join_lines (line :: lines)
  = match lines with
    | [] => line
    | _ => (line ++ String SimpleMarkdown.newline (join_lines lines))%string
    end.
Proof. destruct lines; reflexivity. Qed.

Lemma split_lines_join content :
  join_lines (SimpleMarkdown.split_lines content) = content.
Proof.
  induction content as [|c rest IH]; [reflexivity|].
  cbn [SimpleMarkdown.split_lines].
  destruct (split_lines_cons rest) as (line & lines & E). rewrite E in *.
  destruct (Ascii.eqb c SimpleMarkdown.newline) eqn:Ec.
  - apply Ascii.eqb_eq in Ec. subst c. rewrite join_lines_cons.
    cbn [String.append]. now rewrite IH.
  - rewrite join_lines_cons. rewrite join_lines_cons in IH.
    destruct lines; cbn [String.append]; now rewrite <- IH.
Qed.

Lemma split_lines_length content :
  List.length (SimpleMarkdown.split_lines content) = S (count_newlines content).
Proof.
  induction content as [|c rest IH]; [reflexivity|].
  cbn [SimpleMarkdown.split_lines count_newlines].
  destruct (split_lines_cons rest) as (line & lines & E). rewrite E in *.
  destruct (Ascii.eqb c SimpleMarkdown.newline); cbn in *; lia.
Qed.

Lemma split_lines_no_newline content :
  Forall (fun line => occurs SimpleMarkdown.newline line = false)
    (SimpleMarkdown.split_lines content).
Proof.
  induction content as [|c rest IH]; [repeat constructor|].
  cbn [SimpleMarkdown.split_lines].
  destruct (split_lines_cons rest) as (line & lines & E). rewrite E in *.
  inversion IH as [|? ? Hline Hlines]; subst.
  destruct (Ascii.eqb c SimpleMarkdown.newline) eqn:Ec.
  - constructor; [reflexivity|]. now constructor.
  - constructor; [|exact Hlines]. cbn [occurs]. now rewrite Ec, Hline.
Qed.

(** X20.  The renderer drops nothing at the line level: the lines it renders,
    joined by line feeds, are the content; it renders one block per line,
    that is one more than the content has line feeds (one block for an empty
    content); and no line contains a line feed. *)
Theorem render_one_block_per_line (content : string) (isStreaming : bool) :
  join_lines (SimpleMarkdown.split_lines content) = content
  /\ List.length (fst (SimpleMarkdown.render content isStreaming))
     = S (count_newlines content)
  /\ Forall (fun line => occurs SimpleMarkdown.newline line = false)
       (SimpleMarkdown.split_lines content)
  /\ snd (SimpleMarkdown.render content isStreaming) = isStreaming.
Proof.
  split; [apply split_lines_join|]. split; [|split; [apply split_lines_no_newline|reflexivity]].
  unfold SimpleMarkdown.render. cbn [fst]. rewrite length_map.
  apply split_lines_length.
Qed.

Lemma split_lines_app a b :
  SimpleMarkdown.split_lines (a ++ b) =
  (removelast (SimpleMarkdown.split_lines a)
   ++ (last (SimpleMarkdown.split_lines a) EmptyString
       ++ hd EmptyString (SimpleMarkdown.split_lines b))%string
      :: tl (SimpleMarkdown.split_lines b))%list.
Proof.
  induction a as [|c rest IH].
  - cbn. destruct (split_lines_cons b) as (line & lines & E). now rewrite E.
  - cbn [String.append SimpleMarkdown.split_lines].
    destruct (split_lines_cons rest) as (line & lines & E).
    destruct (Ascii.eqb c SimpleMarkdown.newline).
    + rewrite IH, E. reflexivity.
    + rewrite IH, E. destruct lines as [|l2 lines]; reflexivity.
Qed.

(** X21.  Rendering is stable under streaming: when text is appended to the
    content, the blocks of all lines but the last stay as they are; and when
    the appended text contains no line feed, only the last block changes and
    the number of blocks stays the same.  So each chunk the report stream
    appends leaves the blocks of the completed lines untouched. *)
Theorem render_stable_under_append (content more : string) (b b' : bool) :
  (exists tail,
      fst (SimpleMarkdown.render (content ++ more) b)
      = (removelast (fst (SimpleMarkdown.render content b')) ++ tail)%list
      /\ tail <> [])
  /\ (occurs SimpleMarkdown.newline more = false ->
      fst (SimpleMarkdown.render (content ++ more) b)
      = (removelast (fst (SimpleMarkdown.render content b'))
         ++ [SimpleMarkdown.render_line
               (last (SimpleMarkdown.split_lines content) EmptyString ++ more)])%list)
  /\ forall s,
       exists tail,
         fst (report_view (artifact (snd (append_chunk more s))))
         = (removelast (fst (report_view (artifact s))) ++ tail)%list.
Proof.
  assert (Hmap : forall l, removelast (map SimpleMarkdown.render_line l)
                           = map SimpleMarkdown.render_line (removelast l)).
  { induction l as [|x [|y l] IH]; try reflexivity.
    cbn [map removelast] in *. now rewrite IH. }
  assert (H1 : exists tail,
             fst (SimpleMarkdown.render (content ++ more) b)
             = (removelast (fst (SimpleMarkdown.render content b')) ++ tail)%list
             /\ tail <> []).
  { unfold SimpleMarkdown.render. cbn [fst]. rewrite split_lines_app, map_app, Hmap.
    eexists. split; [reflexivity|]. discriminate. }
  split; [exact H1|]. split.
  - intros Hmore. unfold SimpleMarkdown.render. cbn [fst].
    rewrite split_lines_app, map_app, Hmap. f_equal.
    assert (E : SimpleMarkdown.split_lines more = [more]).
    { clear -Hmore. induction more as [|c rest IH]; [reflexivity|].
      cbn [occurs] in Hmore. apply orb_false_iff in Hmore as [Hc Hrest].
      cbn [SimpleMarkdown.split_lines]. rewrite Hc, (IH Hrest). reflexivity. }
    rewrite E. reflexivity.
  - intros s. unfold report_view.
    cbn [append_chunk setArtifact snd artifact ArtifactState.with_content
         ArtifactState.content ArtifactState.phase].
    unfold SimpleMarkdown.render. cbn [fst].
    rewrite split_lines_app, map_app, Hmap. eexists. reflexivity.
Qed.

(** ** The report view: headings *)

Lemma prefix_app p t : String.prefix p (p ++ t) = true.
Proof.
  induction p as [|c p IH]; cbn; [now destruct t|].
  destruct (ascii_dec c c); [exact IH|contradiction].
Qed.

Lemma prefix_split p : forall s,
  String.prefix p s = true -> exists t, s = (p ++ t)%string.
Proof.
  induction p as [|c p IH]; intros s H; [now exists s|].
  destruct s as [|x s]; cbn in H; [discriminate|].
  destruct (ascii_dec c x) as [<-|]; [|discriminate].
  destruct (IH s H) as [t ->]. now exists t.
Qed.

Lemma length_append p t :
  String.length (p ++ t) = String.length p + String.length t.
Proof. induction p as [|c p IH]; cbn; [reflexivity|now rewrite IH]. Qed.

Lemma substring_middle p q r :
  substring (String.length p) (String.length q) (p ++ q ++ r) = q.
Proof.
  induction p as [|c p IH]; cbn [String.append String.length substring]; [|exact IH].
  induction q as [|x q IHq]; cbn; [now destruct r|]. now rewrite IHq.
Qed.

Lemma replace_first_unfold pat s :
  SimpleMarkdown.replace_first pat s =
  if String.prefix pat s
  then substring (String.length pat) (String.length s - String.length pat) s
  else match s with
       | EmptyString => EmptyString
       | String c rest => String c (SimpleMarkdown.replace_first pat rest)
       end.
Proof. now destruct s. Qed.

Lemma replace_first_prefix p t : SimpleMarkdown.replace_first p (p ++ t) = t.
Proof.
  rewrite replace_first_unfold, prefix_app, length_append.
  replace (String.length p + String.length t - String.length p)
    with (String.length t) by lia.
  pose proof (substring_middle p t EmptyString) as H.
  now rewrite append_empty_r in H.
Qed.

Ltac no_other_block :=
  repeat match goal with
         | |- context [if ?b then _ else _] => destruct b
         end;
  discriminate.

(** X22.  A line is rendered as a heading exactly when it starts at its
    first column with one, two or three hash signs and a space; the heading
    shows the rest of the line as it is, markup included.  No other line is
    a heading. *)
Theorem headings_characterised (line text : string) :
  (SimpleMarkdown.render_line line = SimpleMarkdown.H1 text
   <-> line = ("# " ++ text)%string)
  /\ (SimpleMarkdown.render_line line = SimpleMarkdown.H2 text
      <-> line = ("## " ++ text)%string)
  /\ (SimpleMarkdown.render_line line = SimpleMarkdown.H3 text
      <-> line = ("### " ++ text)%string).
Proof.
  assert (Hfwd : forall p, SimpleMarkdown.startsWith line p = true ->
                           exists t, line = (p ++ t)%string
                                     /\ SimpleMarkdown.replace_first p line = t).
  { intros p H. destruct (prefix_split p line H) as [t ->]. exists t.
    split; [reflexivity|apply replace_first_prefix]. }
  unfold SimpleMarkdown.render_line.
  split; [|split]; split.
  - destruct (SimpleMarkdown.startsWith line "# ") eqn:E1.
    + destruct (Hfwd _ E1) as (t & -> & ->). intros E. now injection E as <-.
    + no_other_block.
  - intros ->. unfold SimpleMarkdown.startsWith at 1; rewrite (prefix_app "# " text).
    cbv iota. now rewrite replace_first_prefix.
  - destruct (SimpleMarkdown.startsWith line "# ") eqn:E1; [discriminate|].
    destruct (SimpleMarkdown.startsWith line "## ") eqn:E2.
    + destruct (Hfwd _ E2) as (t & -> & ->). intros E. now injection E as <-.
    + no_other_block.
  - intros ->. change (SimpleMarkdown.startsWith ("## " ++ text) "# ") with false.
    unfold SimpleMarkdown.startsWith at 1; rewrite (prefix_app "## " text).
    cbv iota. now rewrite replace_first_prefix.
  - destruct (SimpleMarkdown.startsWith line "# ") eqn:E1; [discriminate|].
    destruct (SimpleMarkdown.startsWith line "## ") eqn:E2; [discriminate|].
    destruct (SimpleMarkdown.startsWith line "### ") eqn:E3.
    + destruct (Hfwd _ E3) as (t & -> & ->). intros E. now injection E as <-.
    + no_other_block.
  - intros ->. change (SimpleMarkdown.startsWith ("### " ++ text) "# ") with false.
    change (SimpleMarkdown.startsWith ("### " ++ text) "## ") with false.
    unfold SimpleMarkdown.startsWith at 1; rewrite (prefix_app "### " text).
    cbv iota. now rewrite replace_first_prefix.
Qed.

(** ** The report view: bold spans *)

Lemma split_bold_go_join s : forall take part,
  join (SimpleMarkdown.split_bold_go s take part) = (part ++ s)%string.
Proof.
  induction s as [|c s IH]; intros take part; [reflexivity|].
  cbn [SimpleMarkdown.split_bold_go].
  destruct take as [|[|n]].
  - destruct (SimpleMarkdown.bold_length (String c s)) as [len|].
    + cbn [join fold_right]. fold (join (SimpleMarkdown.split_bold_go s (len - 1)
                                           (String c EmptyString))).
      now rewrite IH.
    + rewrite IH. now rewrite append_assoc.
  - cbn [join fold_right]. fold (join (SimpleMarkdown.split_bold_go s 0 EmptyString)).
    rewrite IH. now rewrite append_assoc.
  - rewrite IH. now rewrite append_assoc.
Qed.

Lemma bold_length_other c s :
  Ascii.eqb c "*" = false -> SimpleMarkdown.bold_length (String c s) = None.
Proof.
  intros H. cbn [SimpleMarkdown.bold_length]. destruct s; [reflexivity|].
  now rewrite H.
Qed.

Lemma split_bold_go_plain a : forall rest part,
  occurs "*" a = false ->
  SimpleMarkdown.split_bold_go (a ++ rest) 0 part
  = SimpleMarkdown.split_bold_go rest 0 (part ++ a).
Proof.
  induction a as [|c a IH]; intros rest part H.
  - cbn. now rewrite append_empty_r.
  - cbn [occurs] in H. apply orb_false_iff in H as [Hc Ha].
    cbn [String.append SimpleMarkdown.split_bold_go].
    rewrite (bold_length_other c _ Hc), (IH rest _ Ha).
    now rewrite append_assoc.
Qed.

Lemma split_bold_plain s :
  occurs "*" s = false -> SimpleMarkdown.split_bold s = [s].
Proof.
  intros H. unfold SimpleMarkdown.split_bold.
  rewrite <- (append_empty_r s) at 1. now rewrite (split_bold_go_plain s "" "" H).
Qed.

Lemma render_part_plain s :
  occurs "*" s = false -> SimpleMarkdown.render_part s = SimpleMarkdown.Text s.
Proof.
  intros H. unfold SimpleMarkdown.render_part, SimpleMarkdown.startsWith.
  destruct s as [|c s]; [reflexivity|].
  cbn [occurs] in H. apply orb_false_iff in H as [Hc _].
  cbn [String.prefix]. destruct (ascii_dec "*" c) as [<-|]; [discriminate Hc|reflexivity].
Qed.

Lemma occurs_trimStart c s : occurs c (trimStart s) = true -> occurs c s = true.
Proof.
  induction s as [|x s IH]; [auto|]. cbn [trimStart].
  destruct (isWhiteSpace x); [|auto]. intros H. cbn [occurs].
  rewrite (IH H). apply orb_true_r.
Qed.

Lemma occurs_trimEnd c s : occurs c (trimEnd s) = true -> occurs c s = true.
Proof.
  induction s as [|x s IH]; [auto|]. cbn [trimEnd occurs].
  destruct (trimEnd s) as [|y t].
  - destruct (isWhiteSpace x); cbn [occurs]; [discriminate|].
    rewrite orb_false_r. intros ->. reflexivity.
  - cbn [occurs] in *. intros H. apply orb_true_iff in H as [H|H].
    + now rewrite H.
    + rewrite (IH H). apply orb_true_r.
Qed.

Lemma occurs_trim c s : occurs c s = false -> occurs c (trim s) = false.
Proof.
  intros H. destruct (occurs c (trim s)) eqn:E; [|reflexivity].
  unfold trim in E. apply occurs_trimEnd, occurs_trimStart in E. congruence.
Qed.

Lemma startsWith_absent s c p :
  occurs c s = false -> SimpleMarkdown.startsWith s (String c p) = false.
Proof.
  intros H. unfold SimpleMarkdown.startsWith. destruct s as [|x s]; [reflexivity|].
  cbn [occurs] in H. apply orb_false_iff in H as [Hx _].
  cbn [String.prefix]. destruct (ascii_dec c x) as [<-|]; [|reflexivity].
  now rewrite Ascii.eqb_refl in Hx.
Qed.

(** X23.  Splitting a line into bold and plain parts loses no character: the
    parts, one after the other, are the line.  A line without any asterisk is
    a single plain part; if it also has no hash sign and no hyphen and is not
    blank, it is rendered as one paragraph showing the line as it is. *)
Theorem plain_text_passes_through (line : string) :
  join (SimpleMarkdown.split_bold line) = line
  /\ (occurs "*" line = false ->
      map SimpleMarkdown.render_part (SimpleMarkdown.split_bold line)
      = [SimpleMarkdown.Text line])
  /\ (occurs "*" line = false ->
      occurs "#" line = false ->
      occurs "-" line = false ->
      truthy (trim line) = true ->
      SimpleMarkdown.render_line line
      = SimpleMarkdown.P [SimpleMarkdown.Text line]).
Proof.
  split; [apply (split_bold_go_join line 0 "")|].
  assert (Hplain : occurs "*" line = false ->
                   map SimpleMarkdown.render_part (SimpleMarkdown.split_bold line)
                   = [SimpleMarkdown.Text line]).
  { intros H. rewrite (split_bold_plain line H). cbn [map].
    now rewrite (render_part_plain line H). }
  split; [exact Hplain|].
  intros Hstar Hhash Hhyphen Hblank. unfold SimpleMarkdown.render_line.
  rewrite !(startsWith_absent line "#" _ Hhash).
  rewrite (startsWith_absent (trim line) "-" _ (occurs_trim _ _ Hhyphen)).
  rewrite (startsWith_absent (trim line) "*" _ (occurs_trim _ _ Hstar)).
  rewrite Hblank. cbn [orb negb]. now rewrite (Hplain Hstar).
Qed.

Lemma plain_text_passes_through_witness :
  SimpleMarkdown.render_line "Panels convert light; cells age."
  = SimpleMarkdown.P [SimpleMarkdown.Text "Panels convert light; cells age."].
Proof.
  apply (proj2 (proj2 (plain_text_passes_through "Panels convert light; cells age.")));
    reflexivity.
Defined.

Lemma prefix_stars r : String.prefix "**" (String "*" (String "*" r)) = true.
Proof. now destruct r. Qed.

Lemma closes_inner inner rest :
  occurs "*" inner = false ->
  has_line_break inner = false ->
  SimpleMarkdown.closes (inner ++ "**" ++ rest) = Some (String.length inner).
Proof.
  intros Hstar Hterm. induction inner as [|c inner IH].
  { cbn [String.append SimpleMarkdown.closes]. now rewrite prefix_stars. }
  cbn [occurs] in Hstar. apply orb_false_iff in Hstar as [Hc Hstar].
  cbn [has_line_break] in Hterm. apply orb_false_iff in Hterm as [Ht Hterm].
  change (String c inner ++ "**" ++ rest)%string
    with (String c (inner ++ "**" ++ rest)).
  specialize (IH Hstar Hterm).
  set (tail := (inner ++ "**" ++ rest)%string) in *.
  cbn [SimpleMarkdown.closes String.length String.prefix].
  destruct (ascii_dec "*" c) as [<-|]; [discriminate Hc|].
  now rewrite Ht, IH.
Qed.

Lemma split_bold_go_match c rest part len :
  SimpleMarkdown.bold_length (String c rest) = Some len ->
  SimpleMarkdown.split_bold_go (String c rest) 0 part
  = part :: SimpleMarkdown.split_bold_go rest (len - 1) (String c EmptyString).
Proof. intros H. cbn [SimpleMarkdown.split_bold_go]. now rewrite H. Qed.

Lemma split_bold_go_take m : forall s part n,
  String.length m = S n ->
  SimpleMarkdown.split_bold_go (m ++ s) (S n) part
  = (part ++ m)%string :: SimpleMarkdown.split_bold_go s 0 EmptyString.
Proof.
  induction m as [|c m IH]; intros s part n H; [discriminate H|].
  cbn in H. injection H as H. cbn [String.append SimpleMarkdown.split_bold_go].
  destruct n as [|n].
  - destruct m; [|discriminate H]. reflexivity.
  - rewrite (IH s _ n H). now rewrite append_assoc.
Qed.

Lemma render_part_span inner :
  SimpleMarkdown.render_part ("**" ++ inner ++ "**") = SimpleMarkdown.Strong inner.
Proof.
  assert (Hlen : String.length ("**" ++ inner ++ "**") = String.length inner + 4).
  { rewrite !length_append. cbn. lia. }
  assert (E1 : SimpleMarkdown.endsWith ("**" ++ inner ++ "**") "**" = true).
  { unfold SimpleMarkdown.endsWith. rewrite Hlen. apply andb_true_iff. split.
    - apply Nat.leb_le. cbn. lia.
    - apply String.eqb_eq.
      replace (String.length inner + 4 - String.length "**")
        with (String.length ("**" ++ inner)) by (rewrite length_append; cbn; lia).
      replace ("**" ++ inner ++ "**")%string with (("**" ++ inner) ++ "**" ++ "")%string
        by (now rewrite append_assoc).
      apply substring_middle. }
  assert (E2 : SimpleMarkdown.slice_2_m2 ("**" ++ inner ++ "**") = inner).
  { unfold SimpleMarkdown.slice_2_m2. rewrite Hlen.
    replace (String.length inner + 4 - 4) with (String.length inner) by lia.
    exact (substring_middle "**" inner "**"). }
  unfold SimpleMarkdown.render_part. rewrite E1, E2.
  unfold SimpleMarkdown.startsWith. now rewrite (prefix_app "**" (inner ++ "**")).
Qed.

(** X24.  A bold span is rendered in bold without its asterisks.  When
    [before] and [inner] contain no asterisk and [inner] no line break, the
    text [before], two asterisks, [inner], two asterisks, [after] is split
    into [before], the span, and the parts of [after]; it is shown as the
    plain text [before], the bold text [inner], and then whatever [after] is
    shown as. *)
Theorem bold_span_rendered (before inner after : string) :
  occurs "*" before = false ->
  occurs "*" inner = false ->
  has_line_break inner = false ->
  SimpleMarkdown.split_bold (before ++ "**" ++ inner ++ "**" ++ after)
  = before :: ("**" ++ inner ++ "**")%string :: SimpleMarkdown.split_bold after
  /\ map SimpleMarkdown.render_part
       (SimpleMarkdown.split_bold (before ++ "**" ++ inner ++ "**" ++ after))
     = SimpleMarkdown.Text before :: SimpleMarkdown.Strong inner
       :: map SimpleMarkdown.render_part (SimpleMarkdown.split_bold after).
Proof.
  intros Hbefore Hinner Hterm.
  assert (Hsplit : SimpleMarkdown.split_bold (before ++ "**" ++ inner ++ "**" ++ after)
                   = before :: ("**" ++ inner ++ "**")%string
                     :: SimpleMarkdown.split_bold after).
  { unfold SimpleMarkdown.split_bold.
    rewrite (split_bold_go_plain before _ "" Hbefore).
    pose proof (closes_inner inner after Hinner Hterm) as Hcloses.
    assert (Em : (String "*" (inner ++ "**") ++ after)%string
                 = String "*" (inner ++ "**" ++ after)).
    { change (String "*" (inner ++ "**") ++ after)%string
        with (String "*" ((inner ++ "**") ++ after)).
      now rewrite append_assoc. }
    pose proof (split_bold_go_take (String "*" (inner ++ "**")) after "*"
                  (String.length inner + 2)) as Htake.
    rewrite Em in Htake.
    set (tail := (inner ++ "**" ++ after)%string) in *.
    change ("**" ++ tail)%string with (String "*" (String "*" tail)).
    rewrite (split_bold_go_match "*" (String "*" tail) _ (String.length inner + 4)).
    2:{ change (SimpleMarkdown.bold_length (String "*" (String "*" tail)))
          with (option_map (fun k => k + 4) (SimpleMarkdown.closes tail)).
        now rewrite Hcloses. }
    replace (String.length inner + 4 - 1) with (S (String.length inner + 2)) by lia.
    rewrite Htake; [reflexivity|].
    cbn [String.length]. rewrite length_append. cbn. lia. }
  split; [exact Hsplit|]. rewrite Hsplit. cbn [map].
  now rewrite (render_part_plain before Hbefore), render_part_span.
Qed.

Lemma bold_span_rendered_witness :
  map SimpleMarkdown.render_part
    (SimpleMarkdown.split_bold "Output fell by **12 percent** in winter.")
  = [SimpleMarkdown.Text "Output fell by "; SimpleMarkdown.Strong "12 percent";
     SimpleMarkdown.Text " in winter."].
Proof.
  apply (proj2 (bold_span_rendered "Output fell by " "12 percent" " in winter."
                  eq_refl eq_refl eq_refl)).
Defined.

(** ** The report view: list items *)

Lemma trimStart_indent indent s :
  all_white indent = true -> trimStart (indent ++ s) = trimStart s.
Proof.
  induction indent as [|w indent IH]; [reflexivity|].
  cbn [all_white]. intros H. apply andb_true_iff in H as [Hw H].
  cbn [String.append trimStart]. rewrite Hw. now apply IH.
Qed.

Lemma trimEnd_visible c t : isWhiteSpace c = false -> trimEnd (String c t) <> "".
Proof.
  intros H. cbn [trimEnd]. destruct (trimEnd t); [now rewrite H|discriminate].
Qed.

Lemma trimEnd_cons x s :
  trimEnd s <> "" -> trimEnd (String x s) = String x (trimEnd s).
Proof. intros H. cbn [trimEnd]. now destruct (trimEnd s). Qed.

Lemma prefix_empty s : String.prefix "" s = true.
Proof. now destruct s. Qed.

Lemma startsWith_other_first x s c p :
  x <> c -> SimpleMarkdown.startsWith (String x s) (String c p) = false.
Proof.
  intros H. unfold SimpleMarkdown.startsWith. cbn [String.prefix].
  destruct (ascii_dec c x); [congruence|reflexivity].
Qed.

Lemma white_not_star c : isWhiteSpace c = true -> Ascii.eqb c "*" = false.
Proof.
  intros H. destruct (Ascii.eqb c "*") eqn:E; [|reflexivity].
  apply Ascii.eqb_eq in E. subst c. discriminate H.
Qed.

Lemma all_white_no_star w : all_white w = true -> occurs "*" w = false.
Proof.
  induction w as [|c w IH]; [reflexivity|].
  cbn [all_white occurs]. intros H. apply andb_true_iff in H as [Hc Hw].
  now rewrite (white_not_star c Hc), (IH Hw).
Qed.

Lemma trimEnd_white w : all_white w = true -> trimEnd w = "".
Proof.
  induction w as [|c w IH]; [reflexivity|].
  cbn [all_white trimEnd]. intros H. apply andb_true_iff in H as [Hc Hw].
  now rewrite (IH Hw), Hc.
Qed.

Lemma startsWith_stars_second x c s :
  Ascii.eqb c "*" = false ->
  SimpleMarkdown.startsWith (String x (String c s)) "**" = false.
Proof.
  intros H. unfold SimpleMarkdown.startsWith. cbn [String.prefix].
  destruct (ascii_dec "*" x); [|reflexivity].
  destruct (ascii_dec "*" c) as [<-|]; [discriminate H|reflexivity].
Qed.

(** A marker between white space is no match of the bold pattern. *)
Lemma split_bold_bare_marker indent marker trailing :
  all_white indent = true ->
  all_white trailing = true ->
  SimpleMarkdown.split_bold (indent ++ String marker trailing)
  = [(indent ++ String marker trailing)%string].
Proof.
  intros Hindent Htrailing. unfold SimpleMarkdown.split_bold.
  rewrite (split_bold_go_plain indent _ "" (all_white_no_star _ Hindent)).
  cbn [String.append SimpleMarkdown.split_bold_go].
  assert (Hlen : SimpleMarkdown.bold_length (String marker trailing) = None).
  { cbn [SimpleMarkdown.bold_length]. destruct trailing as [|b r]; [reflexivity|].
    cbn [all_white] in Htrailing. apply andb_true_iff in Htrailing as [Hb _].
    now rewrite (white_not_star b Hb), andb_false_r. }
  rewrite Hlen. rewrite <- (append_empty_r trailing) at 1.
  rewrite (split_bold_go_plain trailing "" _ (all_white_no_star _ Htrailing)).
  cbn [SimpleMarkdown.split_bold_go]. now rewrite append_assoc.
Qed.

(** X25.  A list item may be indented and needs text after its marker.  A
    line made of white space, a hyphen or an asterisk, a space and a text that
    begins with a visible character is rendered as a list item showing the
    parts of that text; the marker and the white space around it are not
    shown.  A line made of white space, a hyphen or an asterisk and nothing
    but white space after it is no list item: it is rendered as a paragraph
    showing the line as it is. *)
Theorem list_item_rendered (indent text trailing : string) (marker c : ascii) :
  all_white indent = true ->
  marker = "-"%char \/ marker = "*"%char ->
  isWhiteSpace c = false ->
  all_white trailing = true ->
  SimpleMarkdown.render_line (indent ++ String marker (String " " (String c text)))
  = SimpleMarkdown.Li
      (map SimpleMarkdown.render_part (SimpleMarkdown.split_bold (String c text)))
  /\ SimpleMarkdown.render_line (indent ++ String marker trailing)
     = SimpleMarkdown.P [SimpleMarkdown.Text (indent ++ String marker trailing)].
Proof.
  intros Hindent Hmarker Hc Htrailing.
  assert (Hmw : isWhiteSpace marker = false) by (destruct Hmarker; subst; reflexivity).
  assert (Hhash : forall rest p,
             SimpleMarkdown.startsWith (indent ++ String marker rest) (String "#" p)
             = false).
  { intros rest p. destruct indent as [|w indent].
    - cbn [String.append]. apply startsWith_other_first.
      destruct Hmarker; subst; discriminate.
    - cbn [String.append]. apply startsWith_other_first.
      cbn [all_white] in Hindent. apply andb_true_iff in Hindent as [Hw _].
      intros ->. discriminate Hw. }
  split.
  - set (item := String c text).
    set (line := (indent ++ String marker (String " " item))%string).
    assert (Hstart : trimStart line = String marker (String " " item)).
    { unfold line. rewrite (trimStart_indent _ _ Hindent). cbn [trimStart].
      now rewrite Hmw. }
    assert (Htrim : trim line = String marker (String " " (trimEnd item))).
    { unfold trim. rewrite Hstart.
      pose proof (trimEnd_visible c text Hc) as Hv. fold item in Hv.
      rewrite trimEnd_cons; [now rewrite trimEnd_cons|].
      rewrite trimEnd_cons; [discriminate|exact Hv]. }
    assert (Hbullet : SimpleMarkdown.startsWith (trim line) "- "
                      || SimpleMarkdown.startsWith (trim line) "* " = true).
    { rewrite Htrim. unfold SimpleMarkdown.startsWith. cbn [String.prefix].
      destruct Hmarker; subst marker; cbn; rewrite prefix_empty; reflexivity. }
    assert (Hstrip : SimpleMarkdown.strip_bullet line = item).
    { unfold SimpleMarkdown.strip_bullet. rewrite Hstart.
      replace (Ascii.eqb marker "-" || Ascii.eqb marker "*") with true
        by (destruct Hmarker; subst; reflexivity).
      change (isWhiteSpace " ") with true. cbv iota.
      unfold item. cbn [trimStart]. change (isWhiteSpace " ") with true. cbv iota.
      now rewrite Hc. }
    assert (Hh : forall p, SimpleMarkdown.startsWith line (String "#" p) = false)
      by (intros p; apply Hhash).
    unfold SimpleMarkdown.render_line.
    rewrite !Hh, Hbullet, Hstrip. reflexivity.
  - set (line := (indent ++ String marker trailing)%string).
    assert (Htrim : trim line = String marker "").
    { unfold trim, line. rewrite (trimStart_indent _ _ Hindent). cbn [trimStart].
      rewrite Hmw. cbn [trimEnd]. now rewrite (trimEnd_white _ Htrailing), Hmw. }
    assert (Hbullet : SimpleMarkdown.startsWith (trim line) "- "
                      || SimpleMarkdown.startsWith (trim line) "* " = false).
    { rewrite Htrim. destruct Hmarker; subst marker; reflexivity. }
    assert (Hstars : SimpleMarkdown.startsWith line "**" = false).
    { unfold line. destruct indent as [|w indent].
      - cbn [String.append]. destruct trailing as [|b r].
        + destruct Hmarker; subst marker; reflexivity.
        + apply startsWith_stars_second, white_not_star.
          cbn [all_white] in Htrailing. now apply andb_true_iff in Htrailing as [Hb _].
      - cbn [String.append]. apply startsWith_other_first.
        cbn [all_white] in Hindent. apply andb_true_iff in Hindent as [Hw _].
        intros ->. discriminate Hw. }
    assert (Hh : forall p, SimpleMarkdown.startsWith line (String "#" p) = false)
      by (intros p; apply Hhash).
    assert (Hsplit : SimpleMarkdown.split_bold line = [line])
      by (apply split_bold_bare_marker; assumption).
    unfold SimpleMarkdown.render_line.
    rewrite !Hh, Hbullet, Htrim, Hsplit. cbn [truthy negb map].
    unfold SimpleMarkdown.render_part. now rewrite Hstars.
Qed.

Lemma list_item_rendered_witness :
  SimpleMarkdown.render_line "  - cost trends"
  = SimpleMarkdown.Li [SimpleMarkdown.Text "cost trends"]
  /\ SimpleMarkdown.render_line "  - "
     = SimpleMarkdown.P [SimpleMarkdown.Text "  - "].
Proof.
  apply (list_item_rendered "  " "ost trends" " " "-" "c");
    [reflexivity|now left|reflexivity|reflexivity].
Defined.
